(** * Run polling with rate-limit-aware retry, and the multi-agent harness

    A shallow embedding of [scripts/verify_agent.py] and of the harness in
    [scripts/test_all_agents.py].

    Conventions of the embedding.
    - Python [str] values are [string]s; the character functions are the
      ASCII ones ([str.lower] maps 'A'..'Z', [str.strip] removes the ASCII
      characters for which [str.isspace] holds); characters above 127 are
      left alone.
    - Python [float]s are exact rationals ([Q]); rounding is not modelled
      (the backoff expressions are also given on binary64 floats, to run
      them on concrete values).
    - Python sets of strings are [gset string], the error payload dict and
      [os.environ] are [gmap]s; the harness result, whose iteration order
      matters, is an insertion-ordered association list.
    - The remote service is a record of functions of the world (time and
      history); an SDK call that raises is a function that gives [None].
      Time passes only in [time.sleep], by exactly the seconds asked for.
    - The two [while] loops take fuel; [OutOfFuel] is not a result of the
      program, and enough fuel is computed from the parameters.
    - [print], and the construction of the credential and of the client,
      are not modelled. *)

From Stdlib Require Import String Ascii ZArith QArith Qround Lia Lqa List DecimalString.
From Stdlib Require Import Floats.
From stdpp Require Import base decidable option list gmap strings.
Import ListNotations.

Local Open Scope string_scope.
Local Open Scope Z_scope.

(** ** Python string operations *)

Module PyStr.

(** [c.isupper()] on an ASCII letter. *)
Definition is_upper (c : ascii) : bool :=
  let n := N_of_ascii c in (N.leb 65 n && N.leb n 90)%bool.

(** One character of [str.lower]. *)
Definition lower_char (c : ascii) : ascii :=
  if is_upper c then ascii_of_N (N_of_ascii c + 32) else c.

(** [s.lower()] *)
Fixpoint lower (s : string) : string :=
  match s with
  | EmptyString => EmptyString
  | String c t => String (lower_char c) (lower t)
  end.

(** [c.isspace()]: tab, LF, VT, FF, CR, the separators 28..31, space. *)
Definition is_space (c : ascii) : bool :=
  let n := N_of_ascii c in
  ((N.leb 9 n && N.leb n 13) || (N.leb 28 n && N.leb n 32))%bool.

(** [s.lstrip()] *)
Fixpoint lstrip (s : string) : string :=
  match s with
  | EmptyString => EmptyString
  | String c t => if is_space c then lstrip t else s
  end.

(** [s.rstrip()] *)
Fixpoint rstrip (s : string) : string :=
  match s with
  | EmptyString => EmptyString
  | String c t =>
      match rstrip t with
      | EmptyString => if is_space c then EmptyString else String c EmptyString
      | r => String c r
      end
  end.

(** [s.strip()] *)
Definition strip (s : string) : string := rstrip (lstrip s).

(** [s.startswith(p)] *)
Fixpoint startswith (p s : string) : bool :=
  match p, s with
  | EmptyString, _ => true
  | String a p', String b s' => if Ascii.eqb a b then startswith p' s' else false
  | String _ _, EmptyString => false
  end.

(** [needle in hay] *)
Fixpoint contains (needle hay : string) : bool :=
  if startswith needle hay then true
  else match hay with
       | EmptyString => false
       | String _ t => contains needle t
       end.

(** [s.split(sep)] for a one-character separator: never empty. *)
Fixpoint split (sep : ascii) (s : string) : list string :=
  match s with
  | EmptyString => [EmptyString]
  | String c t =>
      if Ascii.eqb c sep then EmptyString :: split sep t
      else match split sep t with
           | seg :: rest => String c seg :: rest
           | [] => [String c EmptyString]
           end
  end.

(** [xs[-1]] on a list that is known not to be empty. *)
Definition last_item (xs : list string) : string := List.last xs EmptyString.

(** [str(n)] for an [int]. *)
Definition str_of_int (z : Z) : string := NilZero.string_of_int (Z.to_int z).

(** A text that is empty or begins with a character that is not a space. *)
Definition no_leading_space (s : string) : Prop :=
  match s with
  | EmptyString => True
  | String c _ => is_space c = false
  end.

(** [needle] occurs in [hay]: the meaning of "substring". *)
Definition is_substring (needle hay : string) : Prop :=
  exists pre post, hay = pre ++ needle ++ post.

End PyStr.

(** ** Numbers: Python comparisons, [min] and [max] on floats *)

(** [x < y] *)
Definition Qltb (x y : Q) : bool := negb (Qle_bool y x).

(** [max(a, b)]: the first argument unless the second is greater. *)
Definition py_max (a b : Q) : Q := if Qltb a b then b else a.

(** [min(a, b)]: the first argument unless the second is smaller. *)
Definition py_min (a b : Q) : Q := if Qltb b a then b else a.

(** The same three expressions on binary64 floats, to run the backoff
    arithmetic as Python does. *)
Definition float_max (a b : float) : float := if PrimFloat.ltb a b then b else a.

Definition float_min (a b : float) : float := if PrimFloat.ltb b a then b else a.

Fixpoint current_backoff_float (initial_backoff poll_interval max_backoff : float)
    (n : nat) : float :=
  match n with
  | O => float_max initial_backoff (PrimFloat.mul poll_interval 2%float)
  | S n' =>
      float_min max_backoff
        (PrimFloat.mul
           (current_backoff_float initial_backoff poll_interval max_backoff n')
           1.5%float)
  end.

(** ** Python values met in error payloads *)

(** Values stored in a serialized error dict. *)
Inductive atom : Type :=
  | ANone
  | ABool (b : bool)
  | AInt (z : Z)
  | AStr (s : string).

(** [str(v)] *)
Definition str_atom (v : atom) : string :=
  match v with
  | ANone => "None"
  | ABool true => "True"
  | ABool false => "False"
  | AInt z => PyStr.str_of_int z
  | AStr s => s
  end.

(** What [_serialize_error] can hand on: [None], a string, or a dict. *)
Inductive pyobj : Type :=
  | ONone
  | OStr (s : string)
  | ODict (d : gmap string atom).

(** Truth value of an object, as tested by [if not error]. *)
Definition truthy (o : pyobj) : bool :=
  match o with
  | ONone => false
  | OStr s => negb (String.eqb s "")
  | ODict d => negb (bool_decide (d = ∅))
  end.

(** Outcome of probing an attribute or method of a duck-typed object:
    [hasattr] fails, the call raises, or it gives a value. *)
Inductive probe (A : Type) : Type :=
  | Absent
  | Failing
  | Giving (a : A).
Arguments Absent {A}.
Arguments Failing {A}.
Arguments Giving {A} a.

(** The SDK's error object, as far as [_serialize_error] inspects it. *)
Record ErrorObject : Type := {
  to_dict : probe pyobj;
  as_dict : probe pyobj;
  dunder_dict : probe (gmap string atom);
  as_str : string
}.

(** The object returned by [runs.get]. *)
Record RunView : Type := {
  status : option string;          (* str(getattr(run, "status")), or None *)
  last_error : option ErrorObject  (* getattr(run, "last_error", None) *)
}.

(** ** The remote service, the clock and the effects of a call *)

(** Why the process slept: a ghost tag, [time.sleep] has none. *)
Inductive SleepReason : Type := PollWait | BackoffWait.

(** What a call did to the remote service and to the clock.  [Deleted]
    stands for every deleting operation of the service. *)
Inductive Event : Type :=
  | ThreadCreated (thread_id : string)
  | MessageCreated (thread_id role content : string)
  | RunCreated (thread_id agent_id run_id : string)
  | RunFetched (thread_id run_id : string)
  | MessagesListed (thread_id : string)
  | Slept (why : SleepReason) (seconds : Q)
  | Deleted (what : string).

(** The state a call runs in: wall-clock time and the events so far,
    oldest first.  Time passes only in [time.sleep]. *)
Record World : Type := {
  clock : Q;
  history : list Event
}.

(** One part of a message's content, as [_iter_thread_messages] probes it:
    the value of its [text], else the attributes [input_text], [content],
    [value] ([None] when missing or [None]). *)
Record ContentItem : Type := {
  item_text : option string;
  item_input_text : option string;
  item_content : option string;
  item_value : option string
}.

(** A message of a thread. *)
Record Message : Type := {
  role : option string;            (* str(message.role), None when missing *)
  content : list ContentItem
}.

(** The remote service: each answer may depend on the time and on what
    happened before; [None] (or [false]) is a call that raises. *)
Record Remote : Type := {
  threads_create : World -> option string;
  messages_create : World -> string -> string -> string -> bool;
  runs_create : World -> string -> string -> option string;
  runs_get : World -> string -> string -> option RunView;
  messages_list : World -> string -> option (list Message)
}.

(** The SDK calls the scripts make. *)
Inductive SdkCall : Type :=
  | ThreadsCreate
  | MessagesCreate
  | RunsCreate
  | RunsGet
  | MessagesList.

(** The remote refuses some call of the given kind. *)
Definition refuses (remote : Remote) (operation : SdkCall) : Prop :=
  match operation with
  | ThreadsCreate => exists w, threads_create remote w = None
  | MessagesCreate => exists w t r c, messages_create remote w t r c = false
  | RunsCreate => exists w t a, runs_create remote w t a = None
  | RunsGet => exists w t r, runs_get remote w t r = None
  | MessagesList => exists w t, messages_list remote w t = None
  end.

(** Exceptions that end a call. *)
Inductive exn : Type :=
  | SystemExit (name : string)                 (* _require_env *)
  | SdkError (operation : SdkCall)             (* raised by an SDK call *)
  | TimeoutError (run_id : string) (last_status : option string)
  | RuntimeError                               (* retry attempts exceeded *)
  | ValueError.                                (* time.sleep(negative) *)

(** Result of running a computation: a value, an exception, or too little
    fuel for the loops. *)
Inductive Result (A : Type) : Type :=
  | Done (a : A) (w : World)
  | Raised (e : exn) (w : World)
  | OutOfFuel.
Arguments Done {A} a w.
Arguments Raised {A} e w.
Arguments OutOfFuel {A}.

Definition M (A : Type) : Type := World -> Result A.

Definition ret {A} (a : A) : M A := fun w => Done a w.

Definition bind {A B} (c : M A) (k : A -> M B) : M B :=
  fun w => match c w with
           | Done a w' => k a w'
           | Raised e w' => Raised e w'
           | OutOfFuel => OutOfFuel
           end.

Definition raise {A} (e : exn) : M A := fun w => Raised e w.

Definition out_of_fuel {A} : M A := fun _ => OutOfFuel.

Declare Scope py_scope.
Delimit Scope py_scope with py.
Notation "x <- c ;; k" := (bind c (fun x => k))
  (at level 100, c at next level, right associativity) : py_scope.
Notation "c ;; k" := (bind c (fun _ => k))
  (at level 100, right associativity) : py_scope.

(** The world after one more event. *)
Definition logged (e : Event) (w : World) : World :=
  {| clock := clock w; history := history w ++ [e] |}.

(** [time.time()] *)
Definition time_time : M Q := fun w => Done (clock w) w.

(** [time.sleep(seconds)] *)
Definition time_sleep (why : SleepReason) (seconds : Q) : M unit :=
  fun w =>
    if Qltb seconds 0 then Raised ValueError w
    else Done tt {| clock := clock w + seconds;
                    history := history w ++ [Slept why seconds] |}.

(** An SDK call: asks the remote, raises when the remote refuses, records
    the event otherwise. *)
Definition sdk_call {A} (operation : SdkCall) (ask : World -> option A)
    (ev : A -> Event) : M A :=
  fun w => match ask w with
           | Some a => Done a (logged (ev a) w)
           | None => Raised (SdkError operation) w
           end.

(** ** scripts/verify_agent.py *)

Module VerifyAgent.

Local Open Scope py_scope.

Definition SUCCESS_STATUSES : gset string := {[ "succeeded"; "completed" ]}.

Definition TERMINAL_FAILURE_STATUSES : gset string := {[ "failed"; "canceled" ]}.

Definition TERMINAL_STATUSES : gset string :=
  SUCCESS_STATUSES ∪ TERMINAL_FAILURE_STATUSES.

(** [value in statuses] for an [Optional[str]]: [None] is in no set. *)
Definition status_in (value : option string) (statuses : gset string) : bool :=
  match value with
  | None => false
  | Some s => bool_decide (s ∈ statuses)
  end.

(** [os.getenv(name)], then the check and [strip] of [_require_env]. *)
Definition _require_env (env : gmap string string) (name : string) : M string :=
  match env !! name with
  | None => raise (SystemExit name)
  | Some value =>
      if String.eqb value "" then raise (SystemExit name)
      else ret (PyStr.strip value)
  end.

Definition _normalize_status (value : option string) : option string :=
  match value with
  | None => None
  | Some text =>
      let text :=
        if PyStr.contains "." text
        then PyStr.last_item (PyStr.split "."%char text)
        else text in
      Some (PyStr.lower (PyStr.strip text))
  end.

Definition _is_retryable_rate_limit (error : pyobj) : bool :=
  if negb (truthy error) then false
  else
    let '(code, message) :=
      match error with
      | ODict d =>
          (PyStr.lower (str_atom (default (AStr "") (d !! "code"))),
           PyStr.lower (str_atom (default (AStr "") (d !! "message"))))
      | OStr s => ("", PyStr.lower s)
      | ONone => ("", PyStr.lower "None")
      end in
    (PyStr.contains "rate_limit" code || PyStr.contains "rate limit" message)%bool.

Definition _serialize_error (error : option ErrorObject) : pyobj :=
  match error with
  | None => ONone
  | Some e =>
      match to_dict e with
      | Giving v => v
      | _ =>
          match as_dict e with
          | Giving v => v
          | _ =>
              match dunder_dict e with
              | Giving d => ODict d
              | _ => OStr (as_str e)
              end
          end
      end
  end.

(** The dict returned by [verify_agent]. *)
Record Outcome : Type := {
  thread_id : string;
  run_id : string;
  out_status : option string;
  out_last_error : pyobj;
  succeeded : bool;
  project_endpoint : string
}.

(** How the polling loop of one attempt ends when it does not raise:
    [return], or [break] with the locals the retry branch has updated. *)
Inductive PollExit : Type :=
  | Return (o : Outcome)
  | Break (attempt : Z) (current_backoff : Q) (retry_requested : bool).

Section Loops.

Variable remote : Remote.
Variables (poll_interval timeout : Q) (max_attempts : Z) (max_backoff : Q).
Variables (agent_id endpoint thread : string).

(** [while time.time() < deadline: ... else: raise TimeoutError] *)
Fixpoint poll_loop (fuel : nat) (run : string) (attempt : Z)
    (current_backoff deadline : Q) (last_status : option string)
    : M PollExit :=
  match fuel with
  | O => out_of_fuel
  | S fuel' =>
      now <- time_time ;;
      if Qltb now deadline then
        current_run <- sdk_call RunsGet
                         (fun w => runs_get remote w thread run)
                         (fun _ => RunFetched thread run) ;;
        let status_value := _normalize_status (status current_run) in
        let last_status := status_value in
        if status_in status_value TERMINAL_STATUSES then
          let last_error := _serialize_error (last_error current_run) in
          if status_in status_value SUCCESS_STATUSES then
            ret (Return {| thread_id := thread; run_id := run;
                           out_status := status_value;
                           out_last_error := last_error;
                           succeeded := true;
                           project_endpoint := endpoint |})
          else if (_is_retryable_rate_limit last_error
                   && (attempt <? max_attempts))%bool then
            let wait_seconds := py_min max_backoff current_backoff in
            time_sleep BackoffWait wait_seconds ;;
            let current_backoff := py_min max_backoff (current_backoff * (3 # 2)) in
            let retry_requested := true in
            let attempt := attempt + 1 in
            ret (Break attempt current_backoff retry_requested)
          else
            ret (Return {| thread_id := thread; run_id := run;
                           out_status := status_value;
                           out_last_error := last_error;
                           succeeded := false;
                           project_endpoint := endpoint |})
        else
          time_sleep PollWait poll_interval ;;
          poll_loop fuel' run attempt current_backoff deadline last_status
      else
        raise (TimeoutError run last_status)
  end.

(** [while attempt <= max_attempts: ...], then the closing [raise].
    [poll_fuel] bounds each inner loop. *)
Fixpoint attempt_loop (fuel poll_fuel : nat) (attempt : Z)
    (current_backoff : Q) : M Outcome :=
  match fuel with
  | O => out_of_fuel
  | S fuel' =>
      if attempt <=? max_attempts then
        run <- sdk_call RunsCreate
                 (fun w => runs_create remote w thread agent_id)
                 (fun run => RunCreated thread agent_id run) ;;
        now <- time_time ;;
        let deadline := (now + timeout)%Q in
        exit <- poll_loop poll_fuel run attempt current_backoff deadline None ;;
        match exit with
        | Return o => ret o
        | Break attempt current_backoff retry_requested =>
            (* [if retry_requested: continue], else the loop goes on too *)
            attempt_loop fuel' poll_fuel attempt current_backoff
        end
      else
        raise RuntimeError
  end.

End Loops.

(** [fuel] bounds the turns of the attempt loop and of each polling
    loop. *)
Definition verify_agent (fuel : nat) (remote : Remote) (env : gmap string string)
    (ticket : string) (poll_interval timeout : Q) (max_attempts : Z)
    (initial_backoff max_backoff : Q) (agent_id : string) : M Outcome :=
  endpoint <- _require_env env "AIFOUNDRY_PROJECT_ENDPOINT" ;;
  thread <- sdk_call ThreadsCreate (threads_create remote) ThreadCreated ;;
  sdk_call MessagesCreate
    (fun w => if messages_create remote w thread "user" ticket then Some tt else None)
    (fun _ => MessageCreated thread "user" ticket) ;;
  let attempt := 1 in
  let base_backoff := py_max initial_backoff (poll_interval * 2) in
  let current_backoff := base_backoff in
  attempt_loop remote poll_interval timeout max_attempts max_backoff
    agent_id endpoint thread fuel fuel attempt current_backoff.

(** The text one content item contributes, if any. *)
Definition item_part (item : ContentItem) : option string :=
  match item_text item with
  | Some value => if String.eqb value "" then None else Some value
  | None =>
      let truthy_attr (a : option string) :=
        match a with
        | Some v => if String.eqb v "" then None else Some v
        | None => None
        end in
      match truthy_attr (item_input_text item) with
      | Some v => Some v
      | None =>
          match truthy_attr (item_content item) with
          | Some v => Some v
          | None => truthy_attr (item_value item)
          end
      end
  end.

(** [sep.join(parts)] *)
Fixpoint join (sep : string) (parts : list string) : string :=
  match parts with
  | [] => ""
  | [p] => p
  | p :: rest => p ++ sep ++ join sep rest
  end.

(** The display line of one message. *)
Definition message_line (m : Message) : string :=
  let parts := omap item_part (content m) in
  let body := match parts with
              | [] => "<no text content>"
              | _ => join (String "010"%char "") parts
              end in
  "[" ++ default "unknown" (role m) ++ "] " ++ body.

Definition _iter_thread_messages (remote : Remote) (endpoint thread_id : string)
    : M (list string) :=
  messages <- sdk_call MessagesList
                (fun w => messages_list remote w thread_id)
                (fun _ => MessagesListed thread_id) ;;
  ret (map message_line messages).

(** *** Reading the history of a call *)

Definition is_thread_created (e : Event) : bool :=
  match e with ThreadCreated _ => true | _ => false end.

Definition is_message_created (e : Event) : bool :=
  match e with MessageCreated _ _ _ => true | _ => false end.

Definition is_run_created (e : Event) : bool :=
  match e with RunCreated _ _ _ => true | _ => false end.

Definition is_deleted (e : Event) : bool :=
  match e with Deleted _ => true | _ => false end.

(** How many of the events satisfy [p]. *)
Definition count (p : Event -> bool) (evs : list Event) : nat :=
  length (List.filter p evs).

(** The seconds slept in the retry branch, in the order of the sleeps. *)
Definition backoff_sleeps (evs : list Event) : list Q :=
  omap (fun e => match e with Slept BackoffWait d => Some d | _ => None end) evs.

(** An event of the polling of [run]: a fetch of it, or the wait between
    two fetches. *)
Definition poll_event (thread run : string) (poll_interval : Q) (e : Event) : Prop :=
  match e with
  | RunFetched t r => t = thread /\ r = run
  | Slept PollWait d => d = poll_interval
  | _ => False
  end.

(** An event of the attempt loop: a run created or fetched on [thread],
    or a sleep. *)
Definition attempt_event (thread agent_id : string) (e : Event) : Prop :=
  match e with
  | RunCreated t a _ => t = thread /\ a = agent_id
  | RunFetched t _ => t = thread
  | Slept _ _ => True
  | _ => False
  end.

(** The invariant of the outcome data. *)
Definition outcome_invariant (o : Outcome) : Prop :=
  (succeeded o = true -> status_in (out_status o) SUCCESS_STATUSES = true)
  /\ (succeeded o = false -> status_in (out_status o) TERMINAL_FAILURE_STATUSES = true).

(** The value of [current_backoff] after [n] passes through the retry
    branch. *)
Fixpoint current_backoff_at (initial_backoff poll_interval max_backoff : Q)
    (n : nat) : Q :=
  match n with
  | O => py_max initial_backoff (poll_interval * 2)
  | S n' =>
      py_min max_backoff
        (current_backoff_at initial_backoff poll_interval max_backoff n' * (3 # 2))
  end.

(** The [wait_seconds] of [n] successive retries that start with
    [current_backoff]. *)
Fixpoint backoff_waits (max_backoff current_backoff : Q) (n : nat) : list Q :=
  match n with
  | O => []
  | S n' =>
      py_min max_backoff current_backoff
      :: backoff_waits max_backoff (py_min max_backoff (current_backoff * (3 # 2))) n'
  end.

(** The world a computation ended in, whether it returned or raised. *)
Definition final_world {A} (r : Result A) : option World :=
  match r with
  | Done _ w | Raised _ w => Some w
  | OutOfFuel => None
  end.

(** Every terminal status the remote reports is a terminal failure whose
    error is classified as a rate limit. *)
Definition only_rate_limited_failures (remote : Remote) : Prop :=
  forall w t r view,
    runs_get remote w t r = Some view ->
    status_in (_normalize_status (status view)) TERMINAL_STATUSES = true ->
    status_in (_normalize_status (status view)) TERMINAL_FAILURE_STATUSES = true
    /\ _is_retryable_rate_limit (_serialize_error (last_error view)) = true.

(** A call cut short from outside the driver: a setting is missing from
    the environment, or an SDK call raised. *)
Definition external_failure {A} (r : Result A) : Prop :=
  match r with
  | Raised (SystemExit _) _ | Raised (SdkError _) _ => True
  | _ => False
  end.

(** Fuel that is enough for both loops of a call. *)
Definition enough_fuel (poll_interval timeout : Q) (max_attempts : Z) : nat :=
  S (Z.to_nat (Z.max max_attempts (Qceiling (timeout / poll_interval)))).

End VerifyAgent.

(** ** scripts/test_all_agents.py *)

Module TestAllAgents.

Local Open Scope py_scope.

(** A [dict] whose iteration order matters: keys in insertion order. *)
Definition odict (V : Type) : Type := list (string * V).

(** [d[key] = value]: in place for a key already there, else at the end. *)
Fixpoint dict_set {V} (key : string) (value : V) (d : odict V) : odict V :=
  match d with
  | [] => [(key, value)]
  | (k, v) :: rest =>
      if String.eqb k key then (k, value) :: rest
      else (k, v) :: dict_set key value rest
  end.

(** [list(d)]: the keys, in iteration order. *)
Definition keys {V} (d : odict V) : list string := map fst d.

Definition _require_env (env : gmap string string) (name : string) : M string :=
  match env !! name with
  | None => raise (SystemExit name)
  | Some value =>
      if String.eqb value "" then raise (SystemExit name)
      else ret (PyStr.strip value)
  end.

(** The test of the loop in [_extract_agent_lines]. *)
Definition is_agent_line (line : string) : bool :=
  (PyStr.contains "MessageRole.AGENT" line
   || PyStr.startswith "[assistant]" (PyStr.lower line))%bool.

(** The loop of [_extract_agent_lines]: [agent_lines] grows at its end. *)
Fixpoint collect_agent_lines (transcript agent_lines : list string) : list string :=
  match transcript with
  | [] => agent_lines
  | line :: rest =>
      if is_agent_line line
      then collect_agent_lines rest (agent_lines ++ [line])
      else collect_agent_lines rest agent_lines
  end.

Definition _extract_agent_lines (transcript : list string) : list string :=
  match collect_agent_lines transcript [] with
  | [] => transcript
  | agent_lines => agent_lines
  end.

Definition agent_env_map : odict string :=
  [ ("priority", "PRIORITY_AGENT_ID");
    ("team", "TEAM_AGENT_ID");
    ("effort", "EFFORT_AGENT_ID");
    ("triage", "TRIAGE_AGENT_ID") ].

Section Harness.

Variable fuel : nat.
Variable remote : Remote.
Variable env : gmap string string.
Variable ticket : string.
Variables (poll_interval timeout : Q) (max_attempts : Z).
Variables (initial_backoff max_backoff : Q).

(** [for agent_name, env_var in agent_env_map.items(): ...] *)
Fixpoint for_each_agent (items : odict string)
    (outputs : odict (list string)) : M (odict (list string)) :=
  match items with
  | [] => ret outputs
  | (agent_name, env_var) :: rest =>
      agent_id <- _require_env env env_var ;;
      result <- VerifyAgent.verify_agent fuel remote env ticket poll_interval
                  timeout max_attempts initial_backoff max_backoff agent_id ;;
      transcript <- VerifyAgent._iter_thread_messages remote
                      (VerifyAgent.project_endpoint result)
                      (VerifyAgent.thread_id result) ;;
      let outputs := dict_set agent_name (_extract_agent_lines transcript) outputs in
      for_each_agent rest outputs
  end.

Definition test_agents : M (odict (list string)) :=
  endpoint <- _require_env env "AIFOUNDRY_PROJECT_ENDPOINT" ;;
  for_each_agent agent_env_map [].

(** What one turn of the loop computes for the agent whose identifier is
    the setting [env_var]: the value it then stores in [outputs]. *)
Definition run_one_agent (env_var : string) : M (list string) :=
  agent_id <- _require_env env env_var ;;
  result <- VerifyAgent.verify_agent fuel remote env ticket poll_interval
              timeout max_attempts initial_backoff max_backoff agent_id ;;
  transcript <- VerifyAgent._iter_thread_messages remote
                  (VerifyAgent.project_endpoint result)
                  (VerifyAgent.thread_id result) ;;
  ret (_extract_agent_lines transcript).

End Harness.

End TestAllAgents.

(** ** Concrete remotes and settings, for running the scripts *)

Module Scenarios.
Import VerifyAgent.

(** The world before a call: time zero, nothing has happened. *)
Definition start : World := {| clock := 0; history := [] |}.

(** An environment with every setting the scripts read. *)
Definition env : gmap string string :=
  {[ "AIFOUNDRY_PROJECT_ENDPOINT" := "https://example.test/api/projects/p";
     "PRIORITY_AGENT_ID" := "asst_priority";
     "TEAM_AGENT_ID" := "asst_team";
     "EFFORT_AGENT_ID" := "asst_effort";
     "TRIAGE_AGENT_ID" := "asst_triage" ]}.

(** An error object that serializes, through [as_dict], to a rate-limit
    payload. *)
Definition rate_limit_error : ErrorObject :=
  {| to_dict := Absent;
     as_dict := Giving (ODict {[ "code" := AStr "rate_limit_exceeded";
                                 "message" := AStr "Rate limit is exceeded." ]});
     dunder_dict := Absent;
     as_str := "RunError" |}.

Definition completed : RunView :=
  {| status := Some "RunStatus.COMPLETED"; last_error := None |}.

Definition rate_limited : RunView :=
  {| status := Some "RunStatus.FAILED"; last_error := Some rate_limit_error |}.

Definition in_progress : RunView :=
  {| status := Some "RunStatus.IN_PROGRESS"; last_error := None |}.

(** The messages every thread of the scripted remote holds. *)
Definition transcript : list Message :=
  [ {| role := Some "user";
       content := [ {| item_text := Some "hi"; item_input_text := None;
                       item_content := None; item_value := None |} ] |};
    {| role := Some "assistant";
       content := [ {| item_text := Some "High priority"; item_input_text := None;
                       item_content := None; item_value := None |} ] |} ].

(** A remote that answers every call.  The answer to a fetch depends on
    how many runs exist and on how many fetches came before. *)
Definition scripted (view_at : nat -> nat -> RunView) : Remote :=
  {| threads_create := fun w =>
       Some ("thread_" ++ PyStr.str_of_int
                            (Z.of_nat (count is_thread_created (history w))));
     messages_create := fun _ _ _ _ => true;
     runs_create := fun w _ _ =>
       Some ("run_" ++ PyStr.str_of_int
                         (Z.of_nat (count is_run_created (history w))));
     runs_get := fun w _ _ =>
       Some (view_at (count is_run_created (history w))
               (count (fun e => match e with RunFetched _ _ => true | _ => false end)
                  (history w)));
     messages_list := fun _ _ => Some transcript |}.

(** Every run completes at its first fetch. *)
Definition remote_completes : Remote := scripted (fun _ _ => completed).

(** Every run fails, rate limited, at its first fetch. *)
Definition remote_rate_limited : Remote := scripted (fun _ _ => rate_limited).

(** The first run fails, rate limited; the later ones complete. *)
Definition remote_recovers : Remote :=
  scripted (fun runs _ => if Nat.leb runs 1 then rate_limited else completed).

(** No run ever leaves [in_progress]. *)
Definition remote_stalls : Remote := scripted (fun _ _ => in_progress).

(** An error object without a dict form, whose text names no rate
    limit. *)
Definition server_error : ErrorObject :=
  {| to_dict := Absent;
     as_dict := Failing;
     dunder_dict := Absent;
     as_str := "server_error: internal failure" |}.

Definition failed : RunView :=
  {| status := Some "failed"; last_error := Some server_error |}.

(** Every run fails at its first fetch, for a reason other than a rate
    limit. *)
Definition remote_fails : Remote := scripted (fun _ _ => failed).

(** A remote whose [threads.create] raises. *)
Definition remote_without_threads : Remote :=
  {| threads_create := fun _ => None;
     messages_create := messages_create remote_completes;
     runs_create := runs_create remote_completes;
     runs_get := runs_get remote_completes;
     messages_list := messages_list remote_completes |}.

(** A remote whose [messages.create] raises. *)
Definition remote_without_messages : Remote :=
  {| threads_create := threads_create remote_completes;
     messages_create := fun _ _ _ _ => false;
     runs_create := runs_create remote_completes;
     runs_get := runs_get remote_completes;
     messages_list := messages_list remote_completes |}.

End Scenarios.

(** ** scripts/test_all_agents.py: reading the settings *)

Module EnvSetup.

(** The two quote characters. *)
Definition squote : ascii := "039"%char.
Definition dquote : ascii := "034"%char.

(** [s[-1]], when [s] is not empty. *)
Fixpoint last_char (s : string) : option ascii :=
  match s with
  | EmptyString => None
  | String c EmptyString => Some c
  | String _ t => last_char t
  end.

(** [s[:-1]] *)
Fixpoint drop_last (s : string) : string :=
  match s with
  | EmptyString => EmptyString
  | String c t =>
      match t with
      | EmptyString => EmptyString
      | _ => String c (drop_last t)
      end
  end.

Definition _strip_quotes (value : string) : string :=
  let value := PyStr.strip value in
  match value with
  | EmptyString => value
  | String first rest =>
      if (Nat.leb 2 (String.length value)
          && match last_char value with
             | Some l => Ascii.eqb first l
             | None => false
             end
          && (Ascii.eqb first squote || Ascii.eqb first dquote))%bool
      then drop_last rest          (* value[1:-1] *)
      else value
  end.

(** [s.split(sep, 1)] for a one-character separator that occurs in [s]:
    what is before its first occurrence, and what is after. *)
Fixpoint split_once (sep : ascii) (s : string) : string * string :=
  match s with
  | EmptyString => (EmptyString, EmptyString)
  | String c t =>
      if Ascii.eqb c sep then (EmptyString, t)
      else let '(before, after) := split_once sep t in (String c before, after)
  end.

(** What [path.exists()] and [path.open()] find.  A file that opens is
    taken to decode as UTF-8 to the end. *)
Inductive FileState : Type :=
  | Missing                       (* exists() is false *)
  | Unreadable                    (* open() raises OSError *)
  | Lines (lines : list string).  (* the lines the handle yields *)

(** The exceptions that end the reading of a file. *)
Inductive EnvError : Type :=
  | OSError      (* the file does not open, or [setenv] refuses the name *)
  | NulError.    (* ValueError: embedded null byte *)

(** The text holds a null character. *)
Definition has_nul (s : string) : bool := PyStr.contains (String "000"%char "") s.

(** [os.environ[key] = value]: a null character in the name or in the
    value is a [ValueError]; the operating system refuses an empty name
    ([setenv] fails, an [OSError]). *)
Definition environ_set (key value : string) (environ : gmap string string)
    : gmap string string + EnvError :=
  if (has_nul key || has_nul value)%bool then inr NulError
  else if String.eqb key "" then inr OSError
  else inl (<[key := value]> environ).

(** The loop of [_load_env_file] over the lines of the file: the
    environment at the end, and the exception that ended the loop, if
    any. *)
Fixpoint load_lines (lines : list string) (environ : gmap string string)
    : gmap string string * option EnvError :=
  match lines with
  | [] => (environ, None)
  | raw_line :: rest =>
      let line := PyStr.strip raw_line in
      if (String.eqb line "" || PyStr.startswith "#" line)%bool
      then load_lines rest environ
      else if negb (PyStr.contains "=" line) then load_lines rest environ
      else
        let '(key, value) := split_once "="%char line in
        let key := PyStr.strip key in
        let value := _strip_quotes value in
        match environ_set key value environ with
        | inl environ' => load_lines rest environ'
        | inr e => (environ, Some e)
        end
  end.

Definition _load_env_file (file : FileState) (environ : gmap string string)
    : gmap string string * option EnvError :=
  match file with
  | Missing => (environ, None)
  | Unreadable => (environ, Some OSError)
  | Lines lines => load_lines lines environ
  end.

(** The assignment one line of an env file asks for, if any. *)
Definition line_assignment (raw_line : string) : option (string * string) :=
  let line := PyStr.strip raw_line in
  if (String.eqb line "" || PyStr.startswith "#" line)%bool then None
  else if negb (PyStr.contains "=" line) then None
  else
    let '(key, value) := split_once "="%char line in
    Some (PyStr.strip key, _strip_quotes value).

(** The assignments of a file, in the order of its lines. *)
Definition assignments (lines : list string) : list (string * string) :=
  omap line_assignment lines.

#[local] Set Warnings "-register-all".

(** A parsed JSON document. *)
Inductive json : Type :=
  | JNull
  | JBool (b : bool)
  | JNum (z : Z)
  | JStr (s : string)
  | JArr (items : list json)
  | JObj (fields : gmap string json).

(** How [_detect_azd_env_name] ends: a name or [None], or the
    [AttributeError] of calling [get] on what is not a dict. *)
Inductive Detected : Type :=
  | Name (name : option string)
  | AttributeError.

(** [isinstance(candidate, str) and candidate] *)
Definition usable_name (candidate : option json) : option string :=
  match candidate with
  | Some (JStr s) => if String.eqb s "" then None else Some s
  | _ => None
  end.

(** [config] is the document in [.azure/config.json], or [None] when the
    file is missing, cannot be read or is not JSON. *)
Definition _detect_azd_env_name (environ : gmap string string)
    (config : option json) : Detected :=
  let from_config :=
    match config with
    | None => Name None
    | Some (JObj data) =>
        match default (JObj ∅) (data !! "defaults") with
        | JObj defaults =>
            match usable_name (defaults !! "environment") with
            | Some name => Name (Some name)
            | None => Name (usable_name (data !! "defaultEnvironment"))
            end
        | _ => AttributeError
        end
    | Some _ => AttributeError
    end in
  match environ !! "AZURE_ENV_NAME" with
  | Some explicit =>
      if String.eqb explicit "" then from_config else Name (Some explicit)
  | None => from_config
  end.

(** The files [_initialize_env] may load. *)
Inductive EnvPath : Type :=
  | Explicit (path : string)     (* Path(explicit_path) *)
  | AzdEnv (name : string)       (* Path(".azure") / name / ".env" *)
  | DotEnv.                      (* Path(".env") *)

(** [for candidate in candidates: try: _load_env_file(candidate)
    except OSError: ...]; [None] when a [ValueError] ends the loop. *)
Fixpoint load_candidates (fs : EnvPath -> FileState) (candidates : list EnvPath)
    (environ : gmap string string) : option (gmap string string) :=
  match candidates with
  | [] => Some environ
  | candidate :: rest =>
      match _load_env_file (fs candidate) environ with
      | (_, Some NulError) => None
      | (environ', _) => load_candidates fs rest environ'
      end
  end.

(** The last step of [_initialize_env]: the endpoint taken from one of its
    other names when it is not set.  The value comes from [os.environ]
    itself, which holds no null character, so the write is not refused. *)
Definition endpoint_fallback (environ : gmap string string) : gmap string string :=
  match environ !! "AIFOUNDRY_PROJECT_ENDPOINT" with
  | Some _ => environ
  | None =>
      let alt_endpoint :=
        match environ !! "projectEndpoint" with
        | Some v => if String.eqb v "" then environ !! "PROJECT_ENDPOINT" else Some v
        | None => environ !! "PROJECT_ENDPOINT"
        end in
      match alt_endpoint with
      | Some v =>
          if String.eqb v "" then environ
          else <["AIFOUNDRY_PROJECT_ENDPOINT" := v]> environ
      | None => environ
      end
  end.

(** The candidates [_initialize_env] builds. *)
Definition env_candidates (explicit_path : option string) (azure_env : option string)
    : list EnvPath :=
  (match explicit_path with
   | Some p => if String.eqb p "" then [] else [Explicit p]
   | None => []
   end)
  ++ (match azure_env with
      | Some name => if String.eqb name "" then [] else [AzdEnv name]
      | None => []
      end)
  ++ [DotEnv].

(** The exceptions [_initialize_env] lets through. *)
Inductive Uncaught : Type :=
  | UncaughtAttributeError   (* [_detect_azd_env_name], on what is not a dict *)
  | UncaughtValueError.      (* [os.environ[key] = value], on a null character *)

(** How [_initialize_env] ends: the environment it leaves, or an
    exception. *)
Inductive InitEnd : Type :=
  | Settings (environ : gmap string string)
  | InitRaised (e : Uncaught).

Definition _initialize_env (fs : EnvPath -> FileState) (config : option json)
    (explicit_path : option string) (environ : gmap string string) : InitEnd :=
  match _detect_azd_env_name environ config with
  | AttributeError => InitRaised UncaughtAttributeError
  | Name azure_env =>
      match load_candidates fs (env_candidates explicit_path azure_env) environ with
      | Some environ' => Settings (endpoint_fallback environ')
      | None => InitRaised UncaughtValueError
      end
  end.

(** Every character of [s] is white space. *)
Fixpoint all_space (s : string) : bool :=
  match s with
  | EmptyString => true
  | String c t => (PyStr.is_space c && all_space t)%bool
  end.

(** The effect of a list of assignments, made in order, on the
    environment: the environment at the end, and the exception that ended
    them, if any. *)
Fixpoint apply_assignments (pairs : list (string * string))
    (environ : gmap string string) : gmap string string * option EnvError :=
  match pairs with
  | [] => (environ, None)
  | (key, value) :: rest =>
      match environ_set key value environ with
      | inl environ' => apply_assignments rest environ'
      | inr e => (environ, Some e)
      end
  end.

(** An assignment [os.environ] accepts. *)
Definition settable (pair : string * string) : Prop :=
  fst pair <> "" /\ has_nul (fst pair) = false /\ has_nul (snd pair) = false.

End EnvSetup.

(** ** The two command lines *)

Module VerifyAgentMain.
Import VerifyAgent.

Local Open Scope py_scope.

(** The parsed arguments of [verify_agent.py]. *)
Record Args : Type := {
  ticket : string;
  poll_interval : Q;
  timeout : Q;
  show_transcript : bool;
  max_attempts : Z;
  initial_backoff : Q;
  max_backoff : Q;
  agent_id : option string
}.

(** [try: c except ...: handler] for clauses that catch every exception of
    the model. *)
Definition try_except {A} (c : M A) (handler : exn -> M A) : M A :=
  fun w => match c w with
           | Raised e w' => handler e w'
           | r => r
           end.

(** [main(argv)], from the parsed arguments on: the exit status.
    [json.dumps(result)] succeeds on every outcome of the model, whose
    error payload is [None], a string or a dict of atoms. *)
Definition main (fuel : nat) (remote : Remote) (env : gmap string string)
    (args : Args) : M Z :=
  agent_id <- match agent_id args with
              | Some given =>
                  if String.eqb given "" then _require_env env "TRIAGE_AGENT_ID"
                  else ret given
              | None => _require_env env "TRIAGE_AGENT_ID"
              end ;;
  verified <- try_except
                (result <- verify_agent fuel remote env (ticket args)
                             (poll_interval args) (timeout args) (max_attempts args)
                             (initial_backoff args) (max_backoff args) agent_id ;;
                 ret (inr result))
                (fun _ => ret (inl 1%Z)) ;;
  match verified with
  | inl status => ret status
  | inr result =>
      (if show_transcript args then
         try_except
           (_iter_thread_messages remote (project_endpoint result) (thread_id result) ;;
            ret tt)
           (fun _ => ret tt)
       else ret tt) ;;
      if negb (succeeded result) then ret 2%Z else ret 0%Z
  end.

(** The arguments of a command line without options: the defaults of the
    parser. *)
Definition default_args : Args :=
  {| ticket := "VPN outage affecting finance team";
     poll_interval := 2;
     timeout := 120;
     show_transcript := false;
     max_attempts := 5;
     initial_backoff := 7;
     max_backoff := 30;
     agent_id := None |}.

(** The same arguments with another choice for [--show-transcript]. *)
Definition set_show_transcript (shown : bool) (args : Args) : Args :=
  {| ticket := ticket args;
     poll_interval := poll_interval args;
     timeout := timeout args;
     show_transcript := shown;
     max_attempts := max_attempts args;
     initial_backoff := initial_backoff args;
     max_backoff := max_backoff args;
     agent_id := agent_id args |}.

End VerifyAgentMain.

Module TestAllAgentsMain.
Import TestAllAgents EnvSetup.

Local Open Scope py_scope.

(** The parsed arguments of [test_all_agents.py]. *)
Record Args : Type := {
  ticket : string;
  poll_interval : Q;
  timeout : Q;
  max_attempts : Z;
  initial_backoff : Q;
  max_backoff : Q;
  env_file : option string
}.

(** The arguments of a command line without options: the defaults of the
    parser. *)
Definition default_args : Args :=
  {| ticket := "VPN outage affecting finance team";
     poll_interval := 2;
     timeout := 120;
     max_attempts := 12;
     initial_backoff := 12;
     max_backoff := 60;
     env_file := None |}.

(** How [main] ends: the harness ran, or the reading of the settings
    raised. *)
Inductive MainEnd : Type :=
  | Ran (r : Result Z)
  | SettingsRaised (e : Uncaught).

(** [main()], from the parsed arguments on: the harness runs in the
    environment the settings files have made. *)
Definition main (fuel : nat) (remote : Remote) (fs : EnvPath -> FileState)
    (config : option json) (environ : gmap string string) (args : Args)
    : World -> MainEnd :=
  fun w =>
    match _initialize_env fs config (env_file args) environ with
    | InitRaised e => SettingsRaised e
    | Settings environ' =>
        Ran ((outputs <- test_agents fuel remote environ' (ticket args)
                           (poll_interval args) (timeout args) (max_attempts args)
                           (initial_backoff args) (max_backoff args) ;;
              ret 0%Z) w)
    end.

End TestAllAgentsMain.

(** ** Concrete env files *)

Module EnvScenarios.
Import EnvSetup.

(** The end of a line. *)
Definition nl : string := String "010"%char EmptyString.

(** A [.env] file: a comment, an empty line, and three settings, the
    first in double quotes, the second in single quotes with spaces around
    the equals sign, the third assigned twice. *)
Definition dotenv_lines : list string :=
  [ "# local settings" ++ nl;
    nl;
    "AIFOUNDRY_PROJECT_ENDPOINT="
      ++ String dquote ("https://example.test/api/projects/p" ++ String dquote nl);
    "TRIAGE_AGENT_ID = 'asst_triage'" ++ nl;
    "PRIORITY_AGENT_ID=asst_old" ++ nl;
    "PRIORITY_AGENT_ID=asst_priority" ++ nl ].

(** A file system where the explicit file cannot be read, the azd file is
    missing, and [.env] is the file above. *)
Definition files (path : EnvPath) : FileState :=
  match path with
  | Explicit _ => Unreadable
  | AzdEnv _ => Missing
  | DotEnv => Lines dotenv_lines
  end.

End EnvScenarios.

(** * Properties *)

(** ** Facts about the string operations *)

Module PyStrFacts.
Import PyStr.

Lemma lower_char_idem (c : ascii) : lower_char (lower_char c) = lower_char c.
Proof. destruct c as [[] [] [] [] [] [] [] []]; reflexivity. Qed.

Lemma is_space_lower_char (c : ascii) : is_space (lower_char c) = is_space c.
Proof. destruct c as [[] [] [] [] [] [] [] []]; reflexivity. Qed.

Lemma eqb_dot_lower_char (c : ascii) :
  Ascii.eqb "."%char (lower_char c) = Ascii.eqb "."%char c.
Proof. destruct c as [[] [] [] [] [] [] [] []]; reflexivity. Qed.

Lemma lower_idem (s : string) : lower (lower s) = lower s.
Proof.
  induction s as [|c t IH]; simpl; [reflexivity|].
  now rewrite lower_char_idem, IH.
Qed.

Lemma lower_app (s t : string) : lower (s ++ t) = lower s ++ lower t.
Proof. induction s as [|c s IH]; simpl; [reflexivity | now rewrite IH]. Qed.

(** [startswith] decides "is a prefix of". *)
Lemma startswith_spec (p s : string) :
  startswith p s = true <-> exists rest, s = p ++ rest.
Proof.
  revert s. induction p as [|a p IH]; intros s; simpl.
  - split; [intros _; now exists s | reflexivity].
  - destruct s as [|b s].
    + split; [discriminate | intros [r Hr]; discriminate].
    + destruct (Ascii.eqb_spec a b) as [->|Hne].
      * rewrite IH. split; intros [r Hr]; exists r; [now rewrite Hr | now injection Hr].
      * split; [discriminate | intros [r Hr]; injection Hr as -> _; congruence].
Qed.

(** [contains] decides "is a substring of". *)
Lemma contains_spec (needle hay : string) :
  contains needle hay = true <-> is_substring needle hay.
Proof.
  unfold is_substring.
  induction hay as [|c t IH].
  - simpl. destruct (startswith needle "") eqn:E.
    + apply startswith_spec in E as [r Hr]. split; [intros _ | reflexivity].
      exists "", r. exact Hr.
    + split; [discriminate|]. intros (pre & post & H).
      destruct pre as [|a pre]; [|discriminate]. simpl in H.
      assert (startswith needle "" = true) by (apply startswith_spec; now exists post).
      congruence.
  - simpl. destruct (startswith needle (String c t)) eqn:E.
    + apply startswith_spec in E as [r Hr]. split; [intros _ | reflexivity].
      exists "", r. exact Hr.
    + rewrite IH. split.
      * intros (pre & post & ->). now exists (String c pre), post.
      * intros (pre & post & H). destruct pre as [|a pre].
        -- simpl in H.
           assert (startswith needle (String c t) = true)
             by (apply startswith_spec; now exists post).
           congruence.
        -- injection H as -> ->. now exists pre, post.
Qed.

Lemma contains_dot_cons (a : ascii) (t : string) :
  contains "." (String a t) = if Ascii.eqb "."%char a then true else contains "." t.
Proof.
  change (contains "." (String a t))
    with (if startswith "." (String a t) then true else contains "." t).
  change (startswith "." (String a t))
    with (if Ascii.eqb "."%char a then startswith "" t else false).
  now destruct (Ascii.eqb "."%char a).
Qed.

Lemma contains_dot_lower (s : string) : contains "." (lower s) = contains "." s.
Proof.
  induction s as [|c t IH]; [reflexivity|].
  change (lower (String c t)) with (String (lower_char c) (lower t)).
  now rewrite !contains_dot_cons, eqb_dot_lower_char, IH.
Qed.

Lemma split_nonempty (sep : ascii) (s : string) : split sep s <> [].
Proof.
  induction s as [|c t IH]; simpl; [discriminate|].
  destruct (Ascii.eqb c sep); [discriminate|].
  destruct (split sep t); discriminate.
Qed.

Lemma last_item_cons (x : string) (xs : list string) :
  xs <> [] -> last_item (x :: xs) = last_item xs.
Proof. unfold last_item. destruct xs; [congruence | reflexivity]. Qed.

(** The last piece of a split holds no separator. *)
Lemma last_split_no_dot (s : string) :
  contains "." (last_item (split "."%char s)) = false.
Proof.
  induction s as [|c t IH]; [reflexivity|].
  simpl split. destruct (Ascii.eqb_spec c "."%char) as [->|Hne].
  - rewrite last_item_cons by apply split_nonempty. exact IH.
  - pose proof (split_nonempty "."%char t) as Hn.
    destruct (split "."%char t) as [|seg rest]; [congruence|].
    destruct rest as [|r rest].
    + unfold last_item in *. cbn [List.last] in *. rewrite contains_dot_cons.
      destruct (Ascii.eqb_spec "."%char c); [congruence | exact IH].
    + rewrite last_item_cons by discriminate.
      rewrite last_item_cons in IH by discriminate. exact IH.
Qed.

(** Splitting a text that holds no separator gives the text. *)
Lemma split_no_dot (s : string) :
  contains "." s = false -> split "."%char s = [s].
Proof.
  induction s as [|c t IH]; [reflexivity|].
  rewrite contains_dot_cons.
  destruct (Ascii.eqb_spec "."%char c) as [<-|Hne]; [discriminate|].
  intros H. cbn [split]. destruct (Ascii.eqb_spec c "."%char); [congruence|].
  now rewrite IH.
Qed.

(** The last piece only depends on what follows a separator. *)
Lemma last_split_app (pre tok : string) :
  last_item (split "."%char (pre ++ String "."%char tok))
  = last_item (split "."%char tok).
Proof.
  induction pre as [|c pre IH].
  - simpl. apply last_item_cons, split_nonempty.
  - change (String c pre ++ String "."%char tok)
      with (String c (pre ++ String "."%char tok)).
    simpl split. destruct (Ascii.eqb c "."%char).
    + rewrite last_item_cons by apply split_nonempty. exact IH.
    + pose proof (split_nonempty "."%char (pre ++ String "."%char tok)) as Hn.
      assert (Hlen : exists a b l, split "."%char (pre ++ String "."%char tok) = a :: b :: l).
      { clear IH Hn. induction pre as [|d pre IHp]; simpl.
        - destruct (split "."%char tok) as [|x l] eqn:E;
            [now apply split_nonempty in E | now exists "", x, l].
        - destruct IHp as (a & b & l & ->).
          destruct (Ascii.eqb d "."%char); [now exists "", a, (b :: l) | now exists (String d a), b, l]. }
      destruct Hlen as (a & b & l & E). rewrite E in *.
      rewrite last_item_cons by discriminate.
      rewrite last_item_cons in IH by discriminate. exact IH.
Qed.

Lemma contains_dot_lstrip (s : string) :
  contains "." s = false -> contains "." (lstrip s) = false.
Proof.
  induction s as [|c t IH]; [reflexivity|].
  intros H. simpl lstrip. destruct (is_space c); [|exact H].
  apply IH. rewrite contains_dot_cons in H.
  now destruct (Ascii.eqb "."%char c).
Qed.

Lemma contains_dot_rstrip (s : string) :
  contains "." s = false -> contains "." (rstrip s) = false.
Proof.
  induction s as [|c t IH]; [reflexivity|].
  rewrite contains_dot_cons.
  destruct (Ascii.eqb "."%char c) eqn:E; [discriminate|].
  intros H. specialize (IH H). simpl rstrip.
  destruct (rstrip t) as [|r0 r].
  - destruct (is_space c); [reflexivity|].
    rewrite contains_dot_cons, E. reflexivity.
  - rewrite contains_dot_cons, E. exact IH.
Qed.

Lemma lstrip_lower (s : string) : lstrip (lower s) = lower (lstrip s).
Proof.
  induction s as [|c t IH]; [reflexivity|].
  simpl. rewrite is_space_lower_char. now destruct (is_space c).
Qed.

Lemma rstrip_lower (s : string) : rstrip (lower s) = lower (rstrip s).
Proof.
  induction s as [|c t IH]; [reflexivity|].
  simpl. rewrite IH, is_space_lower_char.
  destruct (rstrip t); simpl; [now destruct (is_space c) | reflexivity].
Qed.

Lemma strip_lower (s : string) : strip (lower s) = lower (strip s).
Proof. unfold strip. now rewrite lstrip_lower, rstrip_lower. Qed.

Lemma lstrip_no_leading_space (s : string) : no_leading_space (lstrip s).
Proof.
  induction s as [|c t IH]; simpl; [exact I|].
  destruct (is_space c) eqn:E; [exact IH | exact E].
Qed.

Lemma lstrip_id (s : string) : no_leading_space s -> lstrip s = s.
Proof. destruct s as [|c t]; simpl; [reflexivity | now intros ->]. Qed.

Lemma rstrip_no_leading_space (s : string) :
  no_leading_space s -> no_leading_space (rstrip s).
Proof.
  destruct s as [|c t]; simpl; [exact id|]. intros H.
  destruct (rstrip t); [rewrite H|]; exact H.
Qed.

Lemma rstrip_idem (s : string) : rstrip (rstrip s) = rstrip s.
Proof.
  induction s as [|c t IH]; [reflexivity|].
  simpl. destruct (rstrip t) as [|r0 r] eqn:E.
  - destruct (is_space c) eqn:Ec; [reflexivity|]. simpl. now rewrite Ec.
  - change (rstrip (String c (String r0 r))) with
      (match rstrip (String r0 r) with
       | EmptyString => if is_space c then EmptyString else String c EmptyString
       | x => String c x end).
    now rewrite IH.
Qed.

Lemma strip_idem (s : string) : strip (strip s) = strip s.
Proof.
  unfold strip.
  rewrite (lstrip_id (rstrip (lstrip s)))
    by apply rstrip_no_leading_space, lstrip_no_leading_space.
  apply rstrip_idem.
Qed.

(** A text either holds no separator, or ends with a separator followed by
    the last piece of its split. *)
Lemma split_last_decompose (text : string) :
  contains "." text = false
  \/ exists pre, text = pre ++ String "."%char (last_item (split "."%char text)).
Proof.
  induction text as [|c t IH]; [now left|].
  destruct (Ascii.eqb_spec c "."%char) as [->|Hne].
  - right. cbn [split]. rewrite Ascii.eqb_refl.
    rewrite last_item_cons by apply split_nonempty.
    destruct IH as [Hno | [pre Hpre]].
    + exists "". now rewrite (split_no_dot _ Hno).
    + exists (String "."%char pre).
      change (String "."%char t
              = String "."%char (pre ++ String "."%char (last_item (split "."%char t)))).
      now rewrite <- Hpre.
  - destruct IH as [Hno | [pre Hpre]].
    + left. rewrite contains_dot_cons.
      destruct (Ascii.eqb_spec "."%char c); [congruence | exact Hno].
    + right. pose proof (last_split_no_dot t) as HL.
      remember (last_item (split "."%char t)) as L eqn:EL. clear EL. subst t.
      exists (String c pre).
      change (String c (pre ++ String "."%char L))
        with (String c pre ++ String "."%char L).
      rewrite last_split_app, (split_no_dot _ HL). reflexivity.
Qed.

End PyStrFacts.

(** ** Status normalization and rate-limit classification *)

Module ClassifierFacts.
Import PyStr PyStrFacts VerifyAgent.

(** What [_normalize_status] does to a text: the piece after the last
    separator, stripped, in lower case. *)
Lemma normalize_status_text (text : string) :
  exists seg,
    contains "." seg = false
    /\ (text = seg \/ exists pre, text = pre ++ "." ++ seg)
    /\ _normalize_status (Some text) = Some (lower (strip seg)).
Proof.
  unfold _normalize_status. destruct (contains "." text) eqn:E.
  - exists (last_item (split "."%char text)). split; [apply last_split_no_dot|].
    split; [right | reflexivity].
    destruct (split_last_decompose text) as [Hno | [pre Hpre]]; [congruence|].
    now exists pre.
  - exists text. auto.
Qed.

Lemma normalize_status_no_dot (text : string) :
  contains "." text = false ->
  _normalize_status (Some text) = Some (lower (strip text)).
Proof. unfold _normalize_status. now intros ->. Qed.

Lemma normalize_status_idem (value : option string) :
  _normalize_status (_normalize_status value) = _normalize_status value.
Proof.
  destruct value as [text|]; [|reflexivity].
  destruct (normalize_status_text text) as (seg & Hseg & _ & ->).
  rewrite normalize_status_no_dot.
  - now rewrite strip_lower, strip_idem, lower_idem.
  - rewrite contains_dot_lower. unfold strip.
    now apply contains_dot_rstrip, contains_dot_lstrip.
Qed.

Lemma normalize_status_qualified (ns token : string) :
  contains "." token = false ->
  _normalize_status (Some (ns ++ "." ++ token)) = _normalize_status (Some token).
Proof.
  intros Hno. rewrite (normalize_status_no_dot _ Hno). unfold _normalize_status.
  assert (contains "." (ns ++ "." ++ token) = true) as ->
    by (apply contains_spec; now exists ns, token).
  change (ns ++ "." ++ token) with (ns ++ String "."%char token).
  now rewrite last_split_app, (split_no_dot _ Hno).
Qed.

(** C4: status normalization is idempotent on every input; the qualified
    form "RunStatus.FAILED" and the bare token "failed" both normalize to
    "failed", and so does every qualified form next to its bare token; the
    function takes the text after the last separator, strips it and puts
    it in lower case. *)
Theorem normalize_status_idempotent :
  (forall value : option string,
      _normalize_status (_normalize_status value) = _normalize_status value)
  /\ _normalize_status (Some "RunStatus.FAILED") = Some "failed"
  /\ _normalize_status (Some "failed") = Some "failed"
  /\ (forall ns token : string,
        contains "." token = false ->
        _normalize_status (Some (ns ++ "." ++ token)) = _normalize_status (Some token))
  /\ (forall text : string,
        exists seg,
          contains "." seg = false
          /\ (text = seg \/ exists pre, text = pre ++ "." ++ seg)
          /\ _normalize_status (Some text) = Some (lower (strip seg)))
  /\ _normalize_status None = None.
Proof.
  split; [exact normalize_status_idem|].
  split; [reflexivity|]. split; [reflexivity|].
  split; [exact normalize_status_qualified|].
  split; [exact normalize_status_text | reflexivity].
Qed.

(** The code and the message [_is_retryable_rate_limit] reads off a
    non-empty dict payload. *)
Lemma retryable_dict (d : gmap string atom) :
  _is_retryable_rate_limit (ODict d) = true
  <-> d <> ∅
      /\ (is_substring "rate_limit" (lower (str_atom (default (AStr "") (d !! "code"))))
          \/ is_substring "rate limit" (lower (str_atom (default (AStr "") (d !! "message"))))).
Proof.
  unfold _is_retryable_rate_limit, truthy.
  rewrite <- !contains_spec. case_bool_decide as Hd; cbn [negb].
  - split; [discriminate | intros [Hne _]; congruence].
  - rewrite orb_true_iff. tauto.
Qed.

Lemma retryable_str (s : string) :
  _is_retryable_rate_limit (OStr s) = true
  <-> s <> "" /\ is_substring "rate limit" (lower s).
Proof.
  unfold _is_retryable_rate_limit, truthy.
  rewrite <- contains_spec. destruct (String.eqb_spec s "") as [->|Hne]; cbn [negb].
  - split; [discriminate | intros [Hne _]; congruence].
  - change (contains "rate_limit" "") with false. cbn [orb]. tauto.
Qed.

(** C2, as the code has it: an absent or empty payload is never retryable;
    a non-empty dict payload is retryable exactly when its code, in lower
    case, contains "rate_limit" or its message, in lower case, contains
    "rate limit"; any other payload exactly when its text, in lower case,
    contains "rate limit".  The code "Rate_Limit_Exceeded" and the message
    "Rate Limit hit" are retryable, the code "invalid_request" is not. *)
Theorem is_retryable_rate_limit_spec :
  _is_retryable_rate_limit ONone = false
  /\ _is_retryable_rate_limit (OStr "") = false
  /\ _is_retryable_rate_limit (ODict ∅) = false
  /\ (forall d : gmap string atom,
        _is_retryable_rate_limit (ODict d) = true
        <-> d <> ∅
            /\ (is_substring "rate_limit"
                  (lower (str_atom (default (AStr "") (d !! "code"))))
                \/ is_substring "rate limit"
                     (lower (str_atom (default (AStr "") (d !! "message"))))))
  /\ (forall s : string,
        _is_retryable_rate_limit (OStr s) = true
        <-> s <> "" /\ is_substring "rate limit" (lower s))
  /\ _is_retryable_rate_limit (ODict {[ "code" := AStr "Rate_Limit_Exceeded" ]}) = true
  /\ _is_retryable_rate_limit (ODict {[ "message" := AStr "Rate Limit hit" ]}) = true
  /\ _is_retryable_rate_limit (ODict {[ "code" := AStr "invalid_request" ]}) = false.
Proof.
  split; [reflexivity|]. split; [reflexivity|]. split; [reflexivity|].
  split; [exact retryable_dict|]. split; [exact retryable_str|].
  repeat split; vm_compute; reflexivity.
Qed.

(** C2 fails as stated: a message that contains the marker "rate_limit",
    and a code that contains the marker "rate limit", are not classified
    as retryable. *)
Lemma rate_limit_marker_in_other_field :
  is_substring "rate_limit" (lower "rate_limit reached")
  /\ _is_retryable_rate_limit
       (ODict {[ "message" := AStr "rate_limit reached" ]}) = false
  /\ is_substring "rate limit" (lower "Rate Limit")
  /\ _is_retryable_rate_limit (ODict {[ "code" := AStr "Rate Limit" ]}) = false.
Proof.
  split; [now exists "", " reached"|].
  split; [vm_compute; reflexivity|].
  split; [now exists "", ""|].
  vm_compute; reflexivity.
Qed.

End ClassifierFacts.

(** ** The role-line filter *)

Module FilterFacts.
Import PyStr PyStrFacts TestAllAgents.

Lemma collect_agent_lines_filter (transcript acc : list string) :
  collect_agent_lines transcript acc = (acc ++ List.filter is_agent_line transcript)%list.
Proof.
  revert acc. induction transcript as [|line rest IH]; intros acc; simpl.
  - now rewrite app_nil_r.
  - destruct (is_agent_line line); rewrite IH; [|reflexivity].
    now rewrite <- app_assoc.
Qed.

Lemma filter_sublist_of (f : string -> bool) (l : list string) :
  sublist (List.filter f l) l.
Proof.
  induction l as [|x l IH]; simpl; [constructor|].
  destruct (f x); now constructor.
Qed.

Lemma is_agent_line_spec (line : string) :
  is_agent_line line = true
  <-> is_substring "MessageRole.AGENT" line
      \/ exists rest, lower line = "[assistant]" ++ rest.
Proof.
  unfold is_agent_line.
  now rewrite orb_true_iff, contains_spec, startswith_spec.
Qed.

(** C8: the role-line filter returns the lines that match an agent-role
    marker (they contain "MessageRole.AGENT", or start with "[assistant]"
    whatever the case of the letters), in their order in the transcript,
    and the whole transcript when no line matches. *)
Theorem extract_agent_lines_spec (transcript : list string) :
  let agent_lines := List.filter is_agent_line transcript in
  _extract_agent_lines transcript
    = (if decide (agent_lines = []) then transcript else agent_lines)
  /\ sublist agent_lines transcript
  /\ (forall line : string,
        line ∈ agent_lines
        <-> line ∈ transcript
            /\ (is_substring "MessageRole.AGENT" line
                \/ exists rest, lower line = "[assistant]" ++ rest)).
Proof.
  cbv zeta. split; [|split].
  - unfold _extract_agent_lines. rewrite collect_agent_lines_filter.
    cbn [app]. destruct (List.filter is_agent_line transcript); reflexivity.
  - apply filter_sublist_of.
  - intros line. rewrite !list_elem_of_In, filter_In, is_agent_line_spec.
    reflexivity.
Qed.

(** Scenario 5 of the specification. *)
Example extract_agent_lines_scenario :
  _extract_agent_lines ["[user] hi"; "[assistant] High priority"]
  = ["[assistant] High priority"].
Proof. reflexivity. Qed.

Example extract_agent_lines_fallback :
  _extract_agent_lines ["[user] hi"; "[system] ok"] = ["[user] hi"; "[system] ok"].
Proof. reflexivity. Qed.

End FilterFacts.

(** ** The run driver *)

Module RunDriverFacts.
Import VerifyAgent.

Local Open Scope Q_scope.
Local Open Scope list_scope.

Lemma Qltb_true (x y : Q) : Qltb x y = true <-> x < y.
Proof.
  unfold Qltb. rewrite negb_true_iff, <- not_true_iff_false, Qle_bool_iff.
  split; [apply Qnot_le_lt | apply Qlt_not_le].
Qed.

Lemma Qltb_false (x y : Q) : Qltb x y = false <-> y <= x.
Proof. unfold Qltb. now rewrite negb_false_iff, Qle_bool_iff. Qed.

Lemma py_min_cases (a b : Q) :
  (py_min a b = b /\ b < a) \/ (py_min a b = a /\ a <= b).
Proof.
  unfold py_min. destruct (Qltb b a) eqn:E.
  - left. now apply Qltb_true in E.
  - right. now apply Qltb_false in E.
Qed.

Lemma py_max_cases (a b : Q) :
  (py_max a b = b /\ a < b) \/ (py_max a b = a /\ b <= a).
Proof.
  unfold py_max. destruct (Qltb a b) eqn:E.
  - left. now apply Qltb_true in E.
  - right. now apply Qltb_false in E.
Qed.

Lemma status_in_terminal (v : option string) :
  status_in v TERMINAL_STATUSES = true ->
  status_in v SUCCESS_STATUSES = false ->
  status_in v TERMINAL_FAILURE_STATUSES = true.
Proof.
  destruct v as [s|]; simpl; [|discriminate].
  rewrite !bool_decide_eq_true, bool_decide_eq_false.
  unfold TERMINAL_STATUSES. rewrite elem_of_union. tauto.
Qed.

Lemma count_app (p : Event -> bool) (l1 l2 : list Event) :
  count p (l1 ++ l2) = (count p l1 + count p l2)%nat.
Proof. unfold count. now rewrite List.filter_app, length_app. Qed.

Lemma backoff_sleeps_app (l1 l2 : list Event) :
  backoff_sleeps (l1 ++ l2) = (backoff_sleeps l1 ++ backoff_sleeps l2)%list.
Proof. apply omap_app. Qed.

Lemma poll_events_quiet (thread run : string) (poll_interval : Q) (evs : list Event) :
  Forall (poll_event thread run poll_interval) evs ->
  count is_run_created evs = 0%nat
  /\ count is_thread_created evs = 0%nat
  /\ count is_message_created evs = 0%nat
  /\ count is_deleted evs = 0%nat
  /\ backoff_sleeps evs = []
  /\ forall agent_id, Forall (attempt_event thread agent_id) evs.
Proof.
  induction 1 as [|e evs He _ (IH1 & IH2 & IH3 & IH4 & IH5 & IH6)].
  - repeat split; constructor.
  - destruct e as [| | |t r| |[] d|]; try contradiction.
    + destruct He as [-> ->]. repeat split; auto.
      intros a. constructor; [reflexivity | apply IH6].
    + repeat split; auto. intros a. constructor; [exact I | apply IH6].
Qed.

Section Loops.

Variable remote : Remote.
Variables (poll_interval timeout : Q) (max_attempts : Z) (max_backoff : Q).
Variables (agent_id endpoint thread : string).

Abbreviation poll_loop :=
  (poll_loop remote poll_interval max_attempts max_backoff endpoint thread).
Abbreviation attempt_loop :=
  (attempt_loop remote poll_interval timeout max_attempts max_backoff
     agent_id endpoint thread).

(** One turn of the polling loop, spelled out. *)
Lemma poll_loop_step (fuel : nat) (run : string) (attempt : Z)
    (b deadline : Q) (ls : option string) (w : World) :
  poll_loop (S fuel) run attempt b deadline ls w =
  if Qltb (clock w) deadline then
    match runs_get remote w thread run with
    | None => Raised (SdkError RunsGet) w
    | Some current_run =>
        let w1 := logged (RunFetched thread run) w in
        let status_value := _normalize_status (status current_run) in
        if status_in status_value TERMINAL_STATUSES then
          let last_error := _serialize_error (last_error current_run) in
          if status_in status_value SUCCESS_STATUSES then
            Done (Return {| thread_id := thread; run_id := run;
                            out_status := status_value;
                            out_last_error := last_error;
                            succeeded := true;
                            project_endpoint := endpoint |}) w1
          else if (_is_retryable_rate_limit last_error
                   && (attempt <? max_attempts)%Z)%bool then
            if Qltb (py_min max_backoff b) 0 then Raised ValueError w1
            else Done (Break (attempt + 1) (py_min max_backoff (b * (3 # 2))) true)
                   {| clock := clock w1 + py_min max_backoff b;
                      history := history w1 ++ [Slept BackoffWait (py_min max_backoff b)] |}
          else
            Done (Return {| thread_id := thread; run_id := run;
                            out_status := status_value;
                            out_last_error := last_error;
                            succeeded := false;
                            project_endpoint := endpoint |}) w1
        else if Qltb poll_interval 0 then Raised ValueError w1
        else poll_loop fuel run attempt b deadline status_value
               {| clock := clock w1 + poll_interval;
                  history := history w1 ++ [Slept PollWait poll_interval] |}
    end
  else Raised (TimeoutError run ls) w.
Proof.
  cbn [VerifyAgent.poll_loop]. unfold bind at 1, time_time.
  destruct (Qltb (clock w) deadline); [|reflexivity].
  unfold bind at 1, sdk_call.
  destruct (runs_get remote w thread run) as [current_run|]; [|reflexivity].
  cbv zeta.
  destruct (status_in (_normalize_status (status current_run)) TERMINAL_STATUSES).
  - destruct (status_in (_normalize_status (status current_run)) SUCCESS_STATUSES);
      [reflexivity|].
    destruct (_is_retryable_rate_limit _ && (attempt <? max_attempts)%Z)%bool;
      [|reflexivity].
    unfold bind, time_sleep.
    destruct (Qltb (py_min max_backoff b) 0); reflexivity.
  - unfold bind at 1, time_sleep.
    destruct (Qltb poll_interval 0); reflexivity.
Qed.

(** What one attempt's polling can end in, and what it adds to the
    history. *)
Lemma poll_loop_post (fuel : nat) (run : string) (attempt : Z)
    (b deadline : Q) (ls : option string) (w : World) :
  match poll_loop fuel run attempt b deadline ls w with
  | OutOfFuel => True
  | Done (Return o) w' =>
      exists evs,
        history w' = (history w ++ evs)%list
        /\ Forall (poll_event thread run poll_interval) evs
        /\ outcome_invariant o
        /\ thread_id o = thread /\ run_id o = run /\ project_endpoint o = endpoint
  | Done (Break a' b' rr) w' =>
      exists evs,
        history w' = (history w ++ evs ++ [Slept BackoffWait (py_min max_backoff b)])%list
        /\ Forall (poll_event thread run poll_interval) evs
        /\ a' = (attempt + 1)%Z /\ (attempt < max_attempts)%Z
        /\ b' = py_min max_backoff (b * (3 # 2)) /\ rr = true
  | Raised e w' =>
      exists evs,
        history w' = (history w ++ evs)%list
        /\ Forall (poll_event thread run poll_interval) evs
        /\ ((exists ls', e = TimeoutError run ls')
            \/ (e = SdkError RunsGet /\ refuses remote RunsGet)
            \/ (e = ValueError
                /\ (poll_interval < 0 \/ py_min max_backoff b < 0)))
  end.
Proof.
  revert ls w. induction fuel as [|fuel IH]; intros ls w; [exact I|].
  rewrite poll_loop_step.
  destruct (Qltb (clock w) deadline).
  2:{ exists []. rewrite app_nil_r. eauto 6. }
  destruct (runs_get remote w thread run) as [current_run|] eqn:Eget.
  2:{ exists []. rewrite app_nil_r. split; [reflexivity|]. split; [constructor|].
      right; left. split; [reflexivity|]. now exists w, thread, run. }
  cbv zeta.
  assert (Hf : Forall (poll_event thread run poll_interval) [RunFetched thread run])
    by (repeat constructor).
  destruct (status_in (_normalize_status (status current_run)) TERMINAL_STATUSES) eqn:Et.
  - destruct (status_in (_normalize_status (status current_run)) SUCCESS_STATUSES) eqn:Es.
    + exists [RunFetched thread run]. repeat split; auto. discriminate.
    + destruct (_is_retryable_rate_limit _ && (attempt <? max_attempts)%Z)%bool eqn:Er.
      * apply andb_true_iff in Er as [_ Hlt%Z.ltb_lt].
        destruct (Qltb (py_min max_backoff b) 0) eqn:Ew.
        -- apply Qltb_true in Ew. exists [RunFetched thread run]. eauto 8.
        -- exists [RunFetched thread run]. cbn [history logged].
           rewrite <- app_assoc. repeat split; auto.
      * exists [RunFetched thread run]. repeat split; auto; try discriminate.
        intros _. now apply status_in_terminal.
  - destruct (Qltb poll_interval 0) eqn:Ep.
    + apply Qltb_true in Ep. exists [RunFetched thread run]. eauto 8.
    + match goal with |- context [poll_loop fuel run attempt b deadline ?l ?w0] =>
        specialize (IH l w0); destruct (poll_loop fuel run attempt b deadline l w0)
          as [[o|a' b' rr] w'|e w'|] end; [| | |exact I].
      all: destruct IH as (evs & Hh & Hev & Hrest);
        exists (RunFetched thread run :: Slept PollWait poll_interval :: evs);
        cbn [history logged] in Hh; rewrite Hh, <- !app_assoc;
        (split; [reflexivity|]); (split; [|exact Hrest]);
        repeat constructor; exact Hev.
Qed.

(** One turn of the attempt loop, spelled out. *)
Lemma attempt_loop_step (fuel pf : nat) (attempt : Z) (b : Q) (w : World) :
  attempt_loop (S fuel) pf attempt b w =
  if (attempt <=? max_attempts)%Z then
    match runs_create remote w thread agent_id with
    | None => Raised (SdkError RunsCreate) w
    | Some run =>
        let w1 := logged (RunCreated thread agent_id run) w in
        match poll_loop pf run attempt b (clock w1 + timeout) None w1 with
        | Done (Return o) w' => Done o w'
        | Done (Break a' b' _) w' => attempt_loop fuel pf a' b' w'
        | Raised e w' => Raised e w'
        | OutOfFuel => OutOfFuel
        end
    end
  else Raised RuntimeError w.
Proof.
  cbn [VerifyAgent.attempt_loop].
  destruct (attempt <=? max_attempts)%Z; [|reflexivity].
  unfold bind at 1, sdk_call.
  destruct (runs_create remote w thread agent_id) as [run|]; [|reflexivity].
  unfold bind at 1, time_time. unfold bind at 1. cbv zeta.
  destruct (VerifyAgent.poll_loop _ _ _ _ _ _ _ _ _ _ _ _ _) as [[o|a' b' rr] w'|e w'|];
    reflexivity.
Qed.

(** What the attempt loop can end in, and what it adds to the history:
    runs and fetches on the one thread and sleeps; the retry sleeps are
    the successive clamped backoffs; at most one run for each value of
    [attempt] up to [max_attempts]; the closing [raise] only when the
    loop is entered with [attempt] above [max_attempts]. *)
Lemma attempt_loop_post (fuel pf : nat) (attempt : Z) (b : Q) (w : World) :
  match attempt_loop fuel pf attempt b w with
  | OutOfFuel => True
  | Done o w' =>
      exists evs,
        history w' = (history w ++ evs)%list
        /\ (Forall (attempt_event thread agent_id) evs
            /\ backoff_sleeps evs
               = backoff_waits max_backoff b (length (backoff_sleeps evs))
            /\ (Z.of_nat (count is_run_created evs)
                <= Z.max 0 (max_attempts - attempt + 1))%Z)
        /\ count is_run_created evs = S (length (backoff_sleeps evs))
        /\ outcome_invariant o
        /\ thread_id o = thread /\ project_endpoint o = endpoint
  | Raised e w' =>
      exists evs,
        history w' = (history w ++ evs)%list
        /\ (Forall (attempt_event thread agent_id) evs
            /\ backoff_sleeps evs
               = backoff_waits max_backoff b (length (backoff_sleeps evs))
            /\ (Z.of_nat (count is_run_created evs)
                <= Z.max 0 (max_attempts - attempt + 1))%Z)
        /\ match e with
           | RuntimeError => (max_attempts < attempt)%Z /\ evs = []
           | TimeoutError _ _ | ValueError =>
               count is_run_created evs = S (length (backoff_sleeps evs))
           | SdkError op =>
               refuses remote op
               /\ ((op = RunsGet
                    /\ count is_run_created evs = S (length (backoff_sleeps evs)))
                   \/ (op = RunsCreate
                       /\ count is_run_created evs = length (backoff_sleeps evs)))
           | SystemExit _ => False
           end
  end.
Proof.
  revert attempt b w. induction fuel as [|fuel IH]; intros attempt b w; [exact I|].
  rewrite attempt_loop_step.
  destruct (Z.leb_spec attempt max_attempts) as [Hle|Hgt].
  2:{ exists []. rewrite app_nil_r. repeat split; auto; try constructor.
      cbn. lia. }
  destruct (runs_create remote w thread agent_id) as [run|] eqn:Ecreate.
  2:{ exists []. rewrite app_nil_r. repeat split; auto; try constructor.
      - cbn. lia.
      - now exists w, thread, agent_id. }
  cbv zeta.
  pose proof (poll_loop_post pf run attempt b
                (clock (logged (RunCreated thread agent_id run) w) + timeout) None
                (logged (RunCreated thread agent_id run) w)) as Hp.
  destruct (poll_loop pf run attempt b _ None _) as [[o|a' b' rr] w'|e w'|];
    [| | |exact I].
  - destruct Hp as (evs & Hh & Hev & Hinv & Ht & _ & He).
    destruct (poll_events_quiet _ _ _ _ Hev) as (Hc & _ & _ & _ & Hb & Ha).
    exists (RunCreated thread agent_id run :: evs).
    cbn [history logged] in Hh. rewrite Hh, <- app_assoc.
    split; [reflexivity|].
    change (RunCreated thread agent_id run :: evs)
      with ([RunCreated thread agent_id run] ++ evs)%list.
    rewrite count_app, backoff_sleeps_app, Hc, Hb. cbn.
    split; [|auto].
    split; [constructor; [now split | apply Ha] | split; [reflexivity | lia]].
  - destruct Hp as (evs & Hh & Hev & -> & Hlt & -> & _).
    destruct (poll_events_quiet _ _ _ _ Hev) as (Hc & _ & _ & _ & Hb & Ha).
    specialize (IH (attempt + 1)%Z (py_min max_backoff (b * (3 # 2))) w').
    assert (Hpre : forall rest,
               let evs' := ([RunCreated thread agent_id run] ++ evs
                            ++ [Slept BackoffWait (py_min max_backoff b)] ++ rest)%list in
               history w' ++ rest = history w ++ evs'
               /\ count is_run_created evs' = S (count is_run_created rest)
               /\ backoff_sleeps evs'
                  = py_min max_backoff b :: backoff_sleeps rest
               /\ (Forall (attempt_event thread agent_id) rest ->
                   Forall (attempt_event thread agent_id) evs')).
    { intros rest evs'. subst evs'. cbn [history logged] in Hh.
      rewrite Hh, <- !app_assoc.
      rewrite !count_app, !backoff_sleeps_app, Hc, Hb. cbn.
      repeat split; auto.
      intros Hr. constructor; [now split|].
      apply Forall_app; split; [apply Ha|]. now constructor. }
    destruct (attempt_loop fuel pf _ _ w') as [o w''|e w''|]; [| |exact I].
    + destruct IH as (rest & Hh' & (Hf & Hs & Hn) & Hcnt & Hinv).
      destruct (Hpre rest) as (E1 & E2 & E3 & E4).
      eexists. rewrite Hh', E1. split; [reflexivity|].
      rewrite E2, E3. cbn [length backoff_waits].
      split; [split; [auto | split; [congruence | lia]]|].
      split; [congruence | exact Hinv].
    + destruct IH as (rest & Hh' & (Hf & Hs & Hn) & He).
      destruct (Hpre rest) as (E1 & E2 & E3 & E4).
      eexists. rewrite Hh', E1. split; [reflexivity|].
      rewrite E2, E3. cbn [length backoff_waits].
      split; [split; [auto | split; [congruence | lia]]|].
      destruct e as [| op | | |]; auto.
      * destruct He as [Hr [[-> He]|[-> He]]]; (split; [exact Hr|]);
          [left | right]; split; auto.
      * lia.
  - destruct Hp as (evs & Hh & Hev & He).
    destruct (poll_events_quiet _ _ _ _ Hev) as (Hc & _ & _ & _ & Hb & Ha).
    exists (RunCreated thread agent_id run :: evs).
    cbn [history logged] in Hh. rewrite Hh, <- app_assoc.
    split; [reflexivity|].
    change (RunCreated thread agent_id run :: evs)
      with ([RunCreated thread agent_id run] ++ evs)%list.
    rewrite count_app, backoff_sleeps_app, Hc, Hb. cbn.
    split; [split; [constructor; [now split | apply Ha] | split; [reflexivity | lia]]|].
    destruct He as [[ls' ->]|[[-> Hr]|[-> _]]]; auto.
Qed.

(** The polling loop ends: every turn that goes on sleeps
    [poll_interval], so [n] turns are enough to pass a deadline that is
    at most [n * poll_interval] away. *)
Lemma poll_loop_enough_fuel (fuel n : nat) (run : string) (attempt : Z)
    (b deadline : Q) (ls : option string) (w : World) :
  0 < poll_interval ->
  (n < fuel)%nat ->
  deadline - clock w <= inject_Z (Z.of_nat n) * poll_interval ->
  poll_loop fuel run attempt b deadline ls w <> OutOfFuel.
Proof.
  intros Hp. revert n ls w.
  induction fuel as [|fuel IH]; intros n ls w Hn Hd; [lia|].
  rewrite poll_loop_step.
  destruct (Qltb (clock w) deadline) eqn:Enow; [|discriminate].
  apply Qltb_true in Enow.
  destruct (runs_get remote w thread run) as [current_run|]; [|discriminate].
  cbv zeta.
  destruct (status_in _ TERMINAL_STATUSES).
  - destruct (status_in _ SUCCESS_STATUSES); [discriminate|].
    destruct (_ && _)%bool; [|discriminate].
    destruct (Qltb (py_min max_backoff b) 0); discriminate.
  - destruct (Qltb poll_interval 0); [discriminate|].
    destruct n as [|m].
    + exfalso. change (inject_Z (Z.of_nat 0)) with 0%Q in Hd. lra.
    + apply (IH m); [lia|]. cbn [clock logged].
      rewrite Nat2Z.inj_succ in Hd. unfold Z.succ in Hd.
      rewrite inject_Z_plus in Hd. change (inject_Z 1) with 1%Q in Hd.
      lra.
Qed.

Lemma timeout_within_ceiling :
  0 < poll_interval ->
  timeout
  <= inject_Z (Z.of_nat (Z.to_nat (Qceiling (timeout / poll_interval)))) * poll_interval.
Proof.
  intros Hp.
  assert (H1 : timeout / poll_interval
               <= inject_Z (Z.of_nat (Z.to_nat (Qceiling (timeout / poll_interval))))).
  { eapply Qle_trans; [apply Qle_ceiling|].
    rewrite <- Zle_Qle. lia. }
  apply (Qmult_le_compat_r _ _ poll_interval) in H1; [|lra].
  rewrite Qmult_comm, Qmult_div_r in H1; [exact H1 | lra].
Qed.

(** The attempt loop ends: [attempt] grows on every turn that goes on. *)
Lemma attempt_loop_enough_fuel (fuel pf : nat) (attempt : Z) (b : Q) (w : World) :
  0 < poll_interval ->
  (Z.to_nat (Qceiling (timeout / poll_interval)) < pf)%nat ->
  (Z.to_nat (max_attempts - attempt + 1) < fuel)%nat ->
  attempt_loop fuel pf attempt b w <> OutOfFuel.
Proof.
  intros Hp Hpf. revert attempt b w.
  induction fuel as [|fuel IH]; intros attempt b w Hf; [lia|].
  rewrite attempt_loop_step.
  destruct (Z.leb_spec attempt max_attempts) as [Hle|Hgt]; [|discriminate].
  destruct (runs_create remote w thread agent_id) as [run|]; [|discriminate].
  cbv zeta.
  pose proof (poll_loop_post pf run attempt b
                (clock (logged (RunCreated thread agent_id run) w) + timeout) None
                (logged (RunCreated thread agent_id run) w)) as Hpost.
  pose proof (poll_loop_enough_fuel pf _ run attempt b
                (clock (logged (RunCreated thread agent_id run) w) + timeout) None
                (logged (RunCreated thread agent_id run) w) Hp Hpf) as Hfuel.
  destruct (poll_loop pf run attempt b _ None _) as [[o|a' b' rr] w'|e w'|].
  - discriminate.
  - destruct Hpost as (_ & _ & _ & -> & _). apply IH. lia.
  - discriminate.
  - exfalso. apply Hfuel; [|reflexivity].
    pose proof (timeout_within_ceiling Hp). lra.
Qed.

(** No sleep is refused when the intervals are not negative. *)
Lemma attempt_loop_no_value_error (fuel pf : nat) (attempt : Z) (b : Q)
    (w w' : World) :
  0 <= poll_interval -> 0 <= max_backoff -> 0 <= b ->
  attempt_loop fuel pf attempt b w <> Raised ValueError w'.
Proof.
  intros Hp Hm. revert attempt b w.
  induction fuel as [|fuel IH]; intros attempt b w Hb; [discriminate|].
  rewrite attempt_loop_step.
  destruct (attempt <=? max_attempts)%Z; [|discriminate].
  destruct (runs_create remote w thread agent_id) as [run|]; [|discriminate].
  cbv zeta.
  pose proof (poll_loop_post pf run attempt b
                (clock (logged (RunCreated thread agent_id run) w) + timeout) None
                (logged (RunCreated thread agent_id run) w)) as Hpost.
  destruct (poll_loop pf run attempt b _ None _) as [[o|a' b' rr] w1|e w1|];
    try discriminate.
  - destruct Hpost as (_ & _ & _ & _ & _ & -> & _). apply IH.
    destruct (py_min_cases max_backoff (b * (3 # 2))) as [[-> _]|[-> _]]; lra.
  - destruct Hpost as (_ & _ & _ & [[ls' ->]|[[-> _]|[_ Hneg]]]); try discriminate.
    exfalso. destruct Hneg as [Hneg|Hneg]; [lra|].
    destruct (py_min_cases max_backoff b) as [[E _]|[E _]]; rewrite E in Hneg; lra.
Qed.

Lemma failure_is_not_success (v : option string) :
  status_in v TERMINAL_FAILURE_STATUSES = true ->
  status_in v SUCCESS_STATUSES = false.
Proof.
  destruct v as [s|]; simpl; [|reflexivity].
  rewrite bool_decide_eq_true, bool_decide_eq_false.
  unfold TERMINAL_FAILURE_STATUSES, SUCCESS_STATUSES.
  rewrite !elem_of_union, !elem_of_singleton.
  intros [-> | ->] [H | H]; discriminate.
Qed.

(** With only rate-limited failures among the terminal statuses, polling
    returns an outcome only on the last attempt, and that outcome is a
    failure. *)
Lemma poll_loop_rate_limited (fuel : nat) (run : string) (attempt : Z)
    (b deadline : Q) (ls : option string) (w w' : World) (o : Outcome) :
  only_rate_limited_failures remote ->
  poll_loop fuel run attempt b deadline ls w = Done (Return o) w' ->
  succeeded o = false /\ (max_attempts <= attempt)%Z.
Proof.
  intros Hrl. revert ls w.
  induction fuel as [|fuel IH]; intros ls w; [discriminate|].
  rewrite poll_loop_step.
  destruct (Qltb (clock w) deadline); [|discriminate].
  destruct (runs_get remote w thread run) as [current_run|] eqn:Eget; [|discriminate].
  cbv zeta.
  destruct (status_in _ TERMINAL_STATUSES) eqn:Et.
  - destruct (Hrl _ _ _ _ Eget Et) as [Hfail Hretry].
    rewrite (failure_is_not_success _ Hfail), Hretry. cbn [andb].
    destruct (Z.ltb_spec attempt max_attempts) as [Hlt|Hge].
    + destruct (Qltb (py_min max_backoff b) 0); discriminate.
    + intros [= <- _]. split; [reflexivity | exact Hge].
  - destruct (Qltb poll_interval 0); [discriminate|]. apply IH.
Qed.

(** With only rate-limited failures among the terminal statuses, the
    attempt loop returns an outcome only after it has used every attempt
    up to [max_attempts], one run each. *)
Lemma attempt_loop_rate_limited (fuel pf : nat) (attempt : Z) (b : Q)
    (w w' : World) (o : Outcome) :
  only_rate_limited_failures remote ->
  attempt_loop fuel pf attempt b w = Done o w' ->
  succeeded o = false
  /\ exists evs,
       history w' = history w ++ evs
       /\ Z.of_nat (count is_run_created evs) = (max_attempts - attempt + 1)%Z.
Proof.
  intros Hrl. revert attempt b w.
  induction fuel as [|fuel IH]; intros attempt b w; [discriminate|].
  rewrite attempt_loop_step.
  destruct (Z.leb_spec attempt max_attempts) as [Hle|Hgt]; [|discriminate].
  destruct (runs_create remote w thread agent_id) as [run|]; [|discriminate].
  cbv zeta.
  pose proof (poll_loop_post pf run attempt b
                (clock (logged (RunCreated thread agent_id run) w) + timeout) None
                (logged (RunCreated thread agent_id run) w)) as Hpost.
  destruct (poll_loop pf run attempt b _ None _) as [[o1|a' b' rr] w1|e w1|] eqn:Epoll;
    try discriminate.
  - intros [= -> ->].
    destruct (poll_loop_rate_limited _ _ _ _ _ _ _ _ _ Hrl Epoll) as [Hs Hge].
    split; [exact Hs|].
    destruct Hpost as (evs & Hh & Hev & _).
    destruct (poll_events_quiet _ _ _ _ Hev) as (Hc & _).
    exists (RunCreated thread agent_id run :: evs).
    cbn [history logged] in Hh. rewrite Hh, <- app_assoc. split; [reflexivity|].
    change (RunCreated thread agent_id run :: evs)
      with ([RunCreated thread agent_id run] ++ evs).
    rewrite count_app, Hc. cbn. lia.
  - intros Hrest. destruct Hpost as (evs & Hh & Hev & -> & Hlt & -> & _).
    destruct (poll_events_quiet _ _ _ _ Hev) as (Hc & _).
    destruct (IH _ _ _ Hrest) as (Hs & rest & Hh' & Hn).
    split; [exact Hs|].
    exists ([RunCreated thread agent_id run] ++ evs
            ++ [Slept BackoffWait (py_min max_backoff b)] ++ rest).
    cbn [history logged] in Hh. rewrite Hh', Hh, <- !app_assoc.
    split; [reflexivity|].
    rewrite !count_app, Hc. cbn. lia.
Qed.


(** More fuel does not change the result of a polling loop that ended. *)
Lemma poll_loop_more_fuel (f1 f2 : nat) (run : string) (attempt : Z)
    (b deadline : Q) (ls : option string) (w : World) :
  (f1 <= f2)%nat ->
  poll_loop f1 run attempt b deadline ls w <> OutOfFuel ->
  poll_loop f2 run attempt b deadline ls w = poll_loop f1 run attempt b deadline ls w.
Proof.
  revert f2 ls w. induction f1 as [|f1 IH]; intros f2 ls w Hle Hend.
  - now contradiction Hend.
  - destruct f2 as [|f2]; [lia|].
    rewrite poll_loop_step in Hend. rewrite !poll_loop_step.
    destruct (Qltb (clock w) deadline); [|reflexivity].
    destruct (runs_get remote w thread run) as [current_run|]; [|reflexivity].
    cbv zeta in *.
    destruct (status_in _ TERMINAL_STATUSES); [reflexivity|].
    destruct (Qltb poll_interval 0); [reflexivity|].
    apply IH; [lia | exact Hend].
Qed.

(** More fuel does not change the result of an attempt loop that ended. *)
Lemma attempt_loop_more_fuel (f1 f2 pf1 pf2 : nat) (attempt : Z) (b : Q) (w : World) :
  (f1 <= f2)%nat -> (pf1 <= pf2)%nat ->
  attempt_loop f1 pf1 attempt b w <> OutOfFuel ->
  attempt_loop f2 pf2 attempt b w = attempt_loop f1 pf1 attempt b w.
Proof.
  intros Hle Hpf. revert f2 Hle attempt b w.
  induction f1 as [|f1 IH]; intros f2 Hle attempt b w Hend.
  - now contradiction Hend.
  - destruct f2 as [|f2]; [lia|].
    rewrite attempt_loop_step in Hend. rewrite !attempt_loop_step.
    destruct (attempt <=? max_attempts)%Z; [|reflexivity].
    destruct (runs_create remote w thread agent_id) as [run|]; [|reflexivity].
    cbv zeta in *.
    rewrite (poll_loop_more_fuel pf1 pf2) by
      (try exact Hpf; intros E; rewrite E in Hend; now apply Hend).
    destruct (poll_loop pf1 run attempt b _ None _) as [[o|a' b' rr] w1|e w1|];
      try reflexivity.
    apply IH; [lia | exact Hend].
Qed.

End Loops.

(** The body of [verify_agent] up to the attempt loop, spelled out. *)
Lemma verify_agent_unfold (fuel : nat) (remote : Remote) (env : gmap string string)
    (ticket : string) (poll_interval timeout : Q) (max_attempts : Z)
    (initial_backoff max_backoff : Q) (agent_id : string) (w : World) :
  verify_agent fuel remote env ticket poll_interval timeout max_attempts
    initial_backoff max_backoff agent_id w =
  match env !! "AIFOUNDRY_PROJECT_ENDPOINT" with
  | None => Raised (SystemExit "AIFOUNDRY_PROJECT_ENDPOINT") w
  | Some value =>
      if String.eqb value "" then Raised (SystemExit "AIFOUNDRY_PROJECT_ENDPOINT") w
      else
        match threads_create remote w with
        | None => Raised (SdkError ThreadsCreate) w
        | Some thread =>
            let w1 := logged (ThreadCreated thread) w in
            if messages_create remote w1 thread "user" ticket then
              attempt_loop remote poll_interval timeout max_attempts max_backoff
                agent_id (PyStr.strip value) thread fuel fuel 1
                (py_max initial_backoff (poll_interval * 2))
                (logged (MessageCreated thread "user" ticket) w1)
            else Raised (SdkError MessagesCreate) w1
        end
  end.
Proof.
  unfold verify_agent, _require_env. unfold bind at 1.
  destruct (env !! "AIFOUNDRY_PROJECT_ENDPOINT") as [value|]; [|reflexivity].
  destruct (String.eqb value ""); [reflexivity|].
  unfold ret at 1. unfold bind at 1. unfold sdk_call at 1.
  destruct (threads_create remote w) as [thread|]; [|reflexivity].
  unfold bind at 1. unfold sdk_call at 1.
  destruct (messages_create remote _ thread "user" ticket); reflexivity.
Qed.

(** What a call can end in and what it adds to the history: the thread
    and the message, then the events of the attempt loop. *)
Lemma verify_agent_post (fuel : nat) (remote : Remote) (env : gmap string string)
    (ticket : string) (poll_interval timeout : Q) (max_attempts : Z)
    (initial_backoff max_backoff : Q) (agent_id : string) (w : World) :
  let r := verify_agent fuel remote env ticket poll_interval timeout max_attempts
             initial_backoff max_backoff agent_id w in
  forall w', final_world r = Some w' ->
  exists thread pre evs,
    history w' = history w ++ pre ++ evs
    /\ Forall (attempt_event thread agent_id) evs
    /\ backoff_sleeps evs
       = backoff_waits max_backoff (py_max initial_backoff (poll_interval * 2))
           (length (backoff_sleeps evs))
    /\ (Z.of_nat (count is_run_created evs) <= Z.max 0 max_attempts)%Z
    /\ let setup := [ThreadCreated thread; MessageCreated thread "user" ticket] in
       match r with
       | Done o _ =>
           pre = setup
           /\ count is_run_created evs = S (length (backoff_sleeps evs))
           /\ outcome_invariant o /\ thread_id o = thread
       | Raised (SystemExit _) _ => pre = [] /\ evs = []
       | Raised (SdkError op) _ =>
           refuses remote op
           /\ ((op = ThreadsCreate /\ pre = [] /\ evs = [])
               \/ (op = MessagesCreate /\ pre = [ThreadCreated thread] /\ evs = [])
               \/ (op = RunsCreate /\ pre = setup
                   /\ count is_run_created evs = length (backoff_sleeps evs))
               \/ (op = RunsGet /\ pre = setup
                   /\ count is_run_created evs = S (length (backoff_sleeps evs))))
       | Raised RuntimeError _ => pre = setup /\ evs = [] /\ (max_attempts < 1)%Z
       | Raised _ _ =>
           pre = setup /\ count is_run_created evs = S (length (backoff_sleeps evs))
       | OutOfFuel => False
       end.
Proof.
  cbv zeta. rewrite verify_agent_unfold.
  assert (Hnil : forall thread,
             Forall (attempt_event thread agent_id) []
             /\ backoff_sleeps []
                = backoff_waits max_backoff (py_max initial_backoff (poll_interval * 2))
                    (length (backoff_sleeps []))
             /\ (Z.of_nat (count is_run_created []) <= Z.max 0 max_attempts)%Z).
  { intros thread. split; [constructor|]. split; [reflexivity|]. cbn. lia. }
  destruct (env !! "AIFOUNDRY_PROJECT_ENDPOINT") as [value|].
  2:{ intros w' [= <-]. exists "", [], []. rewrite !app_nil_r.
      destruct (Hnil "") as (H1 & H2 & H3). auto 10. }
  destruct (String.eqb value "").
  { intros w' [= <-]. exists "", [], []. rewrite !app_nil_r.
    destruct (Hnil "") as (H1 & H2 & H3). auto 10. }
  destruct (threads_create remote w) as [thread|] eqn:Ethread.
  2:{ intros w' [= <-]. exists "", [], []. rewrite !app_nil_r.
      destruct (Hnil "") as (H1 & H2 & H3).
      assert (refuses remote ThreadsCreate) by (now exists w). auto 10. }
  cbv zeta.
  destruct (messages_create remote _ thread "user" ticket) eqn:Emsg.
  2:{ intros w' [= <-]. exists thread, [ThreadCreated thread], [].
      destruct (Hnil thread) as (H1 & H2 & H3).
      assert (refuses remote MessagesCreate) by (cbn; eauto). auto 10. }
  pose proof (attempt_loop_post remote poll_interval timeout max_attempts max_backoff
                agent_id (PyStr.strip value) thread fuel fuel 1
                (py_max initial_backoff (poll_interval * 2))
                (logged (MessageCreated thread "user" ticket)
                   (logged (ThreadCreated thread) w))) as Hpost.
  destruct (attempt_loop _ _ _ _ _ _ _ _ _ _ _ _ _) as [o w''|e w''|];
    intros w' [= <-].
  - destruct Hpost as (evs & Hh & (Hf & Hs & Hn) & Hc & Hinv & Ht & _).
    exists thread, [ThreadCreated thread; MessageCreated thread "user" ticket], evs.
    cbn [history logged] in Hh. rewrite Hh, <- !app_assoc.
    repeat (split; [first [reflexivity | assumption | lia]|]). auto.
  - destruct Hpost as (evs & Hh & (Hf & Hs & Hn) & He).
    exists thread, [ThreadCreated thread; MessageCreated thread "user" ticket], evs.
    cbn [history logged] in Hh. rewrite Hh, <- !app_assoc.
    repeat (split; [first [reflexivity | assumption | lia]|]).
    destruct e as [| op | | |]; [contradiction | | auto | | auto].
    + destruct He as [Hr [[-> He]|[-> He]]]; auto 10.
    + destruct He as [He ->]. repeat split; auto.
Qed.

Lemma status_in_success (v : option string) :
  status_in v SUCCESS_STATUSES = true ->
  v = Some "succeeded" \/ v = Some "completed".
Proof.
  destruct v as [s|]; simpl; [|discriminate].
  rewrite bool_decide_eq_true. unfold SUCCESS_STATUSES.
  rewrite elem_of_union, !elem_of_singleton. intros [-> | ->]; auto.
Qed.

Lemma status_in_failure (v : option string) :
  status_in v TERMINAL_FAILURE_STATUSES = true ->
  v = Some "failed" \/ v = Some "canceled".
Proof.
  destruct v as [s|]; simpl; [|discriminate].
  rewrite bool_decide_eq_true. unfold TERMINAL_FAILURE_STATUSES.
  rewrite elem_of_union, !elem_of_singleton. intros [-> | ->]; auto.
Qed.


Lemma Leibniz_Qeq (x y : Q) : x = y -> x == y.
Proof. intros ->. reflexivity. Qed.

Ltac qlra :=
  repeat match goal with
         | H : @eq Q _ _ |- _ => apply Leibniz_Qeq in H
         end;
  lra.

Lemma current_backoff_nonneg (ib p mb : Q) (n : nat) :
  0 < p -> 0 <= mb -> 0 <= current_backoff_at ib p mb n.
Proof.
  intros Hp Hm. induction n as [|n IH]; cbn [current_backoff_at].
  - destruct (py_max_cases ib (p * 2)) as [[-> _]|[-> H]]; lra.
  - destruct (py_min_cases mb (current_backoff_at ib p mb n * (3 # 2)))
      as [[-> _]|[-> _]]; lra.
Qed.

(** The [k]-th wait of a series of retries is the clamped [k]-th value of
    [current_backoff]. *)
Lemma backoff_waits_lookup (ib p mb : Q) (n j k : nat) (d : Q) :
  backoff_waits mb (current_backoff_at ib p mb j) n !! k = Some d ->
  d = py_min mb (current_backoff_at ib p mb (j + k)).
Proof.
  revert j k. induction n as [|n IH]; intros j k; [discriminate|].
  cbn [backoff_waits]. destruct k as [|k].
  - intros [= <-]. now rewrite Nat.add_0_r.
  - intros H. change (py_min mb (current_backoff_at ib p mb j * (3 # 2)))
      with (current_backoff_at ib p mb (S j)) in H.
    apply IH in H. now rewrite Nat.add_succ_r.
Qed.

Section Calls.

Variable fuel : nat.
Variable remote : Remote.
Variable env : gmap string string.
Variable ticket : string.
Variables (poll_interval timeout : Q) (max_attempts : Z).
Variables (initial_backoff max_backoff : Q).
Variable agent_id : string.
Variable w : World.

Abbreviation the_call :=
  (verify_agent fuel remote env ticket poll_interval timeout max_attempts
     initial_backoff max_backoff agent_id w).

(** With enough fuel a call ends, whatever the remote does. *)
Lemma verify_agent_ends :
  0 < poll_interval ->
  (enough_fuel poll_interval timeout max_attempts <= fuel)%nat ->
  the_call <> OutOfFuel.
Proof.
  intros Hp Hf. rewrite verify_agent_unfold.
  destruct (env !! "AIFOUNDRY_PROJECT_ENDPOINT") as [value|]; [|discriminate].
  destruct (String.eqb value ""); [discriminate|].
  destruct (threads_create remote w) as [thread|]; [|discriminate].
  cbv zeta.
  destruct (messages_create remote _ thread "user" ticket); [|discriminate].
  unfold enough_fuel in Hf.
  apply attempt_loop_enough_fuel; [exact Hp | lia | lia].
Qed.

(** Fuel only bounds the loops: a call that ended gives the same result
    with any larger fuel. *)
Lemma verify_agent_more_fuel (fuel' : nat) :
  (fuel <= fuel')%nat ->
  the_call <> OutOfFuel ->
  verify_agent fuel' remote env ticket poll_interval timeout max_attempts
    initial_backoff max_backoff agent_id w = the_call.
Proof.
  intros Hle. rewrite !verify_agent_unfold.
  destruct (env !! "AIFOUNDRY_PROJECT_ENDPOINT") as [value|]; [|reflexivity].
  destruct (String.eqb value ""); [reflexivity|].
  destruct (threads_create remote w) as [thread|]; [|reflexivity].
  cbv zeta.
  destruct (messages_create remote _ thread "user" ticket); [|reflexivity].
  now apply attempt_loop_more_fuel.
Qed.

(** The closing [raise] needs [max_attempts] below one. *)
Lemma verify_agent_runtime_error (w' : World) :
  the_call = Raised RuntimeError w' -> (max_attempts < 1)%Z.
Proof.
  intros E.
  destruct (verify_agent_post fuel remote env ticket poll_interval timeout
              max_attempts initial_backoff max_backoff agent_id w w')
    as (thread & pre & evs & _ & _ & _ & _ & H).
  - now rewrite E.
  - cbv zeta in H. rewrite E in H. tauto.
Qed.

(** A call with intervals that are not negative never has a sleep
    refused. *)
Lemma verify_agent_no_value_error (w' : World) :
  0 < poll_interval -> 0 <= max_backoff ->
  the_call <> Raised ValueError w'.
Proof.
  intros Hp Hm. rewrite verify_agent_unfold.
  destruct (env !! "AIFOUNDRY_PROJECT_ENDPOINT") as [value|]; [|discriminate].
  destruct (String.eqb value ""); [discriminate|].
  destruct (threads_create remote w) as [thread|]; [|discriminate].
  cbv zeta.
  destruct (messages_create remote _ thread "user" ticket); [|discriminate].
  apply attempt_loop_no_value_error; [lra | exact Hm |].
  destruct (py_max_cases initial_backoff (poll_interval * 2)) as [[-> _]|[-> H]]; lra.
Qed.

(** A call that ends returns an outcome, raises [TimeoutError], or is cut
    short from outside; the other two exceptions need a [max_attempts]
    below one or a negative interval. *)
Lemma verify_agent_exits :
  (1 <= max_attempts)%Z -> 0 < poll_interval -> 0 <= max_backoff ->
  (enough_fuel poll_interval timeout max_attempts <= fuel)%nat ->
  (exists o w', the_call = Done o w')
  \/ (exists run ls w', the_call = Raised (TimeoutError run ls) w')
  \/ external_failure the_call.
Proof.
  intros Hm Hp Hb Hf.
  pose proof (verify_agent_ends Hp Hf) as Hend.
  pose proof verify_agent_runtime_error as Hrt.
  pose proof (fun w' => verify_agent_no_value_error w' Hp Hb) as Hve.
  destruct the_call as [o w'|[name|op|run ls| |] w'|].
  - left. eauto.
  - right; right. exact I.
  - right; right. exact I.
  - right; left. eauto.
  - specialize (Hrt w' eq_refl). lia.
  - now destruct (Hve w').
  - congruence.
Qed.

(** The outcome a call returns carries a status of the set its flag
    names. *)
Lemma verify_agent_outcome (o : Outcome) (w' : World) :
  the_call = Done o w' ->
  (succeeded o = true ->
   out_status o = Some "succeeded" \/ out_status o = Some "completed")
  /\ (succeeded o = false ->
      out_status o = Some "failed" \/ out_status o = Some "canceled").
Proof.
  intros E.
  destruct (verify_agent_post fuel remote env ticket poll_interval timeout
              max_attempts initial_backoff max_backoff agent_id w w')
    as (thread & pre & evs & _ & _ & _ & _ & H).
  - now rewrite E.
  - cbv zeta in H. rewrite E in H. destruct H as (_ & _ & [Hs Hf] & _).
    split; intros Hflag.
    + now apply status_in_success, Hs.
    + now apply status_in_failure, Hf.
Qed.

(** C7: an outcome returned with [succeeded] true has its status in the
    success set (succeeded, completed); one returned with [succeeded]
    false has its status in the terminal-failure set (failed, canceled). *)
Theorem returned_outcome_invariant (o : Outcome) (w' : World) :
  the_call = Done o w' ->
  (succeeded o = true ->
   status_in (out_status o) SUCCESS_STATUSES = true
   /\ (out_status o = Some "succeeded" \/ out_status o = Some "completed"))
  /\ (succeeded o = false ->
      status_in (out_status o) TERMINAL_FAILURE_STATUSES = true
      /\ (out_status o = Some "failed" \/ out_status o = Some "canceled")).
Proof.
  intros E. destruct (verify_agent_outcome o w' E) as [Hs Hf].
  split; intros Hflag.
  - specialize (Hs Hflag). split; [|exact Hs].
    destruct Hs as [-> | ->]; reflexivity.
  - specialize (Hf Hflag). split; [|exact Hf].
    destruct Hf as [-> | ->]; reflexivity.
Qed.


(** C1, as the code has it: with [max_attempts] at least one and every
    terminal status a rate-limited terminal failure, a call never raises
    the retries-exhausted error; an outcome it returns has [succeeded]
    false and a terminal-failure status and comes after exactly
    [max_attempts] run creations; and the call does return such an
    outcome unless an attempt times out. *)
Theorem rate_limited_attempts_return_failure :
  (1 <= max_attempts)%Z ->
  only_rate_limited_failures remote ->
  (forall w', the_call <> Raised RuntimeError w')
  /\ (forall o w',
        the_call = Done o w' ->
        succeeded o = false
        /\ (out_status o = Some "failed" \/ out_status o = Some "canceled")
        /\ exists new,
             history w' = history w ++ new
             /\ Z.of_nat (count is_run_created new) = max_attempts)
  /\ (0 < poll_interval -> 0 <= max_backoff ->
      (enough_fuel poll_interval timeout max_attempts <= fuel)%nat ->
      ~ external_failure the_call ->
      (exists o w', the_call = Done o w')
      \/ (exists run ls w', the_call = Raised (TimeoutError run ls) w')).
Proof.
  intros Hm Hrl. split; [|split].
  - intros w' E. apply verify_agent_runtime_error in E. lia.
  - intros o w' E. pose proof (verify_agent_outcome o w' E) as [_ Hf].
    rewrite verify_agent_unfold in E.
    destruct (env !! "AIFOUNDRY_PROJECT_ENDPOINT") as [value|]; [|discriminate].
    destruct (String.eqb value ""); [discriminate|].
    destruct (threads_create remote w) as [thread|]; [|discriminate].
    cbv zeta in E.
    destruct (messages_create remote _ thread "user" ticket); [|discriminate].
    apply attempt_loop_rate_limited in E; [|exact Hrl].
    destruct E as (Hs & evs & Hh & Hn).
    split; [exact Hs|]. split; [exact (Hf Hs)|].
    exists ([ThreadCreated thread; MessageCreated thread "user" ticket] ++ evs).
    cbn [history logged] in Hh. rewrite Hh, <- !app_assoc.
    split; [reflexivity|]. rewrite count_app. cbn. lia.
  - intros Hp Hb Hf Hext.
    destruct (verify_agent_exits Hm Hp Hb Hf) as [H|[H|H]]; auto. contradiction.
Qed.

(** The events a call adds: a part of the setup (thread, then message),
    then, when the setup is whole, the events of the attempt loop. *)
Lemma verify_agent_events (w' : World) :
  final_world the_call = Some w' ->
  exists thread pre evs,
    history w' = history w ++ pre ++ evs
    /\ ((pre = [] /\ evs = [])
        \/ (pre = [ThreadCreated thread] /\ evs = [])
        \/ pre = [ThreadCreated thread; MessageCreated thread "user" ticket])
    /\ Forall (attempt_event thread agent_id) evs
    /\ backoff_sleeps evs
       = backoff_waits max_backoff (py_max initial_backoff (poll_interval * 2))
           (length (backoff_sleeps evs))
    /\ (Z.of_nat (count is_run_created evs) <= Z.max 0 max_attempts)%Z
    /\ (~ external_failure the_call ->
        pre = [ThreadCreated thread; MessageCreated thread "user" ticket]
        /\ ((1 <= max_attempts)%Z ->
            count is_run_created evs = S (length (backoff_sleeps evs)))).
Proof.
  intros Hw.
  destruct (verify_agent_post fuel remote env ticket poll_interval timeout
              max_attempts initial_backoff max_backoff agent_id w w' Hw)
    as (thread & pre & evs & Hh & Hf & Hs & Hn & H).
  exists thread, pre, evs. cbv zeta in H.
  split; [exact Hh|].
  assert (Hpre : (pre = [] /\ evs = [])
                 \/ (pre = [ThreadCreated thread] /\ evs = [])
                 \/ pre = [ThreadCreated thread; MessageCreated thread "user" ticket]).
  { destruct the_call as [o w1|[name|op|run ls| |] w1|].
    - destruct H as (-> & _). auto.
    - destruct H as (-> & ->). auto.
    - destruct H as (_ & [(_ & -> & ->)|[(_ & -> & ->)|[(_ & -> & _)|(_ & -> & _)]]]);
        auto.
    - destruct H as (-> & _). auto.
    - destruct H as (-> & _). auto.
    - destruct H as (-> & _). auto.
    - contradiction. }
  split; [exact Hpre|]. split; [exact Hf|]. split; [exact Hs|]. split; [exact Hn|].
  intros Hext.
  destruct the_call as [o w1|[name|op|run ls| |] w1|]; try (exfalso; apply Hext; exact I).
  - destruct H as (-> & Hc & _). auto.
  - destruct H as (-> & Hc). auto.
  - destruct H as (-> & -> & Hlt). split; [reflexivity | lia].
  - destruct H as (-> & Hc). auto.
  - contradiction.
Qed.

Lemma attempt_events_facts (thread : string) (evs : list Event) :
  Forall (attempt_event thread agent_id) evs ->
  count is_thread_created evs = 0%nat
  /\ count is_message_created evs = 0%nat
  /\ count is_deleted evs = 0%nat
  /\ forall t a r, In (RunCreated t a r) evs -> t = thread /\ a = agent_id.
Proof.
  induction 1 as [|e evs He _ (IH1 & IH2 & IH3 & IH4)].
  - do 3 (split; [reflexivity|]). intros t a r [].
  - destruct e as [t1|t1 r1 c1|t0 a0 r0|t0 r0|t1|why d|what]; try contradiction;
      (split; [exact IH1|]); (split; [exact IH2|]); (split; [exact IH3|]).
    + intros t a r [[= <- <- <-]|Hin]; [exact He | exact (IH4 _ _ _ Hin)].
    + intros t a r [[=]|Hin]. exact (IH4 _ _ _ Hin).
    + intros t a r [[=]|Hin]. exact (IH4 _ _ _ Hin).
Qed.

(** C5, as the code has it.  A call that ends creates at most one thread
    and at most one message, deletes nothing, and creates at most
    [max_attempts] runs, each on the thread it created and for the agent it
    was given.  When the endpoint is set and the remote creates the thread
    and takes the message, the call ends (positive polling interval, fuel
    enough) and, however it ends, has created exactly that one thread,
    then exactly one message on it, then only runs on that thread: one for
    each attempt begun, that is one more than the retry sleeps, or as many
    when it is the creation of a run that raised.  A call that does not
    find the endpoint, or whose thread is not created, creates nothing; one
    whose message is refused has created its thread and no message. *)
Theorem verify_agent_side_effects :
  (1 <= max_attempts)%Z ->
  (forall w',
     final_world the_call = Some w' ->
     exists new,
       history w' = history w ++ new
       /\ (count is_thread_created new <= 1)%nat
       /\ (count is_message_created new <= 1)%nat
       /\ count is_deleted new = 0%nat
       /\ (Z.of_nat (count is_run_created new) <= max_attempts)%Z
       /\ (forall t a r,
             In (RunCreated t a r) new ->
             a = agent_id /\ exists rest, new = ThreadCreated t :: rest))
  /\ (forall value thread,
        env !! "AIFOUNDRY_PROJECT_ENDPOINT" = Some value -> value <> "" ->
        threads_create remote w = Some thread ->
        messages_create remote (logged (ThreadCreated thread) w) thread "user" ticket
        = true ->
        (0 < poll_interval ->
         (enough_fuel poll_interval timeout max_attempts <= fuel)%nat ->
         exists w', final_world the_call = Some w')
        /\ forall w',
             final_world the_call = Some w' ->
             exists rest,
               history w'
               = history w
                 ++ ThreadCreated thread :: MessageCreated thread "user" ticket :: rest
               /\ count is_thread_created
                    (ThreadCreated thread :: MessageCreated thread "user" ticket :: rest)
                  = 1%nat
               /\ count is_message_created
                    (ThreadCreated thread :: MessageCreated thread "user" ticket :: rest)
                  = 1%nat
               /\ count is_deleted
                    (ThreadCreated thread :: MessageCreated thread "user" ticket :: rest)
                  = 0%nat
               /\ (forall t a r,
                     In (RunCreated t a r) rest -> t = thread /\ a = agent_id)
               /\ (Z.of_nat (count is_run_created rest) <= max_attempts)%Z
               /\ match the_call with
                  | Raised (SdkError RunsCreate) _ =>
                      count is_run_created rest = length (backoff_sleeps rest)
                  | _ =>
                      count is_run_created rest = S (length (backoff_sleeps rest))
                  end)
  /\ (env !! "AIFOUNDRY_PROJECT_ENDPOINT" = None
      \/ env !! "AIFOUNDRY_PROJECT_ENDPOINT" = Some "" ->
      the_call = Raised (SystemExit "AIFOUNDRY_PROJECT_ENDPOINT") w)
  /\ (forall value,
        env !! "AIFOUNDRY_PROJECT_ENDPOINT" = Some value -> value <> "" ->
        (threads_create remote w = None ->
         the_call = Raised (SdkError ThreadsCreate) w)
        /\ (forall thread,
              threads_create remote w = Some thread ->
              messages_create remote (logged (ThreadCreated thread) w) thread
                "user" ticket = false ->
              the_call
              = Raised (SdkError MessagesCreate) (logged (ThreadCreated thread) w))).
Proof.
  intros Hm. split; [|split; [|split]].
  - intros w' Hw.
    destruct (verify_agent_events w' Hw)
      as (thread & pre & evs & Hh & Hpre & Hf & _ & Hn & _).
    destruct (attempt_events_facts thread evs Hf) as (Ct & Cm & Cd & Hruns).
    exists (pre ++ evs). split; [exact Hh|].
    rewrite !count_app, Ct, Cm, Cd.
    assert (Hbound : (Z.of_nat (count is_run_created evs) <= max_attempts)%Z) by lia.
    destruct Hpre as [[-> ->] | [[-> ->] | ->]]; cbn [app];
      (split; [cbn; lia|]); (split; [cbn; lia|]); (split; [reflexivity|]);
      (split; [cbn; cbn in Hbound; lia|]); intros t a r Hin.
    + destruct Hin.
    + destruct Hin as [[=]|[]].
    + destruct Hin as [[=]|[[=]|Hin]]. apply Hruns in Hin as [-> ->]. eauto.
  - intros value thread Hv Hne Ht Hmsg. split.
    + intros Hp Hfuel. pose proof (verify_agent_ends Hp Hfuel) as Hends.
      destruct the_call as [o w'|e w'|]; [now exists w' | now exists w' | contradiction].
    + intros w'. rewrite verify_agent_unfold, Hv.
      destruct (String.eqb_spec value ""); [contradiction|].
      rewrite Ht. cbv zeta. rewrite Hmsg.
      pose proof (attempt_loop_post remote poll_interval timeout max_attempts
                    max_backoff agent_id (PyStr.strip value) thread fuel fuel 1
                    (py_max initial_backoff (poll_interval * 2))
                    (logged (MessageCreated thread "user" ticket)
                       (logged (ThreadCreated thread) w))) as Hpost.
      destruct (attempt_loop _ _ _ _ _ _ _ _ _ _ _ _ _) as [o w1|e w1|];
        [| |discriminate]; intros [= <-].
      * destruct Hpost as (evs & Hh & (Hf & _ & Hn) & Hc & _).
        destruct (attempt_events_facts thread evs Hf) as (Ct & Cm & Cd & Hruns).
        exists evs. cbn [history logged] in Hh. rewrite Hh, <- !app_assoc.
        split; [reflexivity|].
        change (ThreadCreated thread :: MessageCreated thread "user" ticket :: evs)
          with ([ThreadCreated thread; MessageCreated thread "user" ticket] ++ evs).
        rewrite !count_app, Ct, Cm, Cd.
        split; [reflexivity|]. split; [reflexivity|]. split; [reflexivity|].
        split; [exact Hruns|]. split; [lia | exact Hc].
      * destruct Hpost as (evs & Hh & (Hf & _ & Hn) & He).
        destruct (attempt_events_facts thread evs Hf) as (Ct & Cm & Cd & Hruns).
        exists evs. cbn [history logged] in Hh. rewrite Hh, <- !app_assoc.
        split; [reflexivity|].
        change (ThreadCreated thread :: MessageCreated thread "user" ticket :: evs)
          with ([ThreadCreated thread; MessageCreated thread "user" ticket] ++ evs).
        rewrite !count_app, Ct, Cm, Cd.
        split; [reflexivity|]. split; [reflexivity|]. split; [reflexivity|].
        split; [exact Hruns|]. split; [lia|].
        destruct e as [name|op| | |]; [contradiction | | exact He | lia | exact He].
        destruct He as [_ [[-> He]|[-> He]]]; exact He.
  - rewrite verify_agent_unfold. intros [-> | ->]; reflexivity.
  - intros value Hv Hne. rewrite verify_agent_unfold, Hv.
    destruct (String.eqb_spec value ""); [contradiction|]. split.
    + now intros ->.
    + intros thread -> Hmsg. cbv zeta. now rewrite Hmsg.
Qed.

(** C3, as the code has it: [current_backoff] starts at
    max(initial_backoff, poll_interval * 2) and each next value is
    min(max_backoff, previous * 1.5); every sleep of the retry branch is
    the current value clamped to [max_backoff]; the sleeps never decrease
    and never exceed [max_backoff]; the values of [current_backoff] are
    bounded by [max_backoff] and non-decreasing from the second one on,
    and from the first one on when the starting value does not exceed
    [max_backoff]. *)
Theorem backoff_sequence_spec :
  0 < poll_interval -> 0 < initial_backoff -> 0 < max_backoff ->
  let cb := current_backoff_at initial_backoff poll_interval max_backoff in
  (cb 0%nat = py_max initial_backoff (poll_interval * 2)
   /\ initial_backoff <= cb 0%nat /\ poll_interval * 2 <= cb 0%nat
   /\ (cb 0%nat = initial_backoff \/ cb 0%nat = poll_interval * 2))
  /\ (forall n,
        cb (S n) = py_min max_backoff (cb n * (3 # 2))
        /\ cb (S n) <= max_backoff /\ cb (S n) <= cb n * (3 # 2)
        /\ (cb (S n) = max_backoff \/ cb (S n) = cb n * (3 # 2)))
  /\ (forall w',
        final_world the_call = Some w' ->
        exists new,
          history w' = history w ++ new
          /\ forall k d,
               backoff_sleeps new !! k = Some d ->
               d = py_min max_backoff (cb k)
               /\ d <= max_backoff /\ d <= cb k
               /\ (d = max_backoff \/ d = cb k))
  /\ (forall n, py_min max_backoff (cb n) <= py_min max_backoff (cb (S n)))
  /\ (forall n, cb (S n) <= cb (S (S n)))
  /\ (cb 0%nat <= max_backoff ->
      forall n, cb n <= cb (S n) /\ cb n <= max_backoff).
Proof.
  intros Hp Hi Hm cb.
  assert (Hnn : forall n, 0 <= cb n)
    by (intros n; apply current_backoff_nonneg; lra).
  assert (Hstep : forall n,
             cb (S n) = py_min max_backoff (cb n * (3 # 2))
             /\ cb (S n) <= max_backoff /\ cb (S n) <= cb n * (3 # 2)
             /\ (cb (S n) = max_backoff \/ cb (S n) = cb n * (3 # 2))).
  { intros n. subst cb. cbn [current_backoff_at].
    destruct (py_min_cases max_backoff
                (current_backoff_at initial_backoff poll_interval max_backoff n * (3 # 2)))
      as [[-> H]|[-> H]]; repeat split; auto; lra. }
  assert (Hclamp : forall x,
             py_min max_backoff x <= max_backoff /\ py_min max_backoff x <= x
             /\ (py_min max_backoff x = max_backoff \/ py_min max_backoff x = x)).
  { intros x. destruct (py_min_cases max_backoff x) as [[-> H]|[-> H]];
      repeat split; auto; lra. }
  split; [|split; [exact Hstep|split; [|split; [|split]]]].
  - subst cb. cbn [current_backoff_at].
    destruct (py_max_cases initial_backoff (poll_interval * 2)) as [[-> H]|[-> H]];
      repeat split; auto; lra.
  - intros w' Hw.
    destruct (verify_agent_events w' Hw)
      as (thread & pre & evs & Hh & Hpre & _ & Hs & _).
    exists (pre ++ evs). split; [exact Hh|]. intros k d Hk.
    assert (Hsl : backoff_sleeps (pre ++ evs) = backoff_sleeps evs).
    { rewrite backoff_sleeps_app.
      destruct Hpre as [[-> _] | [[-> _] | ->]]; reflexivity. }
    rewrite Hsl, Hs in Hk.
    apply (backoff_waits_lookup initial_backoff poll_interval max_backoff _ 0%nat) in Hk.
    cbn [Nat.add] in Hk. subst d. split; [reflexivity | apply Hclamp].
  - intros n. destruct (Hstep n) as (_ & H1 & H2 & H3). specialize (Hnn n).
    destruct (py_min_cases max_backoff (cb n)) as [[Ea Ha]|[Ea Ha]];
      destruct (py_min_cases max_backoff (cb (S n))) as [[Eb Hb]|[Eb Hb]];
      rewrite Ea, Eb; destruct H3 as [H3|H3]; qlra.
  - intros n. destruct (Hstep n) as (_ & H1 & _). specialize (Hnn (S n)).
    destruct (Hstep (S n)) as (_ & _ & _ & [H3|H3]); qlra.
  - intros H0 n. induction n as [|n [IH1 IH2]].
    + split; [|exact H0]. specialize (Hnn 0%nat).
      destruct (Hstep 0%nat) as (_ & _ & _ & [H3|H3]); qlra.
    + destruct (Hstep n) as (_ & H1 & _). split; [|exact H1].
      specialize (Hnn (S n)).
      destruct (Hstep (S n)) as (_ & _ & _ & [H3|H3]); qlra.
Qed.

End Calls.

Section Attempts.

Variable remote : Remote.
Variables (poll_interval timeout : Q) (max_attempts : Z) (max_backoff : Q).
Variables (agent_id endpoint thread : string).


End Attempts.

(** C3 fails as stated: with poll interval 1, initial backoff 7 and
    maximum backoff 5, all positive, the first value of the backoff is 7,
    above the maximum, and the second value, 5, is below the first. *)
Lemma backoff_first_value_above_maximum :
  0 < 1 /\ 0 < 7 /\ 0 < 5
  /\ current_backoff_at 7 1 5 0 = 7
  /\ current_backoff_at 7 1 5 1 = 5
  /\ 5 < current_backoff_at 7 1 5 0
  /\ current_backoff_at 7 1 5 1 < current_backoff_at 7 1 5 0.
Proof. repeat split. Qed.

(** The same values come out of the float arithmetic. *)
Example float_backoff_starts_above_maximum :
  current_backoff_float 7 1 5 0 = 7%float
  /\ current_backoff_float 7 1 5 1 = 5%float
  /\ PrimFloat.ltb 5 (current_backoff_float 7 1 5 0) = true
  /\ PrimFloat.ltb (current_backoff_float 7 1 5 1) (current_backoff_float 7 1 5 0) = true.
Proof. repeat split; vm_compute; reflexivity. Qed.

(** C1 fails as stated: with [max_attempts] 2 and both runs failed with a
    rate-limit error, the call creates two runs and returns an outcome
    with [succeeded] false; it does not raise the retries-exhausted
    error. *)
Lemma two_rate_limited_attempts_return_outcome :
  exists o w',
    verify_agent 10 Scenarios.remote_rate_limited Scenarios.env "VPN outage"
      1 5 2 7 30 "asst_triage" Scenarios.start = Done o w'
    /\ succeeded o = false
    /\ out_status o = Some "failed"
    /\ _is_retryable_rate_limit (out_last_error o) = true
    /\ count is_run_created (history w') = 2%nat.
Proof. eexists _, _. split; [vm_compute; reflexivity|]. repeat split. Qed.

(** *** The theorems at concrete calls *)

(** C7 at a call whose first run is rate limited and whose second
    completes. *)
Lemma returned_outcome_invariant_witness :
  exists o w',
    verify_agent 10 Scenarios.remote_recovers Scenarios.env "VPN outage"
      1 5 3 7 30 "asst_triage" Scenarios.start = Done o w'
    /\ (succeeded o = true ->
        status_in (out_status o) SUCCESS_STATUSES = true
        /\ (out_status o = Some "succeeded" \/ out_status o = Some "completed"))
    /\ (succeeded o = false ->
        status_in (out_status o) TERMINAL_FAILURE_STATUSES = true
        /\ (out_status o = Some "failed" \/ out_status o = Some "canceled")).
Proof.
  eexists _, _. split; [vm_compute; reflexivity|].
  eapply (returned_outcome_invariant 10 Scenarios.remote_recovers Scenarios.env
            "VPN outage" 1 5 3 7 30 "asst_triage" Scenarios.start).
  vm_compute; reflexivity.
Defined.


(** The remote of that call reports only rate-limited failures. *)
Lemma only_rate_limited_failures_scripted :
  only_rate_limited_failures Scenarios.remote_rate_limited.
Proof.
  intros w t r view [= <-] _. split; vm_compute; reflexivity.
Defined.

(** C1, as the code has it, at the same call. *)
Lemma rate_limited_attempts_return_failure_witness :
  (1 <= 2)%Z
  /\ only_rate_limited_failures Scenarios.remote_rate_limited
  /\ exists o w',
       verify_agent 10 Scenarios.remote_rate_limited Scenarios.env "VPN outage"
         1 5 2 7 30 "asst_triage" Scenarios.start = Done o w'
       /\ succeeded o = false
       /\ (out_status o = Some "failed" \/ out_status o = Some "canceled")
       /\ exists new,
            history w' = history Scenarios.start ++ new
            /\ Z.of_nat (count is_run_created new) = 2%Z.
Proof.
  assert (H : (1 <= 2)%Z) by lia.
  split; [exact H|]. split; [exact only_rate_limited_failures_scripted|].
  eexists _, _. split; [vm_compute; reflexivity|].
  eapply (rate_limited_attempts_return_failure 10 Scenarios.remote_rate_limited
            Scenarios.env "VPN outage" 1 5 2 7 30 "asst_triage" Scenarios.start H
            only_rate_limited_failures_scripted).
  vm_compute; reflexivity.
Defined.

(** C5 fails as stated: a call whose thread is not created creates
    nothing, one that does not find the endpoint makes no remote call, and
    one whose message is refused has created a thread and no message. *)
Lemma call_cut_short_creates_less :
  (verify_agent 10 Scenarios.remote_without_threads Scenarios.env "VPN outage"
     1 5 3 7 30 "asst_triage" Scenarios.start
   = Raised (SdkError ThreadsCreate) Scenarios.start
   /\ count is_thread_created (history Scenarios.start) = 0%nat
   /\ count is_message_created (history Scenarios.start) = 0%nat)
  /\ verify_agent 10 Scenarios.remote_completes ∅ "VPN outage"
       1 5 3 7 30 "asst_triage" Scenarios.start
     = Raised (SystemExit "AIFOUNDRY_PROJECT_ENDPOINT") Scenarios.start
  /\ exists w',
       verify_agent 10 Scenarios.remote_without_messages Scenarios.env "VPN outage"
         1 5 3 7 30 "asst_triage" Scenarios.start
       = Raised (SdkError MessagesCreate) w'
       /\ history w' = [ThreadCreated "thread_0"]
       /\ count is_message_created (history w') = 0%nat.
Proof.
  split; [split; [vm_compute; reflexivity | split; reflexivity]|].
  split; [vm_compute; reflexivity|].
  eexists. split; [vm_compute; reflexivity|]. split; reflexivity.
Qed.

(** C5, as the code has it, at a call with one retry: one thread, one
    message, two runs. *)
Lemma verify_agent_side_effects_witness :
  (1 <= 3)%Z
  /\ exists w' rest,
       final_world
         (verify_agent 10 Scenarios.remote_recovers Scenarios.env "VPN outage"
            1 5 3 7 30 "asst_triage" Scenarios.start) = Some w'
       /\ history w'
          = history Scenarios.start
            ++ ThreadCreated "thread_0"
               :: MessageCreated "thread_0" "user" "VPN outage" :: rest
       /\ count is_thread_created
            (ThreadCreated "thread_0"
             :: MessageCreated "thread_0" "user" "VPN outage" :: rest) = 1%nat
       /\ count is_message_created
            (ThreadCreated "thread_0"
             :: MessageCreated "thread_0" "user" "VPN outage" :: rest) = 1%nat
       /\ count is_deleted
            (ThreadCreated "thread_0"
             :: MessageCreated "thread_0" "user" "VPN outage" :: rest) = 0%nat
       /\ (forall t a r,
             In (RunCreated t a r) rest -> t = "thread_0" /\ a = "asst_triage")
       /\ count is_run_created rest = 2%nat.
Proof.
  assert (H : (1 <= 3)%Z) by lia.
  split; [exact H|].
  destruct (verify_agent_side_effects 10 Scenarios.remote_recovers Scenarios.env
              "VPN outage" 1 5 3 7 30 "asst_triage" Scenarios.start H)
    as (_ & Hexact & _).
  destruct (Hexact "https://example.test/api/projects/p" "thread_0")
    as [Hends Hall]; [reflexivity | discriminate | reflexivity | reflexivity |].
  destruct Hends as [w' Hw]; [reflexivity | vm_compute; lia |].
  destruct (Hall w' Hw) as (rest & Hh & Ht & Hm & Hd & Hruns & _ & Hc).
  exists w', rest.
  split; [exact Hw|]. split; [exact Hh|]. split; [exact Ht|]. split; [exact Hm|].
  split; [exact Hd|]. split; [exact Hruns|].
  assert (Hcall : final_world
                    (verify_agent 10 Scenarios.remote_recovers Scenarios.env
                       "VPN outage" 1 5 3 7 30 "asst_triage" Scenarios.start)
                  = Some
                      {| clock := clock w';
                         history :=
                           [ThreadCreated "thread_0";
                            MessageCreated "thread_0" "user" "VPN outage";
                            RunCreated "thread_0" "asst_triage" "run_0";
                            RunFetched "thread_0" "run_0";
                            Slept BackoffWait 7;
                            RunCreated "thread_0" "asst_triage" "run_1";
                            RunFetched "thread_0" "run_1"] |}).
  { rewrite Hw. f_equal. destruct w' as [c h]. cbn [clock]. f_equal.
    revert Hw. vm_compute. now intros [= _ <-]. }
  rewrite Hw in Hcall. injection Hcall as Hw'. rewrite Hw' in Hh.
  cbn [history Scenarios.start app] in Hh. injection Hh as <-. reflexivity.
Defined.

(** C3, as the code has it, for poll interval 1, initial backoff 7 and
    maximum backoff 30. *)
Lemma backoff_sequence_spec_witness :
  0 < 1 /\ 0 < 7 /\ 0 < 30
  /\ (forall n,
        py_min 30 (current_backoff_at 7 1 30 n)
        <= py_min 30 (current_backoff_at 7 1 30 (S n)))
  /\ (forall n, current_backoff_at 7 1 30 (S n) <= current_backoff_at 7 1 30 (S (S n))).
Proof.
  assert (Hp : 0 < 1) by reflexivity.
  assert (Hi : 0 < 7) by reflexivity.
  assert (Hm : 0 < 30) by reflexivity.
  split; [exact Hp|]. split; [exact Hi|]. split; [exact Hm|].
  destruct (backoff_sequence_spec 10 Scenarios.remote_rate_limited Scenarios.env
              "VPN outage" 1 5 3 7 30 "asst_triage" Scenarios.start Hp Hi Hm)
    as (_ & _ & _ & H4 & H5 & _).
  split; [exact H4 | exact H5].
Defined.


(** *** The scenarios of the specification, run *)

(** A run that completes: one run created, an outcome with [succeeded]
    true. *)
Example scenario_completes :
  exists o w',
    verify_agent 10 Scenarios.remote_completes Scenarios.env "VPN outage"
      1 5 3 7 30 "asst_triage" Scenarios.start = Done o w'
    /\ succeeded o = true /\ out_status o = Some "completed"
    /\ count is_run_created (history w') = 1%nat.
Proof. eexists _, _. split; [vm_compute; reflexivity|]. repeat split. Qed.

(** A first run that is rate limited, a second that completes: two runs,
    one backoff sleep of 7 seconds between them. *)
Example scenario_recovers :
  exists o w',
    verify_agent 10 Scenarios.remote_recovers Scenarios.env "VPN outage"
      1 5 3 7 30 "asst_triage" Scenarios.start = Done o w'
    /\ succeeded o = true /\ out_status o = Some "completed"
    /\ count is_run_created (history w') = 2%nat
    /\ backoff_sleeps (history w') = [7].
Proof. eexists _, _. split; [vm_compute; reflexivity|]. repeat split. Qed.

(** A run that stays in progress past a timeout of 5 seconds, polled every
    second: [TimeoutError] after five fetches, one run created. *)
Example scenario_times_out :
  exists w',
    verify_agent 10 Scenarios.remote_stalls Scenarios.env "VPN outage"
      1 5 3 7 30 "asst_triage" Scenarios.start
    = Raised (TimeoutError "run_0" (Some "in_progress")) w'
    /\ count (fun e => match e with RunFetched _ _ => true | _ => false end)
         (history w') = 5%nat
    /\ count is_run_created (history w') = 1%nat.
Proof. eexists. split; [vm_compute; reflexivity|]. repeat split. Qed.

(** The closing [raise] is reached when [max_attempts] is zero. *)
Example scenario_no_attempt_allowed :
  exists w',
    verify_agent 10 Scenarios.remote_completes Scenarios.env "VPN outage"
      1 5 0 7 30 "asst_triage" Scenarios.start = Raised RuntimeError w'
    /\ count is_run_created (history w') = 0%nat.
Proof. eexists. split; [vm_compute; reflexivity|]. reflexivity. Qed.

End RunDriverFacts.


(** ** The multi-agent harness *)

Module HarnessFacts.
Import VerifyAgent TestAllAgents.

Local Open Scope list_scope.

Section Harness.

Variable fuel : nat.
Variable remote : Remote.
Variable env : gmap string string.
Variable ticket : string.
Variables (poll_interval timeout : Q) (max_attempts : Z).
Variables (initial_backoff max_backoff : Q).

Abbreviation for_each_agent :=
  (for_each_agent fuel remote env ticket poll_interval timeout max_attempts
     initial_backoff max_backoff).
Abbreviation run_one_agent :=
  (run_one_agent fuel remote env ticket poll_interval timeout max_attempts
     initial_backoff max_backoff).
Abbreviation test_agents :=
  (test_agents fuel remote env ticket poll_interval timeout max_attempts
     initial_backoff max_backoff).

(** One turn of the loop: the agent is run, then its lines are stored. *)
Lemma for_each_agent_step (agent_name env_var : string) (rest : odict string)
    (outputs : odict (list string)) (w : World) :
  for_each_agent ((agent_name, env_var) :: rest) outputs w =
  match run_one_agent env_var w with
  | Done lines w1 => for_each_agent rest (dict_set agent_name lines outputs) w1
  | Raised e w1 => Raised e w1
  | OutOfFuel => OutOfFuel
  end.
Proof.
  cbn [TestAllAgents.for_each_agent]. unfold TestAllAgents.run_one_agent.
  unfold bind at 1 4.
  destruct (TestAllAgents._require_env env env_var w) as [agent_id w0|e w0|];
    [|reflexivity|reflexivity].
  unfold bind at 1 3.
  destruct (verify_agent _ _ _ _ _ _ _ _ _ _ w0) as [result w1|e w1|];
    [|reflexivity|reflexivity].
  unfold bind at 1 2.
  destruct (_iter_thread_messages _ _ _ w1) as [transcript w2|e w2|]; reflexivity.
Qed.

(** When a turn succeeds: the setting is there, the call for that agent
    returns an outcome, and the messages of its thread are listed. *)
Lemma run_one_agent_done (env_var : string) (lines : list string) (w w1 : World) :
  run_one_agent env_var w = Done lines w1
  <-> exists value o w0 messages,
        env !! env_var = Some value /\ value <> ""
        /\ verify_agent fuel remote env ticket poll_interval timeout max_attempts
             initial_backoff max_backoff (PyStr.strip value) w = Done o w0
        /\ messages_list remote w0 (thread_id o) = Some messages
        /\ w1 = logged (MessagesListed (thread_id o)) w0
        /\ lines = _extract_agent_lines (map message_line messages).
Proof.
  unfold TestAllAgents.run_one_agent, TestAllAgents._require_env.
  unfold bind at 1. split.
  - destruct (env !! env_var) as [value|]; [|discriminate].
    destruct (String.eqb_spec value ""); [discriminate|].
    unfold ret at 1. unfold bind at 1.
    destruct (verify_agent _ _ _ _ _ _ _ _ _ _ w) as [o w0|e w0|] eqn:Ev;
      [|discriminate|discriminate].
    cbv [bind _iter_thread_messages sdk_call ret].
    destruct (messages_list remote w0 (thread_id o)) as [messages|] eqn:El;
      [|discriminate].
    intros [= <- <-]. exists value, o, w0, messages. auto 10.
  - intros (value & o & w0 & messages & -> & Hne & Hv & Hl & -> & ->).
    destruct (String.eqb_spec value ""); [contradiction|].
    unfold ret at 1. unfold bind at 1. rewrite Hv.
    cbv [bind _iter_thread_messages sdk_call ret]. now rewrite Hl.
Qed.

(** A call that returns an outcome found the endpoint setting. *)
Lemma verify_agent_done_endpoint (agent_id : string) (w w' : World) (o : Outcome) :
  verify_agent fuel remote env ticket poll_interval timeout max_attempts
    initial_backoff max_backoff agent_id w = Done o w' ->
  exists value,
    env !! "AIFOUNDRY_PROJECT_ENDPOINT" = Some value /\ value <> "".
Proof.
  rewrite RunDriverFacts.verify_agent_unfold.
  destruct (env !! "AIFOUNDRY_PROJECT_ENDPOINT") as [value|]; [|discriminate].
  destruct (String.eqb_spec value ""); [discriminate|]. eauto.
Qed.

(** C9: the harness returns a mapping exactly when the four turns, run one
    after the other in the order priority, team, effort, triage, each from
    the world the turn before left, all succeed; the mapping then holds
    exactly these four names, in this order, each with the lines of its
    agent; and a turn succeeds exactly when the call for its agent returns
    an outcome and the messages of that call's thread are listed. *)
Theorem test_agents_order (w w' : World) (outputs : odict (list string)) :
  (test_agents w = Done outputs w'
   <-> exists l1 w1 l2 w2 l3 w3 l4,
         run_one_agent "PRIORITY_AGENT_ID" w = Done l1 w1
         /\ run_one_agent "TEAM_AGENT_ID" w1 = Done l2 w2
         /\ run_one_agent "EFFORT_AGENT_ID" w2 = Done l3 w3
         /\ run_one_agent "TRIAGE_AGENT_ID" w3 = Done l4 w'
         /\ outputs = [("priority", l1); ("team", l2); ("effort", l3); ("triage", l4)])
  /\ (test_agents w = Done outputs w' ->
      keys outputs = ["priority"; "team"; "effort"; "triage"])
  /\ (forall env_var lines w0 w1,
        run_one_agent env_var w0 = Done lines w1
        <-> exists value o w2 messages,
              env !! env_var = Some value /\ value <> ""
              /\ verify_agent fuel remote env ticket poll_interval timeout
                   max_attempts initial_backoff max_backoff (PyStr.strip value) w0
                 = Done o w2
              /\ messages_list remote w2 (thread_id o) = Some messages
              /\ w1 = logged (MessagesListed (thread_id o)) w2
              /\ lines = _extract_agent_lines (map message_line messages)).
Proof.
  assert (Hfwd : test_agents w = Done outputs w' ->
                 exists l1 w1 l2 w2 l3 w3 l4,
                   run_one_agent "PRIORITY_AGENT_ID" w = Done l1 w1
                   /\ run_one_agent "TEAM_AGENT_ID" w1 = Done l2 w2
                   /\ run_one_agent "EFFORT_AGENT_ID" w2 = Done l3 w3
                   /\ run_one_agent "TRIAGE_AGENT_ID" w3 = Done l4 w'
                   /\ outputs = [("priority", l1); ("team", l2);
                                 ("effort", l3); ("triage", l4)]).
  { unfold TestAllAgents.test_agents, TestAllAgents._require_env, agent_env_map.
    unfold bind at 1.
    destruct (env !! "AIFOUNDRY_PROJECT_ENDPOINT") as [value|]; [|discriminate].
    destruct (String.eqb value ""); [discriminate|]. unfold ret at 1.
    rewrite for_each_agent_step.
    destruct (run_one_agent "PRIORITY_AGENT_ID" w) as [l1 w1|e w1|] eqn:E1;
      try discriminate.
    rewrite for_each_agent_step.
    destruct (run_one_agent "TEAM_AGENT_ID" w1) as [l2 w2|e w2|] eqn:E2;
      try discriminate.
    rewrite for_each_agent_step.
    destruct (run_one_agent "EFFORT_AGENT_ID" w2) as [l3 w3|e w3|] eqn:E3;
      try discriminate.
    rewrite for_each_agent_step.
    destruct (run_one_agent "TRIAGE_AGENT_ID" w3) as [l4 w4|e w4|] eqn:E4;
      try discriminate.
    cbn. intros [= <- <-]. exists l1, w1, l2, w2, l3, w3, l4. auto 10. }
  split; [split; [exact Hfwd|]|split].
  - intros (l1 & w1 & l2 & w2 & l3 & w3 & l4 & H1 & H2 & H3 & H4 & ->).
    pose proof H1 as H1'. apply run_one_agent_done in H1'.
    destruct H1' as (v & o & w0 & ms & _ & _ & Hv & _).
    apply verify_agent_done_endpoint in Hv as (value & Hval & Hne).
    unfold TestAllAgents.test_agents, TestAllAgents._require_env, agent_env_map.
    unfold bind at 1. rewrite Hval.
    destruct (String.eqb_spec value ""); [contradiction|]. unfold ret at 1.
    rewrite for_each_agent_step, H1, for_each_agent_step, H2,
      for_each_agent_step, H3, for_each_agent_step, H4. reflexivity.
  - intros H. destruct (Hfwd H) as (l1 & w1 & l2 & w2 & l3 & w3 & l4 & _ & _ & _ & _ & ->).
    reflexivity.
  - intros env_var lines w0 w1. apply run_one_agent_done.
Qed.

End Harness.

(** The harness on a remote where every run completes at once. *)
Example test_agents_all_complete :
  exists w',
    TestAllAgents.test_agents 10 Scenarios.remote_completes Scenarios.env
      "VPN outage" 1 5 3 7 30 Scenarios.start
    = Done [ ("priority", ["[assistant] High priority"]);
             ("team", ["[assistant] High priority"]);
             ("effort", ["[assistant] High priority"]);
             ("triage", ["[assistant] High priority"]) ] w'
    /\ omap (fun e => match e with RunCreated _ a _ => Some a | _ => None end)
         (history w')
       = ["asst_priority"; "asst_team"; "asst_effort"; "asst_triage"].
Proof. eexists. split; vm_compute; reflexivity. Qed.

End HarnessFacts.

(** ** Reading the settings *)

Module EnvSetupFacts.
Import PyStr PyStrFacts EnvSetup.

Lemma lstrip_spaces (pre x : string) :
  all_space pre = true -> lstrip (pre ++ x) = lstrip x.
Proof.
  induction pre as [|c pre IH]; [reflexivity|].
  cbn [all_space]. intros [Hc Hp]%andb_true_iff.
  change (String c pre ++ x) with (String c (pre ++ x)).
  cbn [lstrip]. rewrite Hc. now apply IH.
Qed.

Lemma rstrip_all_space (post : string) : all_space post = true -> rstrip post = "".
Proof.
  induction post as [|c post IH]; [reflexivity|].
  cbn [all_space]. intros [Hc Hp]%andb_true_iff.
  cbn [rstrip]. now rewrite (IH Hp), Hc.
Qed.

Lemma rstrip_spaces (x post : string) :
  all_space post = true -> rstrip (x ++ post) = rstrip x.
Proof.
  intros Hp. induction x as [|c x IH].
  - change ("" ++ post) with post. now apply rstrip_all_space.
  - change (String c x ++ post) with (String c (x ++ post)).
    cbn [rstrip]. now rewrite IH.
Qed.

Lemma rstrip_snoc (x : string) (c : ascii) :
  is_space c = false -> rstrip (x ++ String c "") = x ++ String c "".
Proof.
  intros Hc. induction x as [|a x IH].
  - change ("" ++ String c "") with (String c ""). cbn [rstrip]. now rewrite Hc.
  - change (String a x ++ String c "") with (String a (x ++ String c "")).
    cbn [rstrip]. rewrite IH. now destruct x.
Qed.

Lemma last_char_snoc (x : string) (c : ascii) : last_char (x ++ String c "") = Some c.
Proof.
  induction x as [|a x IH]; [reflexivity|].
  change (String a x ++ String c "") with (String a (x ++ String c "")).
  cbn [last_char]. rewrite IH. now destruct x.
Qed.

Lemma drop_last_snoc (x : string) (c : ascii) : drop_last (x ++ String c "") = x.
Proof.
  induction x as [|a x IH]; [reflexivity|].
  change (String a x ++ String c "") with (String a (x ++ String c "")).
  cbn [drop_last]. rewrite IH. now destruct x.
Qed.

Lemma length_snoc (x : string) (c : ascii) :
  String.length (x ++ String c "") = S (String.length x).
Proof.
  induction x as [|a x IH]; [reflexivity|].
  change (String a x ++ String c "") with (String a (x ++ String c "")).
  cbn [String.length]. now rewrite IH.
Qed.

(** A text that is not empty is its [s[:-1]] followed by its [s[-1]]. *)
Lemma drop_last_last_char (s : string) (l : ascii) :
  last_char s = Some l -> s = drop_last s ++ String l "".
Proof.
  induction s as [|a s IH]; [discriminate|].
  destruct s as [|b s].
  - now intros [= ->].
  - change (last_char (String a (String b s))) with (last_char (String b s)).
    change (drop_last (String a (String b s)))
      with (String a (drop_last (String b s))).
    intros H.
    change (String a (drop_last (String b s)) ++ String l "")
      with (String a (drop_last (String b s) ++ String l "")).
    f_equal. now apply IH.
Qed.

Lemma append_snoc_assoc (s post : string) (c : ascii) :
  s ++ String c post = (s ++ String c "") ++ post.
Proof.
  induction s as [|a s IH]; [reflexivity|].
  change (String a s ++ String c post) with (String a (s ++ String c post)).
  change ((String a s ++ String c "") ++ post)
    with (String a ((s ++ String c "") ++ post)).
  now rewrite IH.
Qed.

(** Stripping a text that is wrapped in a character that is no space, with
    white space around, leaves the wrapped text. *)
Lemma strip_wrapped (q : ascii) (pre s post : string) :
  is_space q = false ->
  all_space pre = true -> all_space post = true ->
  strip (pre ++ String q (s ++ String q post)) = String q (s ++ String q "").
Proof.
  intros Hq Hpre Hpost. unfold strip.
  rewrite (lstrip_spaces _ _ Hpre). cbn [lstrip]. rewrite Hq.
  rewrite append_snoc_assoc.
  change (String q ((s ++ String q "") ++ post))
    with (String q (s ++ String q "") ++ post).
  rewrite (rstrip_spaces _ _ Hpost).
  change (String q (s ++ String q "")) with (String q s ++ String q "").
  now apply rstrip_snoc.
Qed.

Lemma quote_not_space (q : ascii) : q = squote \/ q = dquote -> is_space q = false.
Proof. intros [-> | ->]; reflexivity. Qed.

Lemma strip_quotes_wrapped (q : ascii) (pre s post : string) :
  q = squote \/ q = dquote ->
  all_space pre = true -> all_space post = true ->
  _strip_quotes (pre ++ String q (s ++ String q post)) = s.
Proof.
  intros Hq Hpre Hpost. unfold _strip_quotes.
  rewrite (strip_wrapped q pre s post (quote_not_space q Hq) Hpre Hpost).
  cbn [String.length]. rewrite length_snoc.
  change (String q (s ++ String q "")) with (String q s ++ String q "").
  rewrite last_char_snoc, Ascii.eqb_refl, drop_last_snoc.
  assert ((Ascii.eqb q squote || Ascii.eqb q dquote)%bool = true) as ->
    by (destruct Hq as [-> | ->]; reflexivity).
  reflexivity.
Qed.

Lemma lstrip_length (s : string) : (String.length (lstrip s) <= String.length s)%nat.
Proof.
  induction s as [|c s IH]; [reflexivity|].
  cbn [lstrip]. destruct (is_space c); cbn [String.length]; lia.
Qed.

Lemma rstrip_length (s : string) : (String.length (rstrip s) <= String.length s)%nat.
Proof.
  induction s as [|c s IH]; [reflexivity|].
  cbn [rstrip]. destruct (rstrip s) as [|r0 r]; [destruct (is_space c)|];
    cbn [String.length] in *; lia.
Qed.

Lemma strip_length (s : string) : (String.length (strip s) <= String.length s)%nat.
Proof.
  unfold strip. pose proof (rstrip_length (lstrip s)). pose proof (lstrip_length s). lia.
Qed.

(** X1: quoting a value and reading it back gives the value: a text
    wrapped in a pair of single or double quotes, with any white space
    around the quotes, is returned without the quotes and the white space,
    and unchanged inside (one level of quotes only). *)
Theorem strip_quotes_round_trip (q : ascii) (pre value post : string) :
  q = squote \/ q = dquote ->
  all_space pre = true ->
  all_space post = true ->
  _strip_quotes (pre ++ String q (value ++ String q post)) = value.
Proof. apply strip_quotes_wrapped. Qed.

(** X2: [_strip_quotes] either returns the stripped text, or the stripped
    text is a pair of equal quotes around what it returns; the result is
    never longer than the argument. *)
Theorem strip_quotes_cases (value : string) :
  (_strip_quotes value = strip value
   \/ exists q inner,
        (q = squote \/ q = dquote)
        /\ strip value = String q (inner ++ String q "")
        /\ _strip_quotes value = inner)
  /\ (String.length (_strip_quotes value) <= String.length value)%nat.
Proof.
  assert (H : _strip_quotes value = strip value
              \/ exists q inner,
                   (q = squote \/ q = dquote)
                   /\ strip value = String q (inner ++ String q "")
                   /\ _strip_quotes value = inner).
  { unfold _strip_quotes. destruct (strip value) as [|first rest]; [now left|].
    destruct (Nat.leb 2 (String.length (String first rest))) eqn:Elen; [|now left].
    destruct (last_char (String first rest)) as [l|] eqn:Elast; [|now left].
    destruct (Ascii.eqb_spec first l) as [<-|]; [|now left].
    destruct (Ascii.eqb first squote || Ascii.eqb first dquote)%bool eqn:Eq;
      [|now left].
    right. cbn [andb]. exists first, (drop_last rest). split; [|split].
    - apply orb_true_iff in Eq as [E|E]; apply Ascii.eqb_eq in E; auto.
    - destruct rest as [|b rest]; [discriminate|].
      f_equal. now apply drop_last_last_char.
    - reflexivity. }
  split; [exact H|].
  pose proof (strip_length value) as Hs.
  destruct H as [-> | (q & inner & _ & E & ->)]; [exact Hs|].
  rewrite E in Hs. cbn [String.length] in Hs. rewrite length_snoc in Hs. lia.
Qed.

Lemma rstrip_cons (c : ascii) (t : string) :
  rstrip (String c t)
  = match rstrip t with
    | EmptyString => if is_space c then EmptyString else String c EmptyString
    | r => String c r
    end.
Proof. reflexivity. Qed.

Lemma lstrip_cons (c : ascii) (t : string) :
  lstrip (String c t) = if is_space c then lstrip t else String c t.
Proof. reflexivity. Qed.

Lemma lstrip_rstrip (s : string) : lstrip (rstrip s) = rstrip (lstrip s).
Proof.
  induction s as [|c t IH]; [reflexivity|].
  rewrite lstrip_cons. destruct (is_space c) eqn:Ec.
  - rewrite <- IH, rstrip_cons, Ec.
    destruct (rstrip t) as [|r0 r]; [reflexivity|].
    now rewrite lstrip_cons, Ec.
  - rewrite rstrip_cons, Ec.
    destruct (rstrip t) as [|r0 r]; now rewrite lstrip_cons, Ec.
Qed.

Lemma strip_rstrip (s : string) : strip (rstrip s) = strip s.
Proof. unfold strip. now rewrite lstrip_rstrip, rstrip_idem. Qed.

Lemma strip_quotes_rstrip (s : string) : _strip_quotes (rstrip s) = _strip_quotes s.
Proof. unfold _strip_quotes. now rewrite strip_rstrip. Qed.

(** What follows a character that is no space is stripped on its own. *)
Lemma rstrip_after_nonspace (x rest : string) (c : ascii) :
  is_space c = false ->
  rstrip (x ++ String c rest) = x ++ String c (rstrip rest).
Proof.
  intros Hc. induction x as [|a x IH].
  - change ("" ++ String c rest) with (String c rest).
    change ("" ++ String c (rstrip rest)) with (String c (rstrip rest)).
    rewrite rstrip_cons. destruct (rstrip rest); [now rewrite Hc | reflexivity].
  - change (String a x ++ String c rest) with (String a (x ++ String c rest)).
    rewrite rstrip_cons, IH. now destruct x.
Qed.

Lemma contains_char_cons (c a : ascii) (t : string) :
  contains (String c "") (String a t)
  = if Ascii.eqb c a then true else contains (String c "") t.
Proof.
  change (contains (String c "") (String a t))
    with (if startswith (String c "") (String a t) then true
          else contains (String c "") t).
  change (startswith (String c "") (String a t))
    with (if Ascii.eqb c a then startswith "" t else false).
  now destruct (Ascii.eqb c a).
Qed.

Lemma contains_char_app (c : ascii) (x rest : string) :
  contains (String c "") (x ++ String c rest) = true.
Proof.
  induction x as [|a x IH].
  - change ("" ++ String c rest) with (String c rest).
    now rewrite contains_char_cons, Ascii.eqb_refl.
  - change (String a x ++ String c rest) with (String a (x ++ String c rest)).
    rewrite contains_char_cons, IH. now destruct (Ascii.eqb c a).
Qed.

(** Splitting at the first separator: a text without the separator, the
    separator, and the rest. *)
Lemma split_once_app (c : ascii) (x rest : string) :
  contains (String c "") x = false ->
  split_once c (x ++ String c rest) = (x, rest).
Proof.
  induction x as [|a x IH]; intros Hx.
  - change ("" ++ String c rest) with (String c rest).
    cbn [split_once]. now rewrite Ascii.eqb_refl.
  - change (String a x ++ String c rest) with (String a (x ++ String c rest)).
    rewrite contains_char_cons in Hx. cbn [split_once].
    destruct (Ascii.eqb_spec a c) as [->|Hne].
    + now rewrite Ascii.eqb_refl in Hx.
    + destruct (Ascii.eqb c a); [discriminate|]. now rewrite (IH Hx).
Qed.

(** A line that begins with a name: the value is all that follows the
    first equals sign, read by [_strip_quotes]. *)
Lemma line_assignment_name (key rest : string) :
  key <> "" -> strip key = key ->
  contains "=" key = false -> startswith "#" key = false ->
  line_assignment (key ++ String "="%char rest) = Some (key, _strip_quotes rest).
Proof.
  intros Hne Hstrip Heq Hhash.
  assert (Hlead : no_leading_space key).
  { rewrite <- Hstrip. unfold strip.
    apply rstrip_no_leading_space, lstrip_no_leading_space. }
  destruct key as [|k0 key]; [congruence|]. cbn [no_leading_space] in Hlead.
  assert (Hline : strip (String k0 key ++ String "="%char rest)
                  = String k0 key ++ String "="%char (rstrip rest)).
  { unfold strip.
    change (String k0 key ++ String "="%char rest)
      with (String k0 (key ++ String "="%char rest)).
    cbn [lstrip]. rewrite Hlead.
    change (String k0 (key ++ String "="%char rest))
      with (String k0 key ++ String "="%char rest).
    now apply rstrip_after_nonspace. }
  unfold line_assignment. rewrite Hline.
  change (String k0 key ++ String "="%char (rstrip rest))
    with (String k0 (key ++ String "="%char (rstrip rest))) at 1 2.
  change (String.eqb (String k0 (key ++ String "="%char (rstrip rest))) "") with false.
  assert (startswith "#" (String k0 (key ++ String "="%char (rstrip rest))) = false) as ->.
  { change (startswith "#" (String k0 key)) with
      (if Ascii.eqb "#"%char k0 then startswith "" key else false) in Hhash.
    change (startswith "#" (String k0 (key ++ String "="%char (rstrip rest))))
      with (if Ascii.eqb "#"%char k0
            then startswith "" (key ++ String "="%char (rstrip rest)) else false).
    now destruct (Ascii.eqb "#"%char k0). }
  cbn [orb].
  rewrite (contains_char_app "="%char (String k0 key) (rstrip rest)). cbn [negb].
  rewrite (split_once_app "="%char (String k0 key) (rstrip rest) Heq).
  now rewrite Hstrip, strip_quotes_rstrip.
Qed.

(** X3: a line made of a name (not empty, no white space at its ends, no
    equals sign, not beginning with a hash), an equals sign and a value in
    quotes, with white space (the end of line) after it, assigns exactly
    that value to that name, whatever the value holds; without quotes the
    value is all that follows the first equals sign, stripped. *)
Theorem line_assignment_round_trip (key value rest nl : string) (q : ascii) :
  key <> "" -> strip key = key ->
  contains "=" key = false -> startswith "#" key = false ->
  q = squote \/ q = dquote ->
  all_space nl = true ->
  line_assignment (key ++ String "="%char (String q (value ++ String q nl)))
  = Some (key, value)
  /\ line_assignment (key ++ String "="%char rest) = Some (key, _strip_quotes rest).
Proof.
  intros Hne Hstrip Heq Hhash Hq Hnl. split.
  - rewrite (line_assignment_name key _ Hne Hstrip Heq Hhash). f_equal. f_equal.
    now apply (strip_quotes_wrapped q "" value nl).
  - now apply line_assignment_name.
Qed.

(** The loop over the lines makes the assignments of the lines, in
    order. *)
Lemma load_lines_assignments (lines : list string) (environ : gmap string string) :
  load_lines lines environ = apply_assignments (assignments lines) environ.
Proof.
  revert environ. induction lines as [|raw_line rest IH]; intros environ;
    [reflexivity|].
  unfold assignments. cbn [load_lines omap list_omap]. unfold line_assignment.
  destruct (String.eqb (strip raw_line) "" || startswith "#" (strip raw_line))%bool;
    [apply IH|].
  destruct (negb (contains "=" (strip raw_line))); [apply IH|].
  destruct (split_once "="%char (strip raw_line)) as [key value].
  cbn [apply_assignments].
  destruct (environ_set (strip key) (_strip_quotes value) environ); [apply IH | reflexivity].
Qed.

Lemma apply_assignments_app (l1 l2 : list (string * string))
    (environ : gmap string string) :
  apply_assignments (l1 ++ l2) environ
  = match snd (apply_assignments l1 environ) with
    | Some _ => apply_assignments l1 environ
    | None => apply_assignments l2 (fst (apply_assignments l1 environ))
    end.
Proof.
  revert environ. induction l1 as [|[k v] l1 IH]; intros environ; [reflexivity|].
  cbn [app apply_assignments].
  destruct (environ_set k v environ); [apply IH | reflexivity].
Qed.

(** When [os.environ] takes an assignment, and how it refuses one. *)
Lemma environ_set_cases (key value : string) (environ : gmap string string) :
  (settable (key, value)
   /\ environ_set key value environ = inl (<[key := value]> environ))
  \/ ((has_nul key || has_nul value)%bool = true
      /\ environ_set key value environ = inr NulError)
  \/ ((has_nul key || has_nul value)%bool = false /\ key = ""
      /\ environ_set key value environ = inr OSError).
Proof.
  unfold environ_set, settable. cbn [fst snd].
  destruct (has_nul key || has_nul value)%bool eqn:En; [auto|].
  apply orb_false_iff in En as [Hk Hv].
  destruct (String.eqb_spec key ""); auto 10.
Qed.

(** A name no assignment mentions keeps its value. *)
Lemma apply_assignments_frame (pairs : list (string * string))
    (environ : gmap string string) (k : string) :
  (forall v, (k, v) ∉ pairs) ->
  fst (apply_assignments pairs environ) !! k = environ !! k.
Proof.
  revert environ. induction pairs as [|[k0 v0] pairs IH]; intros environ Hk;
    [reflexivity|].
  cbn [apply_assignments].
  destruct (environ_set_cases k0 v0 environ) as [[_ ->]|[[_ ->]|(_ & _ & ->)]];
    [|reflexivity|reflexivity].
  rewrite IH.
  - apply lookup_insert_ne. intros ->. apply (Hk v0). left.
  - intros v Hin. apply (Hk v). now right.
Qed.

(** The assignments all go through exactly when [os.environ] accepts each
    of them. *)
Lemma apply_assignments_ok (pairs : list (string * string))
    (environ : gmap string string) :
  snd (apply_assignments pairs environ) = None <-> Forall settable pairs.
Proof.
  revert environ. induction pairs as [|[k0 v0] pairs IH]; intros environ.
  - split; [constructor | reflexivity].
  - cbn [apply_assignments].
    destruct (environ_set_cases k0 v0 environ)
      as [[Hset ->]|[[Hnul ->]|(Hnul & Hk & ->)]].
    + rewrite IH. split; [now constructor | now inversion 1].
    + split; [discriminate|]. inversion 1 as [|? ? (_ & Hk & Hv)].
      cbn [fst snd] in Hk, Hv. rewrite Hk, Hv in Hnul. discriminate.
    + split; [discriminate|]. inversion 1 as [|? ? (Hne & _)]. now destruct Hne.
Qed.

(** The assignments stop at the first one [os.environ] refuses, with the
    exception of that one. *)
Lemma apply_assignments_error (pairs : list (string * string))
    (environ : gmap string string) (e : EnvError) :
  snd (apply_assignments pairs environ) = Some e
  <-> exists pre key value post,
        pairs = (pre ++ (key, value) :: post)%list
        /\ Forall settable pre
        /\ match e with
           | NulError => (has_nul key || has_nul value)%bool = true
           | OSError => (has_nul key || has_nul value)%bool = false /\ key = ""
           end.
Proof.
  revert environ. induction pairs as [|[k0 v0] pairs IH]; intros environ.
  - split; [discriminate|]. intros (pre & key & value & post & H & _).
    now destruct pre.
  - cbn [apply_assignments].
    destruct (environ_set_cases k0 v0 environ)
      as [[Hset ->]|[[Hnul ->]|(Hnul & Hk & ->)]].
    + rewrite IH. split.
      * intros (pre & key & value & post & -> & Hpre & He).
        exists ((k0, v0) :: pre), key, value, post. split; [reflexivity|].
        split; [now constructor | exact He].
      * intros (pre & key & value & post & Hp & Hpre & He).
        destruct pre as [|p pre]; cbn [app] in Hp; injection Hp as Hp1 Hp2.
        -- exfalso. subst. destruct Hset as (Hne & Hk & Hv). cbn [fst snd] in *.
           destruct e; [destruct He as [_ He]; now destruct Hne|].
           rewrite Hk, Hv in He. discriminate.
        -- subst. exists pre, key, value, post. split; [reflexivity|].
           split; [now inversion Hpre | exact He].
    + split.
      * intros [= <-]. exists [], k0, v0, pairs. split; [reflexivity|].
        split; [constructor | exact Hnul].
      * intros (pre & key & value & post & Hp & Hpre & He).
        destruct pre as [|p pre]; cbn [app] in Hp; injection Hp as Hp1 Hp2.
        -- subst. destruct e; [destruct He as [He _]; congruence | reflexivity].
        -- subst. inversion Hpre as [|? ? (_ & Hk & Hv)]. cbn [fst snd] in *.
           rewrite Hk, Hv in Hnul. discriminate.
    + split.
      * intros [= <-]. exists [], k0, v0, pairs. split; [reflexivity|].
        split; [constructor | auto].
      * intros (pre & key & value & post & Hp & Hpre & He).
        destruct pre as [|p pre]; cbn [app] in Hp; injection Hp as Hp1 Hp2.
        -- subst. destruct e; [reflexivity | congruence].
        -- subst. inversion Hpre as [|? ? (Hne & _)]. now destruct Hne.
Qed.

(** The last assignment to a name gives its value. *)
Lemma apply_assignments_last (pre post : list (string * string))
    (environ : gmap string string) (k v : string) :
  snd (apply_assignments (pre ++ (k, v) :: post) environ) = None ->
  (forall v', (k, v') ∉ post) ->
  fst (apply_assignments (pre ++ (k, v) :: post) environ) !! k = Some v.
Proof.
  intros Hok Hpost. rewrite apply_assignments_app in *.
  destruct (apply_assignments pre environ) as [environ1 refused].
  cbn [fst snd] in *. destruct refused; [discriminate|].
  cbn [apply_assignments] in *.
  destruct (environ_set_cases k v environ1) as [[_ E]|[[_ E]|(_ & _ & E)]];
    rewrite E in *; try discriminate.
  rewrite (apply_assignments_frame post _ k Hpost). apply lookup_insert_eq.
Qed.

(** X4: after an env file is read, a name the file does not assign keeps
    its value, also when the reading stops on an exception; when none
    stops it, a name has the value of the last line that assigns it.  The
    reading goes through exactly when every assignment of the file has a
    name that is not empty and neither its name nor its value holds a null
    character; otherwise it stops at the first assignment that has not,
    with a [ValueError] for a null character and else an [OSError] for the
    empty name.  A missing file changes nothing; a file that does not open
    is an [OSError]. *)
Theorem load_env_file_lookup (lines : list string) (environ : gmap string string)
    (k : string) :
  ((forall v, (k, v) ∉ assignments lines) ->
   fst (_load_env_file (Lines lines) environ) !! k = environ !! k)
  /\ (snd (_load_env_file (Lines lines) environ) = None ->
      forall pre v post,
        assignments lines = (pre ++ (k, v) :: post)%list ->
        (forall v', (k, v') ∉ post) ->
        fst (_load_env_file (Lines lines) environ) !! k = Some v)
  /\ (snd (_load_env_file (Lines lines) environ) = None
      <-> Forall settable (assignments lines))
  /\ (forall e,
        snd (_load_env_file (Lines lines) environ) = Some e
        <-> exists pre key value post,
              assignments lines = (pre ++ (key, value) :: post)%list
              /\ Forall settable pre
              /\ match e with
                 | NulError => (has_nul key || has_nul value)%bool = true
                 | OSError => (has_nul key || has_nul value)%bool = false /\ key = ""
                 end)
  /\ _load_env_file Missing environ = (environ, None)
  /\ _load_env_file Unreadable environ = (environ, Some OSError).
Proof.
  cbn [_load_env_file]. rewrite load_lines_assignments.
  split; [apply apply_assignments_frame|].
  split; [|split; [apply apply_assignments_ok|]].
  - intros Hok pre v post E Hpost. rewrite E in *.
    now apply apply_assignments_last.
  - split; [intros e; apply apply_assignments_error | split; reflexivity].
Qed.

Lemma usable_name_not_empty (candidate : option json) (name : string) :
  usable_name candidate = Some name -> name <> "".
Proof.
  destruct candidate as [[| | |s| |]|]; try discriminate. cbn.
  destruct (String.eqb_spec s ""); [discriminate|]. now intros [= <-].
Qed.

(** X5: the name of the azd environment.  A setting AZURE_ENV_NAME that is
    not empty wins, and the configuration is then not looked at; without
    it, a configuration that is missing gives no name, the entry
    defaults.environment wins over defaultEnvironment, and the function
    ends in an AttributeError exactly when the document is not an object
    or its entry "defaults" is there and is not an object; a name that is
    returned is never empty. *)
Theorem detect_azd_env_name_precedence (environ : gmap string string)
    (config : option json) :
  (forall explicit,
     environ !! "AZURE_ENV_NAME" = Some explicit -> explicit <> "" ->
     _detect_azd_env_name environ config = Name (Some explicit))
  /\ (forall name,
        _detect_azd_env_name environ config = Name (Some name) -> name <> "")
  /\ (default "" (environ !! "AZURE_ENV_NAME") = "" ->
      (config = None -> _detect_azd_env_name environ config = Name None)
      /\ (forall data defaults name,
            config = Some (JObj data) ->
            data !! "defaults" = Some (JObj defaults) ->
            defaults !! "environment" = Some (JStr name) -> name <> "" ->
            _detect_azd_env_name environ config = Name (Some name))
      /\ (forall data name,
            config = Some (JObj data) ->
            data !! "defaults" = None ->
            data !! "defaultEnvironment" = Some (JStr name) -> name <> "" ->
            _detect_azd_env_name environ config = Name (Some name))
      /\ (_detect_azd_env_name environ config = AttributeError
          <-> (exists j, config = Some j /\ forall data, j <> JObj data)
              \/ (exists data d,
                    config = Some (JObj data)
                    /\ data !! "defaults" = Some d
                    /\ forall defaults, d <> JObj defaults))).
Proof.
  unfold _detect_azd_env_name. split; [|split].
  - intros explicit -> Hne. now destruct (String.eqb_spec explicit "").
  - intros name.
    assert (Hcfg : match config with
                   | Some (JObj data) =>
                       match default (JObj ∅) (data !! "defaults") with
                       | JObj defaults =>
                           match usable_name (defaults !! "environment") with
                           | Some name => Name (Some name)
                           | None => Name (usable_name (data !! "defaultEnvironment"))
                           end
                       | _ => AttributeError
                       end
                   | Some _ => AttributeError
                   | None => Name None
                   end = Name (Some name) -> name <> "").
    { destruct config as [[| | | | |data]|]; try discriminate.
      destruct (default (JObj ∅) (data !! "defaults")) as [| | | | |defaults];
        try discriminate.
      destruct (usable_name (defaults !! "environment")) as [n|] eqn:E.
      - intros [= <-]. now apply usable_name_not_empty in E.
      - intros [= E']. now apply usable_name_not_empty in E'. }
    destruct (environ !! "AZURE_ENV_NAME") as [explicit|]; [|exact Hcfg].
    destruct (String.eqb_spec explicit ""); [exact Hcfg|]. now intros [= <-].
  - intros Hunset.
    assert (Hsel : forall A (x : A) (y : string -> A),
               match environ !! "AZURE_ENV_NAME" with
               | Some explicit => if String.eqb explicit "" then x else y explicit
               | None => x
               end = x).
    { intros A x y. destruct (environ !! "AZURE_ENV_NAME") as [explicit|];
        [|reflexivity].
      cbn in Hunset. subst explicit. reflexivity. }
    rewrite (Hsel _ _ (fun explicit => Name (Some explicit))). clear Hsel.
    split; [now intros ->|]. split; [|split].
    + intros data defaults name -> Hd He Hne. rewrite Hd. cbn [from_option id].
      rewrite He. cbn. now destruct (String.eqb_spec name "").
    + intros data name -> Hd He Hne. rewrite Hd. cbn [from_option id].
      rewrite lookup_empty, He. cbn. now destruct (String.eqb_spec name "").
    + split.
      * destruct config as [j|]; [|discriminate].
        destruct j as [| | | | |data];
          try (intros _; left; eexists; split; [reflexivity | discriminate]).
        destruct (data !! "defaults") as [d|] eqn:Ed; cbn [from_option id].
        -- destruct d as [| | | | |defaults];
             try (intros _; right; eexists _, _;
                  split; [reflexivity | split; [exact Ed | discriminate]]).
           destruct (usable_name (defaults !! "environment")); discriminate.
        -- rewrite lookup_empty. cbn. discriminate.
      * intros [(j & -> & Hj) | (data & d & -> & Hd & Hnot)].
        -- destruct j as [| | | | |data]; try reflexivity. now destruct (Hj data).
        -- rewrite Hd. cbn [from_option id].
           destruct d as [| | | | |defaults]; try reflexivity.
           now destruct (Hnot defaults).
Qed.

Lemma load_candidates_app (fs : EnvPath -> FileState) (l1 l2 : list EnvPath)
    (environ : gmap string string) :
  load_candidates fs (l1 ++ l2) environ
  = match load_candidates fs l1 environ with
    | Some environ1 => load_candidates fs l2 environ1
    | None => None
    end.
Proof.
  revert environ. induction l1 as [|c l1 IH]; intros environ; [reflexivity|].
  cbn [app load_candidates].
  destruct (_load_env_file (fs c) environ) as [environ1 [[|]|]];
    [apply IH | reflexivity | apply IH].
Qed.

(** The fallback never touches a name that has a value. *)
Lemma endpoint_fallback_keeps (environ : gmap string string) (k v : string) :
  environ !! k = Some v -> endpoint_fallback environ !! k = Some v.
Proof.
  intros Hk. unfold endpoint_fallback.
  destruct (environ !! "AIFOUNDRY_PROJECT_ENDPOINT") eqn:E; [exact Hk|].
  assert (Hne : "AIFOUNDRY_PROJECT_ENDPOINT" <> k) by (intros <-; congruence).
  destruct (match environ !! "projectEndpoint" with
            | Some v0 => if String.eqb v0 "" then environ !! "PROJECT_ENDPOINT" else Some v0
            | None => environ !! "PROJECT_ENDPOINT"
            end) as [alt|]; [|exact Hk].
  destruct (String.eqb alt ""); [exact Hk|].
  now rewrite lookup_insert_ne.
Qed.

(** X6: the file [.env] is read last and wins: when [_initialize_env]
    ends without an exception and [.env] can be read and assigns no empty
    name, a name has, after [_initialize_env], the value of the last line
    of [.env] that assigns it, whatever the environment held and whatever
    the other files are (missing, unreadable, or stopped by an empty
    name). *)
Theorem initialize_env_dotenv_wins (fs : EnvPath -> FileState)
    (config : option json) (explicit_path : option string)
    (environ environ' : gmap string string) (lines : list string)
    (pre post : list (string * string)) (k v : string) :
  _initialize_env fs config explicit_path environ = Settings environ' ->
  fs DotEnv = Lines lines ->
  (forall v0, ("", v0) ∉ assignments lines) ->
  assignments lines = (pre ++ (k, v) :: post)%list ->
  (forall v', (k, v') ∉ post) ->
  environ' !! k = Some v.
Proof.
  unfold _initialize_env, env_candidates.
  destruct (_detect_azd_env_name environ config) as [azure_env|]; [|discriminate].
  rewrite app_assoc, load_candidates_app.
  destruct (load_candidates fs _ environ) as [environ1|]; [|discriminate].
  cbn [load_candidates]. intros Hinit Hfs Hkeys Hassign Hpost.
  rewrite Hfs in Hinit. cbn [_load_env_file] in Hinit.
  rewrite load_lines_assignments in Hinit.
  pose proof (apply_assignments_last pre post environ1 k v) as Hlast.
  pose proof (apply_assignments_error (assignments lines) environ1 OSError) as Hos.
  rewrite <- Hassign in Hlast.
  destruct (apply_assignments (assignments lines) environ1) as [environ2 [[|]|]];
    cbn [fst snd] in *.
  - exfalso. destruct Hos as [Hos _].
    destruct (Hos eq_refl) as (pre0 & key & value & post0 & E & _ & _ & ->).
    apply (Hkeys value). rewrite E. apply elem_of_app. right. left.
  - discriminate.
  - injection Hinit as <-. apply endpoint_fallback_keeps. now apply Hlast.
Qed.

Lemma strip_all_space (s : string) : all_space s = true -> strip s = "".
Proof.
  intros H. unfold strip.
  assert (lstrip s = "") as ->; [|reflexivity].
  induction s as [|c s IH]; [reflexivity|].
  cbn [all_space] in H. apply andb_true_iff in H as [Hc Hs].
  rewrite lstrip_cons, Hc. now apply IH.
Qed.

(** X7: [_require_env] returns, without touching the world, the stripped
    value of a setting that is there and not empty, and raises SystemExit
    for a setting that is missing or empty; what it returns has no white
    space at its ends; a value made of white space only passes the check
    and comes back as the empty string.  The harness has the same
    function. *)
Theorem require_env_spec (env : gmap string string) (name : string) (w : World) :
  (forall value,
     env !! name = Some value -> value <> "" ->
     VerifyAgent._require_env env name w = Done (strip value) w)
  /\ (env !! name = None \/ env !! name = Some "" ->
      VerifyAgent._require_env env name w = Raised (SystemExit name) w)
  /\ (forall v w',
        VerifyAgent._require_env env name w = Done v w' ->
        w' = w /\ strip v = v
        /\ exists value, env !! name = Some value /\ value <> "" /\ v = strip value)
  /\ (forall value,
        env !! name = Some value -> value <> "" -> all_space value = true ->
        VerifyAgent._require_env env name w = Done "" w)
  /\ TestAllAgents._require_env env name w = VerifyAgent._require_env env name w.
Proof.
  unfold VerifyAgent._require_env, TestAllAgents._require_env.
  split; [|split; [|split; [|split; [|reflexivity]]]].
  - intros value -> Hne. now destruct (String.eqb_spec value "").
  - intros [-> | ->]; reflexivity.
  - intros v w'. destruct (env !! name) as [value|]; [|discriminate].
    destruct (String.eqb_spec value ""); [discriminate|].
    intros [= <- <-]. split; [reflexivity|]. split; [apply strip_idem|].
    now exists value.
  - intros value -> Hne Hsp. destruct (String.eqb_spec value ""); [contradiction|].
    unfold ret. now rewrite strip_all_space.
Qed.

Lemma require_env_done_iff (env : gmap string string) (name : string) (w : World) :
  (exists v, TestAllAgents._require_env env name w = Done v w)
  <-> exists value, env !! name = Some value /\ value <> "".
Proof.
  unfold TestAllAgents._require_env.
  destruct (env !! name) as [value|].
  - destruct (String.eqb_spec value "") as [->|Hne].
    + split; [intros [v [=]] | intros (v & [= <-] & Hv); congruence].
    + split; [eauto | intros _; eexists; reflexivity].
  - split; [intros [v [=]] | intros (v & [=] & _)].
Qed.

Lemma endpoint_fallback_lookup (environ : gmap string string) :
  environ !! "AIFOUNDRY_PROJECT_ENDPOINT" = None ->
  endpoint_fallback environ !! "AIFOUNDRY_PROJECT_ENDPOINT"
  = match environ !! "projectEndpoint" with
    | Some p =>
        if String.eqb p ""
        then match environ !! "PROJECT_ENDPOINT" with
             | Some q => if String.eqb q "" then None else Some q
             | None => None
             end
        else Some p
    | None =>
        match environ !! "PROJECT_ENDPOINT" with
        | Some q => if String.eqb q "" then None else Some q
        | None => None
        end
    end.
Proof.
  intros Ee. unfold endpoint_fallback. rewrite Ee.
  destruct (environ !! "projectEndpoint") as [p|];
    [destruct (String.eqb_spec p "") as [->|Hp]|].
  - destruct (environ !! "PROJECT_ENDPOINT") as [q|]; [|exact Ee].
    destruct (String.eqb q ""); [exact Ee | apply lookup_insert_eq].
  - destruct (String.eqb_spec p ""); [contradiction | apply lookup_insert_eq].
  - destruct (environ !! "PROJECT_ENDPOINT") as [q|]; [|exact Ee].
    destruct (String.eqb q ""); [exact Ee | apply lookup_insert_eq].
Qed.

Lemma endpoint_fallback_others (environ : gmap string string) (k : string) :
  k <> "AIFOUNDRY_PROJECT_ENDPOINT" ->
  endpoint_fallback environ !! k = environ !! k.
Proof.
  intros Hk. unfold endpoint_fallback.
  destruct (environ !! "AIFOUNDRY_PROJECT_ENDPOINT"); [reflexivity|].
  destruct (match environ !! "projectEndpoint" with
            | Some v0 => if String.eqb v0 "" then environ !! "PROJECT_ENDPOINT" else Some v0
            | None => environ !! "PROJECT_ENDPOINT"
            end) as [alt|]; [|reflexivity].
  destruct (String.eqb alt ""); [reflexivity|].
  now rewrite lookup_insert_ne.
Qed.

(** X8: the endpoint after the fallback.  An endpoint that is set, even
    to the empty string, is left alone; one that is not set takes the
    value of projectEndpoint when that is set and not empty, else the value
    of PROJECT_ENDPOINT when that is set and not empty, and the environment
    is then the old one with that one entry added; when neither is set and
    not empty the environment does not change; no other name ever
    changes.  So the harness finds its endpoint exactly when the endpoint
    is set and not empty, or is not set while one of the two other names
    is set and not empty. *)
Theorem endpoint_fallback_spec (environ : gmap string string) (w : World) :
  (forall v, environ !! "AIFOUNDRY_PROJECT_ENDPOINT" = Some v ->
             endpoint_fallback environ = environ)
  /\ (forall k, k <> "AIFOUNDRY_PROJECT_ENDPOINT" ->
                endpoint_fallback environ !! k = environ !! k)
  /\ ((exists v, TestAllAgents._require_env (endpoint_fallback environ)
                   "AIFOUNDRY_PROJECT_ENDPOINT" w = Done v w)
      <-> (exists v, environ !! "AIFOUNDRY_PROJECT_ENDPOINT" = Some v /\ v <> "")
          \/ (environ !! "AIFOUNDRY_PROJECT_ENDPOINT" = None
              /\ ((exists v, environ !! "projectEndpoint" = Some v /\ v <> "")
                  \/ (exists v, environ !! "PROJECT_ENDPOINT" = Some v /\ v <> ""))))
  /\ (environ !! "AIFOUNDRY_PROJECT_ENDPOINT" = None ->
      forall v, environ !! "projectEndpoint" = Some v -> v <> "" ->
      endpoint_fallback environ !! "AIFOUNDRY_PROJECT_ENDPOINT" = Some v)
  /\ (environ !! "AIFOUNDRY_PROJECT_ENDPOINT" = None ->
      environ !! "projectEndpoint" = None \/ environ !! "projectEndpoint" = Some "" ->
      forall v, environ !! "PROJECT_ENDPOINT" = Some v -> v <> "" ->
      endpoint_fallback environ = <["AIFOUNDRY_PROJECT_ENDPOINT" := v]> environ)
  /\ (environ !! "AIFOUNDRY_PROJECT_ENDPOINT" = None ->
      forall v, environ !! "projectEndpoint" = Some v -> v <> "" ->
      endpoint_fallback environ = <["AIFOUNDRY_PROJECT_ENDPOINT" := v]> environ)
  /\ (environ !! "AIFOUNDRY_PROJECT_ENDPOINT" = None ->
      environ !! "projectEndpoint" = None \/ environ !! "projectEndpoint" = Some "" ->
      environ !! "PROJECT_ENDPOINT" = None \/ environ !! "PROJECT_ENDPOINT" = Some "" ->
      endpoint_fallback environ = environ).
Proof.
  split; [|split; [|split; [|split; [|split; [|split]]]]].
  - intros v Hv. unfold endpoint_fallback. now rewrite Hv.
  - intros k Hk. now apply endpoint_fallback_others.
  - rewrite require_env_done_iff.
    destruct (environ !! "AIFOUNDRY_PROJECT_ENDPOINT") as [e|] eqn:Ee.
    + unfold endpoint_fallback. rewrite Ee, Ee.
      split; [intros H; now left | intros [H | [[=] _]]; exact H].
    + rewrite (endpoint_fallback_lookup environ Ee).
      split.
      * intros (value & Hval & Hne). right. split; [reflexivity|].
        assert (Hq : match environ !! "PROJECT_ENDPOINT" with
                     | Some q => if String.eqb q "" then None else Some q
                     | None => None
                     end = Some value ->
                     exists v, environ !! "PROJECT_ENDPOINT" = Some v /\ v <> "").
        { intros H. destruct (environ !! "PROJECT_ENDPOINT") as [q|]; [|discriminate].
          destruct (String.eqb_spec q ""); [discriminate | eauto]. }
        destruct (environ !! "projectEndpoint") as [p|].
        -- destruct (String.eqb p "") eqn:Ep.
           ++ right. now apply Hq.
           ++ left. exists p. split; [reflexivity|]. now apply String.eqb_neq.
        -- right. now apply Hq.
      * intros [(v & [=] & _) | (_ & Halt)].
        assert (Hq : (exists v, environ !! "PROJECT_ENDPOINT" = Some v /\ v <> "") ->
                     exists value,
                       match environ !! "PROJECT_ENDPOINT" with
                       | Some q => if String.eqb q "" then None else Some q
                       | None => None
                       end = Some value /\ value <> "").
        { intros (v & -> & Hv). destruct (String.eqb_spec v ""); [contradiction | eauto]. }
        destruct (environ !! "projectEndpoint") as [p|].
        -- destruct (String.eqb p "") eqn:Ep.
           ++ apply String.eqb_eq in Ep. subst p.
              destruct Halt as [(v & [= <-] & Hv) | Halt]; [congruence | now apply Hq].
           ++ apply String.eqb_neq in Ep. eauto.
        -- destruct Halt as [(v & [=] & _) | Halt]. now apply Hq.
  - intros Ee v Hp Hv. rewrite (endpoint_fallback_lookup environ Ee), Hp.
    now destruct (String.eqb_spec v "").
  - intros Ee Hp v Hq Hv. apply String.eqb_neq in Hv.
    unfold endpoint_fallback. rewrite Ee, Hq.
    destruct Hp as [-> | ->]; cbv beta iota zeta;
      try change (String.eqb "" "") with true; cbv beta iota; now rewrite Hv.
  - intros Ee v Hp Hv. apply String.eqb_neq in Hv.
    unfold endpoint_fallback. rewrite Ee, Hp. cbv beta iota zeta.
    rewrite Hv. cbv beta iota. now rewrite Hv.
  - intros Ee Hp Hq. unfold endpoint_fallback. rewrite Ee.
    destruct Hp as [-> | ->], Hq as [-> | ->]; reflexivity.
Qed.

(** X1 at a value with inner spaces and an inner quote. *)
Lemma strip_quotes_round_trip_witness :
  _strip_quotes ("  " ++ String dquote (" it's here " ++ String dquote " "))
  = " it's here ".
Proof.
  apply (strip_quotes_round_trip dquote "  " " it's here " " ").
  - now right.
  - reflexivity.
  - reflexivity.
Defined.

(** X3 at a line as a file holds it. *)
Lemma line_assignment_round_trip_witness :
  line_assignment
    ("TRIAGE_AGENT_ID"
     ++ String "="%char (String squote ("a=b # c" ++ String squote EnvScenarios.nl)))
  = Some ("TRIAGE_AGENT_ID", "a=b # c")
  /\ line_assignment ("TRIAGE_AGENT_ID" ++ String "="%char " asst_1 # note ")
     = Some ("TRIAGE_AGENT_ID", _strip_quotes " asst_1 # note ").
Proof.
  apply (line_assignment_round_trip "TRIAGE_AGENT_ID" "a=b # c" " asst_1 # note "
           EnvScenarios.nl squote).
  - discriminate.
  - reflexivity.
  - reflexivity.
  - reflexivity.
  - now left.
  - reflexivity.
Defined.

(** X6 where the explicit file cannot be read and [.env] assigns a name
    twice. *)
Lemma initialize_env_dotenv_wins_witness :
  exists environ',
    _initialize_env EnvScenarios.files None (Some "custom.env")
      {[ "PRIORITY_AGENT_ID" := "asst_from_shell" ]} = Settings environ'
    /\ environ' !! "PRIORITY_AGENT_ID" = Some "asst_priority".
Proof.
  eexists. split; [reflexivity|].
  eapply (initialize_env_dotenv_wins EnvScenarios.files None (Some "custom.env")
            {[ "PRIORITY_AGENT_ID" := "asst_from_shell" ]} _
            EnvScenarios.dotenv_lines
            [ ("AIFOUNDRY_PROJECT_ENDPOINT", "https://example.test/api/projects/p");
              ("TRIAGE_AGENT_ID", "asst_triage");
              ("PRIORITY_AGENT_ID", "asst_old") ]
            [] "PRIORITY_AGENT_ID" "asst_priority").
  - reflexivity.
  - reflexivity.
  - intros v0 H. apply list_elem_of_In in H. vm_compute in H.
    intuition discriminate.
  - vm_compute. reflexivity.
  - intros v' H. inversion H.
Defined.

End EnvSetupFacts.

(** ** The command line of verify_agent.py *)

Module MainFacts.
Import VerifyAgent VerifyAgentMain.

(** With only rate-limited failures among the terminal statuses, an
    outcome that comes back is a failure. *)
Lemma verify_agent_rate_limited_fails (fuel : nat) (remote : Remote)
    (env : gmap string string) (ticket : string) (poll_interval timeout : Q)
    (max_attempts : Z) (initial_backoff max_backoff : Q) (agent_id : string)
    (w w' : World) (o : Outcome) :
  only_rate_limited_failures remote ->
  verify_agent fuel remote env ticket poll_interval timeout max_attempts
    initial_backoff max_backoff agent_id w = Done o w' ->
  succeeded o = false.
Proof.
  intros Hrl. rewrite RunDriverFacts.verify_agent_unfold.
  destruct (env !! "AIFOUNDRY_PROJECT_ENDPOINT") as [value|]; [|discriminate].
  destruct (String.eqb value ""); [discriminate|].
  destruct (threads_create remote w) as [thread|]; [|discriminate].
  cbv zeta.
  destruct (messages_create remote _ thread "user" ticket); [|discriminate].
  intros Hloop.
  now destruct (RunDriverFacts.attempt_loop_rate_limited _ _ _ _ _ _ _ _ _ _ _ _ _ _ _
                  Hrl Hloop).
Qed.

Section Main.

Variable fuel : nat.
Variable remote : Remote.
Variable env : gmap string string.
Variable args : Args.
Variable w : World.

(** The agent the command line names: the argument when it is given and
    not empty, else the stripped setting TRIAGE_AGENT_ID. *)
Abbreviation names_agent aid :=
  ((agent_id args = Some aid /\ aid <> "")
   \/ ((agent_id args = None \/ agent_id args = Some "")
       /\ exists value,
            env !! "TRIAGE_AGENT_ID" = Some value /\ value <> ""
            /\ aid = PyStr.strip value)).

Abbreviation call_for aid :=
  (verify_agent fuel remote env (ticket args) (poll_interval args) (timeout args)
     (max_attempts args) (initial_backoff args) (max_backoff args) aid w).

(** [main], spelled out. *)
Lemma main_unfold :
  main fuel remote env args w =
  match
    match agent_id args with
    | Some given =>
        if String.eqb given "" then _require_env env "TRIAGE_AGENT_ID" w
        else Done given w
    | None => _require_env env "TRIAGE_AGENT_ID" w
    end
  with
  | Done aid w0 =>
      match verify_agent fuel remote env (ticket args) (poll_interval args)
              (timeout args) (max_attempts args) (initial_backoff args)
              (max_backoff args) aid w0 with
      | Done o w1 =>
          Done (if succeeded o then 0%Z else 2%Z)
            (if show_transcript args then
               match messages_list remote w1 (thread_id o) with
               | Some _ => logged (MessagesListed (thread_id o)) w1
               | None => w1
               end
             else w1)
      | Raised e w1 => Done 1%Z w1
      | OutOfFuel => OutOfFuel
      end
  | Raised e w0 => Raised e w0
  | OutOfFuel => OutOfFuel
  end.
Proof.
  unfold main. unfold bind at 1.
  assert (Hsame : match agent_id args with
                  | Some given =>
                      if String.eqb given "" then _require_env env "TRIAGE_AGENT_ID"
                      else ret given
                  | None => _require_env env "TRIAGE_AGENT_ID"
                  end w
                  = match agent_id args with
                    | Some given =>
                        if String.eqb given "" then _require_env env "TRIAGE_AGENT_ID" w
                        else Done given w
                    | None => _require_env env "TRIAGE_AGENT_ID" w
                    end).
  { destruct (agent_id args) as [given|]; [|reflexivity].
    now destruct (String.eqb given ""). }
  rewrite Hsame. clear Hsame.
  destruct (match agent_id args with
            | Some given =>
                if String.eqb given "" then _require_env env "TRIAGE_AGENT_ID" w
                else Done given w
            | None => _require_env env "TRIAGE_AGENT_ID" w
            end) as [aid w0|e w0|]; try reflexivity.
  unfold bind at 1. unfold try_except at 1. unfold bind at 1.
  destruct (verify_agent _ _ _ _ _ _ _ _ _ _ w0) as [o w1|e w1|]; try reflexivity.
  unfold ret at 1. unfold bind at 1.
  destruct (show_transcript args).
  - cbv [try_except bind _iter_thread_messages sdk_call ret].
    destruct (messages_list remote w1 (thread_id o));
      destruct (succeeded o); reflexivity.
  - cbv [ret]. destruct (succeeded o); reflexivity.
Qed.

(** How the agent is found. *)
Lemma agent_resolution :
  match agent_id args with
  | Some given =>
      if String.eqb given "" then _require_env env "TRIAGE_AGENT_ID" w
      else Done given w
  | None => _require_env env "TRIAGE_AGENT_ID" w
  end
  = match (match agent_id args with
           | Some given => if String.eqb given "" then None else Some given
           | None => None
           end) with
    | Some given => Done given w
    | None =>
        match env !! "TRIAGE_AGENT_ID" with
        | Some value =>
            if String.eqb value "" then Raised (SystemExit "TRIAGE_AGENT_ID") w
            else Done (PyStr.strip value) w
        | None => Raised (SystemExit "TRIAGE_AGENT_ID") w
        end
    end.
Proof.
  assert (Henv : _require_env env "TRIAGE_AGENT_ID" w
                 = match env !! "TRIAGE_AGENT_ID" with
                   | Some value =>
                       if String.eqb value ""
                       then Raised (SystemExit "TRIAGE_AGENT_ID") w
                       else Done (PyStr.strip value) w
                   | None => Raised (SystemExit "TRIAGE_AGENT_ID") w
                   end).
  { unfold _require_env, raise, ret.
    destruct (env !! "TRIAGE_AGENT_ID") as [value|]; [|reflexivity].
    now destruct (String.eqb value ""). }
  rewrite Henv.
  destruct (agent_id args) as [given|]; [|reflexivity].
  destruct (String.eqb given ""); reflexivity.
Qed.

(** [main] once the agent is known. *)
Lemma main_with_agent (aid : string) :
  names_agent aid ->
  main fuel remote env args w =
  match call_for aid with
  | Done o w1 =>
      Done (if succeeded o then 0%Z else 2%Z)
        (if show_transcript args then
           match messages_list remote w1 (thread_id o) with
           | Some _ => logged (MessagesListed (thread_id o)) w1
           | None => w1
           end
         else w1)
  | Raised e w1 => Done 1%Z w1
  | OutOfFuel => OutOfFuel
  end.
Proof.
  intros Hname. rewrite main_unfold, agent_resolution.
  destruct Hname as [[-> Hne] | [Hnone (value & Hv & Hne & ->)]].
  - now destruct (String.eqb_spec aid "").
  - rewrite Hv. destruct (String.eqb_spec value ""); [contradiction|].
    destruct Hnone as [-> | ->]; reflexivity.
Qed.

(** X9: the exit status of [verify_agent.py].  Once the agent is known
    (the argument, or else the setting TRIAGE_AGENT_ID), [main] raises
    nothing: it returns 0 when the call returns an outcome with
    [succeeded] true, 2 when it returns one with [succeeded] false, and 1
    when the call raises, whatever the exception; it touches the remote
    after the call only to list the messages, and only when asked to.
    Without an agent it raises SystemExit before any remote call. *)
Theorem main_exit_status :
  (forall aid,
     names_agent aid ->
     (forall o w1,
        call_for aid = Done o w1 ->
        exists w',
          main fuel remote env args w = Done (if succeeded o then 0%Z else 2%Z) w'
          /\ (w' = w1 \/ (show_transcript args = true
                          /\ w' = logged (MessagesListed (thread_id o)) w1)))
     /\ (forall e w1, call_for aid = Raised e w1 ->
                      main fuel remote env args w = Done 1%Z w1)
     /\ (forall e w', main fuel remote env args w <> Raised e w')
     /\ (forall c w',
           main fuel remote env args w = Done c w' ->
           (c = 0%Z /\ exists o w1, call_for aid = Done o w1 /\ succeeded o = true)
           \/ (c = 2%Z /\ exists o w1, call_for aid = Done o w1 /\ succeeded o = false)
           \/ (c = 1%Z /\ exists e, call_for aid = Raised e w')))
  /\ ((agent_id args = None \/ agent_id args = Some "") ->
      (env !! "TRIAGE_AGENT_ID" = None \/ env !! "TRIAGE_AGENT_ID" = Some "") ->
      main fuel remote env args w = Raised (SystemExit "TRIAGE_AGENT_ID") w).
Proof.
  split.
  - intros aid Hname. rewrite (main_with_agent aid Hname).
    split; [|split; [|split]].
    + intros o w1 ->. eexists. split; [reflexivity|].
      destruct (show_transcript args); [|now left].
      destruct (messages_list remote w1 (thread_id o)); auto.
    + now intros e w1 ->.
    + intros e w'. destruct (call_for aid) as [o w1|e1 w1|]; discriminate.
    + intros c w'. destruct (call_for aid) as [o w1|e1 w1|]; try discriminate.
      * destruct (succeeded o) eqn:Es; intros [= <- _]; eauto 10.
      * intros [= <- <-]. eauto 10.
  - intros Hnone Henv. rewrite main_unfold, agent_resolution.
    assert (match agent_id args with
            | Some given => if String.eqb given "" then None else Some given
            | None => None
            end = None) as -> by (destruct Hnone as [-> | ->]; reflexivity).
    destruct Henv as [-> | ->]; reflexivity.
Qed.

(** X11: against a remote whose every terminal status is a rate-limited
    failure, [main] never reports success: whatever the number of
    attempts, its exit status is 1 or 2. *)
Theorem main_rate_limited_never_succeeds (c : Z) (w' : World) :
  only_rate_limited_failures remote ->
  main fuel remote env args w = Done c w' ->
  c = 1%Z \/ c = 2%Z.
Proof.
  intros Hrl. rewrite main_unfold.
  destruct (match agent_id args with
            | Some given =>
                if String.eqb given "" then _require_env env "TRIAGE_AGENT_ID" w
                else Done given w
            | None => _require_env env "TRIAGE_AGENT_ID" w
            end) as [aid w0|e w0|]; try discriminate.
  destruct (verify_agent _ _ _ _ _ _ _ _ _ aid w0) as [o w1|e w1|] eqn:Ecall;
    try discriminate.
  - rewrite (verify_agent_rate_limited_fails _ _ _ _ _ _ _ _ _ _ _ _ _ Hrl Ecall).
    intros [= <- _]. now right.
  - intros [= <- _]. now left.
Qed.

End Main.

(** X10: asking for the transcript never changes the exit status of
    [verify_agent.py], nor whether it raises, even when the listing of the
    messages fails; without the transcript [main] touches the remote only
    through the call of [verify_agent]. *)
Theorem show_transcript_keeps_exit_status (fuel : nat) (remote : Remote)
    (env : gmap string string) (args : Args) (shown : bool) (w : World) :
  match main fuel remote env (set_show_transcript shown args) w,
        main fuel remote env args w with
  | Done c _, Done c' _ => c = c'
  | Raised e w1, Raised e' w2 => e = e' /\ w1 = w2
  | OutOfFuel, OutOfFuel => True
  | _, _ => False
  end
  /\ (forall aid w0 o w1,
        (match agent_id args with
         | Some given =>
             if String.eqb given "" then _require_env env "TRIAGE_AGENT_ID" w
             else Done given w
         | None => _require_env env "TRIAGE_AGENT_ID" w
         end) = Done aid w0 ->
        verify_agent fuel remote env (ticket args) (poll_interval args)
          (timeout args) (max_attempts args) (initial_backoff args)
          (max_backoff args) aid w0 = Done o w1 ->
        main fuel remote env (set_show_transcript false args) w
        = Done (if succeeded o then 0%Z else 2%Z) w1).
Proof.
  split.
  - rewrite !main_unfold. cbn [set_show_transcript agent_id ticket poll_interval
      timeout max_attempts initial_backoff max_backoff show_transcript].
    destruct (match agent_id args with
              | Some given =>
                  if String.eqb given "" then _require_env env "TRIAGE_AGENT_ID" w
                  else Done given w
              | None => _require_env env "TRIAGE_AGENT_ID" w
              end) as [aid w0|e w0|]; auto.
    destruct (verify_agent _ _ _ _ _ _ _ _ _ aid w0) as [o w1|e w1|]; auto.
  - intros aid w0 o w1 Hid Hcall. rewrite main_unfold.
    cbn [set_show_transcript agent_id ticket poll_interval
      timeout max_attempts initial_backoff max_backoff show_transcript].
    now rewrite Hid, Hcall.
Qed.

(** X11 at the command line without options, against a remote whose runs
    all fail, rate limited: five runs, exit status 2. *)
Lemma main_rate_limited_never_succeeds_witness :
  only_rate_limited_failures Scenarios.remote_rate_limited
  /\ exists w',
       main 10 Scenarios.remote_rate_limited Scenarios.env default_args Scenarios.start
       = Done 2%Z w'
       /\ count is_run_created (history w') = 5%nat
       /\ (2 = 1 \/ 2 = 2)%Z.
Proof.
  split; [exact RunDriverFacts.only_rate_limited_failures_scripted|].
  eexists. 
  assert (H : main 10 Scenarios.remote_rate_limited Scenarios.env default_args
                Scenarios.start = Done 2%Z ?[w'])
    by (vm_compute; reflexivity).
  split; [exact H|]. split; [vm_compute; reflexivity|].
  exact (main_rate_limited_never_succeeds 10 Scenarios.remote_rate_limited
           Scenarios.env default_args Scenarios.start 2%Z _
           RunDriverFacts.only_rate_limited_failures_scripted H).
Defined.

(** The command line without options, against a remote whose first run is
    rate limited and whose second completes: exit status 0; with
    [--show-transcript] the messages are listed once, after the run. *)
Example main_recovers :
  exists w',
    main 10 Scenarios.remote_recovers Scenarios.env
      (set_show_transcript true default_args) Scenarios.start = Done 0%Z w'
    /\ List.last (history w') (Deleted "") = MessagesListed "thread_0"
    /\ count is_run_created (history w') = 2%nat.
Proof. eexists. split; [vm_compute; reflexivity|]. split; reflexivity. Qed.

End MainFacts.

(** ** The run driver: retries, time and the run reported *)

Module DriverFacts.
Import VerifyAgent RunDriverFacts.

Local Open Scope Q_scope.
Local Open Scope list_scope.

Section Loops.

Variable remote : Remote.
Variables (poll_interval timeout : Q) (max_attempts : Z) (max_backoff : Q).
Variables (agent_id endpoint thread : string).

Abbreviation poll_loop :=
  (poll_loop remote poll_interval max_attempts max_backoff endpoint thread).
Abbreviation attempt_loop :=
  (attempt_loop remote poll_interval timeout max_attempts max_backoff
     agent_id endpoint thread).

(** No terminal failure the remote reports is classified as a rate
    limit. *)
Abbreviation no_rate_limit :=
  (forall w t r view,
     runs_get remote w t r = Some view ->
     status_in (_normalize_status (status view)) TERMINAL_FAILURE_STATUSES = true ->
     _is_retryable_rate_limit (_serialize_error (last_error view)) = false).

(** The polling loop leaves by [break] only on an attempt before the last,
    after a failure classified as a rate limit. *)
Lemma poll_loop_no_break (fuel : nat) (run : string) (attempt : Z)
    (b deadline : Q) (ls : option string) (w w' : World) (a' : Z) (b' : Q)
    (rr : bool) :
  (max_attempts <= attempt)%Z \/ no_rate_limit ->
  poll_loop fuel run attempt b deadline ls w <> Done (Break a' b' rr) w'.
Proof.
  intros Hno. revert ls w.
  induction fuel as [|fuel IH]; intros ls w; [discriminate|].
  rewrite poll_loop_step.
  destruct (Qltb (clock w) deadline); [|discriminate].
  destruct (runs_get remote w thread run) as [current_run|] eqn:Eget; [|discriminate].
  cbv zeta.
  destruct (status_in _ TERMINAL_STATUSES) eqn:Et.
  - destruct (status_in _ SUCCESS_STATUSES) eqn:Es; [discriminate|].
    assert (Hretry : (_is_retryable_rate_limit (_serialize_error (last_error current_run))
                      && (attempt <? max_attempts)%Z)%bool = false).
    { destruct Hno as [Hlast | Hno].
      - apply andb_false_iff. right. apply Z.ltb_ge. exact Hlast.
      - rewrite (Hno _ _ _ _ Eget (status_in_terminal _ Et Es)). reflexivity. }
    rewrite Hretry. discriminate.
  - destruct (Qltb poll_interval 0); [discriminate|]. apply IH.
Qed.

(** Without retry, a turn of the attempt loop creates at most one run and
    never sleeps for backoff. *)
Lemma attempt_loop_single_run (fuel pf : nat) (attempt : Z) (b : Q) (w w' : World) :
  (max_attempts <= attempt)%Z \/ no_rate_limit ->
  final_world (attempt_loop fuel pf attempt b w) = Some w' ->
  exists evs,
    history w' = history w ++ evs
    /\ (count is_run_created evs <= 1)%nat
    /\ backoff_sleeps evs = [].
Proof.
  intros Hno. destruct fuel as [|fuel]; [discriminate|].
  rewrite attempt_loop_step.
  destruct (attempt <=? max_attempts)%Z.
  2:{ intros [= <-]. exists []. rewrite app_nil_r. repeat split. cbn. lia. }
  destruct (runs_create remote w thread agent_id) as [run|].
  2:{ intros [= <-]. exists []. rewrite app_nil_r. repeat split. cbn. lia. }
  cbv zeta.
  pose proof (poll_loop_post remote poll_interval max_attempts max_backoff endpoint
                thread pf run attempt b
                (clock (logged (RunCreated thread agent_id run) w) + timeout) None
                (logged (RunCreated thread agent_id run) w)) as Hpost.
  pose proof (poll_loop_no_break pf run attempt b
                (clock (logged (RunCreated thread agent_id run) w) + timeout) None
                (logged (RunCreated thread agent_id run) w)) as Hbreak.
  destruct (poll_loop pf run attempt b _ None _) as [[o|a' b' rr] w1|e w1|].
  - intros [= <-]. destruct Hpost as (evs & Hh & Hev & _).
    destruct (poll_events_quiet _ _ _ _ Hev) as (Hc & _ & _ & _ & Hb & _).
    exists (RunCreated thread agent_id run :: evs).
    cbn [history logged] in Hh. rewrite Hh, <- app_assoc. split; [reflexivity|].
    change (RunCreated thread agent_id run :: evs)
      with ([RunCreated thread agent_id run] ++ evs).
    rewrite count_app, backoff_sleeps_app, Hc, Hb. split; [cbn; lia | reflexivity].
  - exfalso. now apply (Hbreak w1 a' b' rr Hno).
  - intros [= <-]. destruct Hpost as (evs & Hh & Hev & _).
    destruct (poll_events_quiet _ _ _ _ Hev) as (Hc & _ & _ & _ & Hb & _).
    exists (RunCreated thread agent_id run :: evs).
    cbn [history logged] in Hh. rewrite Hh, <- app_assoc. split; [reflexivity|].
    change (RunCreated thread agent_id run :: evs)
      with ([RunCreated thread agent_id run] ++ evs).
    rewrite count_app, backoff_sleeps_app, Hc, Hb. split; [cbn; lia | reflexivity].
  - discriminate.
Qed.

(** Time passes only in the sleeps: polling ends at most one poll
    interval after the deadline, and the retry sleep starts before it. *)
Lemma poll_loop_clock (fuel : nat) (run : string) (attempt : Z)
    (b deadline : Q) (ls : option string) (w : World) :
  0 <= poll_interval ->
  clock w <= deadline + poll_interval ->
  match poll_loop fuel run attempt b deadline ls w with
  | Done (Break _ _ _) w' =>
      clock w <= clock w' /\ clock w' <= deadline + max_backoff
  | Done (Return _) w' | Raised _ w' =>
      clock w <= clock w' /\ clock w' <= deadline + poll_interval
  | OutOfFuel => True
  end.
Proof.
  intros Hp. revert ls w.
  induction fuel as [|fuel IH]; intros ls w Hw; [exact I|].
  rewrite poll_loop_step.
  destruct (Qltb (clock w) deadline) eqn:Enow.
  2:{ split; lra. }
  apply Qltb_true in Enow.
  destruct (runs_get remote w thread run) as [current_run|].
  2:{ split; lra. }
  cbv zeta.
  destruct (status_in _ TERMINAL_STATUSES).
  - destruct (status_in _ SUCCESS_STATUSES).
    { cbn [clock logged]. split; lra. }
    destruct (_ && _)%bool.
    2:{ cbn [clock logged]. split; lra. }
    destruct (Qltb (py_min max_backoff b) 0) eqn:Ewait.
    { cbn [clock logged]. split; lra. }
    apply Qltb_false in Ewait. cbn [clock logged].
    destruct (py_min_cases max_backoff b) as [[Hm Hlt]|[Hm Hle]];
      rewrite Hm in *; split; lra.
  - destruct (Qltb poll_interval 0); [cbn [clock logged]; split; lra|].
    match goal with
    | |- context [poll_loop fuel run attempt b deadline ?ls' ?w2] =>
        specialize (IH ls' w2);
        destruct (poll_loop fuel run attempt b deadline ls' w2)
          as [[o|a' b' rr] w'|e w'|]
    end; cbn [clock logged] in IH; cbv beta iota in IH |- *; try exact I;
      (destruct IH as [H1 H2]; [lra|]; split; lra).
Qed.

(** The time a series of attempts takes: each attempt its timeout, each
    retry at most the maximum backoff, and one poll interval more. *)
Lemma attempt_loop_clock (fuel pf : nat) (attempt : Z) (b : Q) (w w' : World) :
  0 <= poll_interval -> 0 <= timeout -> 0 <= max_backoff ->
  (attempt <= max_attempts)%Z ->
  final_world (attempt_loop fuel pf attempt b w) = Some w' ->
  clock w <= clock w'
  /\ clock w' <= clock w + (inject_Z (max_attempts - attempt) + 1) * timeout
                 + inject_Z (max_attempts - attempt) * max_backoff + poll_interval.
Proof.
  intros Hp Ht Hm. revert attempt b w.
  induction fuel as [|fuel IH]; intros attempt b w Hle; [discriminate|].
  assert (HN : 0 <= inject_Z (max_attempts - attempt)).
  { change 0 with (inject_Z 0). rewrite <- Zle_Qle. lia. }
  pose proof (Qmult_le_0_compat _ _ HN Ht) as HNt.
  pose proof (Qmult_le_0_compat _ _ HN Hm) as HNm.
  rewrite attempt_loop_step.
  destruct (attempt <=? max_attempts)%Z.
  2:{ intros [= <-]. split; lra. }
  destruct (runs_create remote w thread agent_id) as [run|].
  2:{ intros [= <-]. split; lra. }
  cbv zeta.
  pose proof (poll_loop_post remote poll_interval max_attempts max_backoff endpoint
                thread pf run attempt b
                (clock (logged (RunCreated thread agent_id run) w) + timeout) None
                (logged (RunCreated thread agent_id run) w)) as Hpost.
  pose proof (poll_loop_clock pf run attempt b
                (clock (logged (RunCreated thread agent_id run) w) + timeout) None
                (logged (RunCreated thread agent_id run) w) Hp) as Hclock.
  cbn [clock logged] in Hclock, Hpost |- *.
  destruct (VerifyAgent.poll_loop _ _ _ _ _ _ _ _ _ _ _ _ _)
    as [[o|a' b' rr] w1|e w1|]; cbv beta iota in Hclock, Hpost.
  - intros [= <-]. destruct Hclock as [H1 H2]; [lra|]. split; lra.
  - intros Hrest. destruct Hclock as [H1 H2]; [lra|].
    destruct Hpost as (_ & _ & _ & -> & Hlt & _).
    assert (Hnext : (attempt + 1 <= max_attempts)%Z) by lia.
    destruct (IH _ _ _ Hnext Hrest) as [H3 H4].
    assert (HN' : inject_Z (max_attempts - (attempt + 1))
                  == inject_Z (max_attempts - attempt) - 1).
    { replace (max_attempts - (attempt + 1))%Z with (max_attempts - attempt + -1)%Z
        by lia.
      rewrite inject_Z_plus. change (inject_Z (-1)) with (-1 # 1). lra. }
    rewrite HN' in H4. split; lra.
  - intros [= <-]. destruct Hclock as [H1 H2]; [lra|]. split; lra.
  - discriminate.
Qed.

(** Polling returns at a fetch that reports a terminal status: the
    outcome is read off that fetch, and nothing happens after it. *)
Lemma poll_loop_returns (fuel : nat) (run : string) (attempt : Z)
    (b deadline : Q) (ls : option string) (w w' : World) (o : Outcome) :
  poll_loop fuel run attempt b deadline ls w = Done (Return o) w' ->
  exists evs w_last view,
    history w_last = history w ++ evs
    /\ Forall (poll_event thread run poll_interval) evs
    /\ clock w_last < deadline
    /\ runs_get remote w_last thread run = Some view
    /\ w' = logged (RunFetched thread run) w_last
    /\ run_id o = run
    /\ out_status o = _normalize_status (status view)
    /\ out_last_error o = _serialize_error (last_error view)
    /\ status_in (out_status o) TERMINAL_STATUSES = true
    /\ succeeded o = status_in (out_status o) SUCCESS_STATUSES.
Proof.
  revert ls w.
  induction fuel as [|fuel IH]; intros ls w; [discriminate|].
  rewrite poll_loop_step.
  destruct (Qltb (clock w) deadline) eqn:Enow; [|discriminate].
  apply Qltb_true in Enow.
  destruct (runs_get remote w thread run) as [current_run|] eqn:Eget; [|discriminate].
  cbv zeta.
  destruct (status_in (_normalize_status (status current_run)) TERMINAL_STATUSES)
    eqn:Et.
  - destruct (status_in (_normalize_status (status current_run)) SUCCESS_STATUSES)
      eqn:Es.
    + intros [= <- <-]. exists [], w, current_run. rewrite app_nil_r.
      cbn [run_id out_status out_last_error succeeded]. rewrite Et, Es. auto 12.
    + destruct (_is_retryable_rate_limit _ && _)%bool.
      * destruct (Qltb (py_min max_backoff b) 0); discriminate.
      * intros [= <- <-]. exists [], w, current_run. rewrite app_nil_r.
        cbn [run_id out_status out_last_error succeeded]. rewrite Et, Es. auto 12.
  - destruct (Qltb poll_interval 0); [discriminate|].
    intros Hrest.
    destruct (IH _ _ Hrest) as (evs & w_last & view & Hh & Hev & Hrest').
    exists ([RunFetched thread run; Slept PollWait poll_interval] ++ evs), w_last, view.
    split.
    { rewrite Hh. cbn [history logged]. now rewrite <- !app_assoc. }
    split; [|exact Hrest'].
    apply Forall_app. split; [|exact Hev].
    repeat constructor.
Qed.

(** The attempt loop returns the outcome of the run it created last. *)
Lemma attempt_loop_returns (fuel pf : nat) (attempt : Z) (b : Q)
    (w w' : World) (o : Outcome) :
  attempt_loop fuel pf attempt b w = Done o w' ->
  exists before evs w_last view,
    history w_last
    = history w ++ before ++ [RunCreated thread agent_id (run_id o)] ++ evs
    /\ Forall (attempt_event thread agent_id) before
    /\ Forall (poll_event thread (run_id o) poll_interval) evs
    /\ runs_get remote w_last thread (run_id o) = Some view
    /\ w' = logged (RunFetched thread (run_id o)) w_last
    /\ out_status o = _normalize_status (status view)
    /\ out_last_error o = _serialize_error (last_error view)
    /\ status_in (out_status o) TERMINAL_STATUSES = true
    /\ succeeded o = status_in (out_status o) SUCCESS_STATUSES.
Proof.
  revert attempt b w.
  induction fuel as [|fuel IH]; intros attempt b w; [discriminate|].
  rewrite attempt_loop_step.
  destruct (attempt <=? max_attempts)%Z; [|discriminate].
  destruct (runs_create remote w thread agent_id) as [run|]; [|discriminate].
  cbv zeta.
  pose proof (poll_loop_post remote poll_interval max_attempts max_backoff endpoint
                thread pf run attempt b
                (clock (logged (RunCreated thread agent_id run) w) + timeout) None
                (logged (RunCreated thread agent_id run) w)) as Hpost.
  destruct (VerifyAgent.poll_loop _ _ _ _ _ _ _ _ _ _ _ _ _)
    as [[o1|a' b' rr] w1|e w1|] eqn:Epoll; try discriminate;
    cbv beta iota in Hpost.
  - intros [= -> ->].
    destruct (poll_loop_returns _ _ _ _ _ _ _ _ _ Epoll)
      as (evs & w_last & view & Hh & Hev & _ & Hget & Hw & Hrun & Hrest).
    subst run. exists [], evs, w_last, view.
    cbn [history logged] in Hh. rewrite Hh, <- !app_assoc.
    split; [reflexivity|]. split; [constructor|]. auto 10.
  - intros Hrest. destruct Hpost as (evs0 & Hh0 & Hev0 & _).
    destruct (IH _ _ _ Hrest)
      as (before & evs & w_last & view & Hh & Hbefore & Hrest').
    destruct (poll_events_quiet _ _ _ _ Hev0) as (_ & _ & _ & _ & _ & Hattempt).
    exists ([RunCreated thread agent_id run] ++ evs0
            ++ [Slept BackoffWait (py_min max_backoff b)] ++ before),
      evs, w_last, view.
    split.
    { rewrite Hh, Hh0. cbn [history logged]. now rewrite <- !app_assoc. }
    split; [|exact Hrest'].
    apply Forall_app. split; [repeat constructor|].
    apply Forall_app. split; [apply Hattempt|].
    apply Forall_app. split; [repeat constructor | exact Hbefore].
Qed.

End Loops.

(** X14: the outcome a call returns is read off the last thing the call
    did: a fetch of the run it created last, on the thread it created.
    The status is the normalized status of that fetch, the error its
    serialized error, [succeeded] says whether the status is a success
    status, and the endpoint is the stripped setting.  Between the creation
    of that run and this fetch the call only polled that run. *)
Theorem outcome_reports_last_fetch (fuel : nat) (remote : Remote)
    (env : gmap string string) (ticket : string) (poll_interval timeout : Q)
    (max_attempts : Z) (initial_backoff max_backoff : Q) (agent_id : string)
    (w w' : World) (o : Outcome) :
  verify_agent fuel remote env ticket poll_interval timeout max_attempts
    initial_backoff max_backoff agent_id w = Done o w' ->
  exists before evs w_last view,
    history w_last
    = history w
      ++ [ThreadCreated (thread_id o); MessageCreated (thread_id o) "user" ticket]
      ++ before ++ [RunCreated (thread_id o) agent_id (run_id o)] ++ evs
    /\ Forall (attempt_event (thread_id o) agent_id) before
    /\ Forall (poll_event (thread_id o) (run_id o) poll_interval) evs
    /\ runs_get remote w_last (thread_id o) (run_id o) = Some view
    /\ w' = logged (RunFetched (thread_id o) (run_id o)) w_last
    /\ out_status o = _normalize_status (status view)
    /\ out_last_error o = _serialize_error (last_error view)
    /\ succeeded o = status_in (out_status o) SUCCESS_STATUSES
    /\ threads_create remote w = Some (thread_id o)
    /\ exists value,
         env !! "AIFOUNDRY_PROJECT_ENDPOINT" = Some value
         /\ project_endpoint o = PyStr.strip value.
Proof.
  rewrite verify_agent_unfold.
  destruct (env !! "AIFOUNDRY_PROJECT_ENDPOINT") as [value|]; [|discriminate].
  destruct (String.eqb value ""); [discriminate|].
  destruct (threads_create remote w) as [thread|]; [|discriminate].
  cbv zeta.
  destruct (messages_create remote _ thread "user" ticket); [|discriminate].
  intros Hloop.
  pose proof (attempt_loop_post remote poll_interval timeout max_attempts max_backoff
                agent_id (PyStr.strip value) thread fuel fuel 1
                (py_max initial_backoff (poll_interval * 2))
                (logged (MessageCreated thread "user" ticket)
                   (logged (ThreadCreated thread) w))) as Hpost.
  rewrite Hloop in Hpost.
  destruct Hpost as (_ & _ & _ & _ & _ & Hthread & Hendpoint).
  destruct (attempt_loop_returns _ _ _ _ _ _ _ _ _ _ _ _ _ _ _ Hloop)
    as (before & evs & w_last & view & Hh & Hbefore & Hev & Hget & Hw & Hs & He
        & _ & Hsucc).
  rewrite Hthread. exists before, evs, w_last, view.
  cbn [history logged] in Hh. rewrite Hh, <- !app_assoc.
  split; [reflexivity|]. eauto 12.
Qed.

(** X13: a call takes bounded time.  With intervals that are not negative
    and [max_attempts >= 1], the clock at the end of a call, however it
    ends, is at most [max_attempts * timeout + (max_attempts - 1) *
    max_backoff + poll_interval] past the clock at its start, and never
    before it. *)
Theorem verify_agent_duration (fuel : nat) (remote : Remote)
    (env : gmap string string) (ticket : string) (poll_interval timeout : Q)
    (max_attempts : Z) (initial_backoff max_backoff : Q) (agent_id : string)
    (w w' : World) :
  0 <= poll_interval -> 0 <= timeout -> 0 <= max_backoff ->
  (1 <= max_attempts)%Z ->
  final_world
    (verify_agent fuel remote env ticket poll_interval timeout max_attempts
       initial_backoff max_backoff agent_id w) = Some w' ->
  clock w <= clock w'
  /\ clock w' - clock w
     <= inject_Z max_attempts * timeout
        + inject_Z (max_attempts - 1) * max_backoff + poll_interval.
Proof.
  intros Hp Ht Hm Hma.
  assert (HN : 0 <= inject_Z (max_attempts - 1)).
  { change 0 with (inject_Z 0). rewrite <- Zle_Qle. lia. }
  assert (HN1 : inject_Z max_attempts == inject_Z (max_attempts - 1) + 1).
  { replace max_attempts with (max_attempts - 1 + 1)%Z at 1 by lia.
    rewrite inject_Z_plus. reflexivity. }
  pose proof (Qmult_le_0_compat _ _ HN Ht) as HNt.
  pose proof (Qmult_le_0_compat _ _ HN Hm) as HNm.
  rewrite HN1.
  rewrite verify_agent_unfold.
  destruct (env !! "AIFOUNDRY_PROJECT_ENDPOINT") as [value|].
  2:{ intros [= <-]. split; lra. }
  destruct (String.eqb value "").
  { intros [= <-]. split; lra. }
  destruct (threads_create remote w) as [thread|].
  2:{ intros [= <-]. split; lra. }
  cbv zeta.
  destruct (messages_create remote _ thread "user" ticket).
  2:{ intros [= <-]. cbn [clock logged]. split; lra. }
  intros Hloop.
  destruct (attempt_loop_clock _ _ _ _ _ _ _ _ _ _ _ _ _ _ Hp Ht Hm Hma Hloop)
    as [H1 H2].
  cbn [clock logged] in H1, H2. split; lra.
Qed.

(** X12: a failure is retried only when it is classified as a rate limit
    and attempts are left.  When at most one attempt is allowed, or when no
    terminal failure the remote reports is classified as a rate limit, a
    call creates at most one run and never sleeps for backoff, however it
    ends. *)
Theorem no_retry_without_rate_limit (fuel : nat) (remote : Remote)
    (env : gmap string string) (ticket : string) (poll_interval timeout : Q)
    (max_attempts : Z) (initial_backoff max_backoff : Q) (agent_id : string)
    (w w' : World) :
  (max_attempts <= 1)%Z
  \/ (forall w t r view,
        runs_get remote w t r = Some view ->
        status_in (_normalize_status (status view)) TERMINAL_FAILURE_STATUSES = true ->
        _is_retryable_rate_limit (_serialize_error (last_error view)) = false) ->
  final_world
    (verify_agent fuel remote env ticket poll_interval timeout max_attempts
       initial_backoff max_backoff agent_id w) = Some w' ->
  exists new,
    history w' = history w ++ new
    /\ (count is_run_created new <= 1)%nat
    /\ backoff_sleeps new = [].
Proof.
  intros Hno. rewrite verify_agent_unfold.
  destruct (env !! "AIFOUNDRY_PROJECT_ENDPOINT") as [value|].
  2:{ intros [= <-]. exists []. rewrite app_nil_r. repeat split. cbn. lia. }
  destruct (String.eqb value "").
  { intros [= <-]. exists []. rewrite app_nil_r. repeat split. cbn. lia. }
  destruct (threads_create remote w) as [thread|].
  2:{ intros [= <-]. exists []. rewrite app_nil_r. repeat split. cbn. lia. }
  cbv zeta.
  destruct (messages_create remote _ thread "user" ticket).
  2:{ intros [= <-]. exists [ThreadCreated thread]. repeat split. cbn. lia. }
  intros Hloop.
  destruct (attempt_loop_single_run _ _ _ _ _ _ _ _ _ _ _ _ _ _ Hno Hloop)
    as (evs & Hh & Hc & Hb).
  exists ([ThreadCreated thread; MessageCreated thread "user" ticket] ++ evs).
  cbn [history logged] in Hh. rewrite Hh, <- !app_assoc. split; [reflexivity|].
  rewrite count_app, backoff_sleeps_app, Hb. split; [cbn; lia | reflexivity].
Qed.

(** X12 at a call against a remote whose runs fail for a reason other
    than a rate limit: three attempts allowed, one run created. *)
Lemma no_retry_without_rate_limit_witness :
  exists w' new,
    final_world
      (verify_agent 10 Scenarios.remote_fails Scenarios.env "VPN outage"
         1 5 3 7 30 "asst_triage" Scenarios.start) = Some w'
    /\ history w' = history Scenarios.start ++ new
    /\ (count is_run_created new <= 1)%nat
    /\ backoff_sleeps new = [].
Proof.
  assert (Hno : (3 <= 1)%Z
                \/ (forall w t r view,
                      runs_get Scenarios.remote_fails w t r = Some view ->
                      status_in (_normalize_status (status view))
                        TERMINAL_FAILURE_STATUSES = true ->
                      _is_retryable_rate_limit (_serialize_error (last_error view))
                      = false)).
  { right. intros w t r view [= <-] _. vm_compute. reflexivity. }
  eexists.
  assert (Hw : final_world
                 (verify_agent 10 Scenarios.remote_fails Scenarios.env "VPN outage"
                    1 5 3 7 30 "asst_triage" Scenarios.start) = Some ?[w'])
    by (vm_compute; reflexivity).
  destruct (no_retry_without_rate_limit 10 Scenarios.remote_fails Scenarios.env
              "VPN outage" 1 5 3 7 30 "asst_triage" Scenarios.start _ Hno Hw)
    as (new & H1 & H2 & H3).
  exists new. auto.
Defined.

(** X13 at a call with three attempts, all rate limited: the call ends
    within 3 * 5 + 2 * 30 + 1 seconds. *)
Lemma verify_agent_duration_witness :
  exists w',
    final_world
      (verify_agent 10 Scenarios.remote_rate_limited Scenarios.env "VPN outage"
         1 5 3 7 30 "asst_triage" Scenarios.start) = Some w'
    /\ clock Scenarios.start <= clock w'
    /\ clock w' - clock Scenarios.start
       <= inject_Z 3 * 5 + inject_Z (3 - 1) * 30 + 1.
Proof.
  assert (Hp : 0 <= 1) by lra.
  assert (Ht : 0 <= 5) by lra.
  assert (Hm : 0 <= 30) by lra.
  assert (Hma : (1 <= 3)%Z) by lia.
  eexists.
  assert (Hw : final_world
                 (verify_agent 10 Scenarios.remote_rate_limited Scenarios.env
                    "VPN outage" 1 5 3 7 30 "asst_triage" Scenarios.start)
               = Some ?[w'])
    by (vm_compute; reflexivity).
  split; [exact Hw|].
  exact (verify_agent_duration 10 Scenarios.remote_rate_limited Scenarios.env
           "VPN outage" 1 5 3 7 30 "asst_triage" Scenarios.start _ Hp Ht Hm Hma Hw).
Defined.

(** X14 at a call whose first run is rate limited and whose second
    completes: the outcome is read off the fetch of the second run. *)
Lemma outcome_reports_last_fetch_witness :
  exists o w',
    verify_agent 10 Scenarios.remote_recovers Scenarios.env "VPN outage"
      1 5 3 7 30 "asst_triage" Scenarios.start = Done o w'
    /\ run_id o = "run_1"
    /\ exists before evs w_last view,
         history w_last
         = history Scenarios.start
           ++ [ThreadCreated (thread_id o);
               MessageCreated (thread_id o) "user" "VPN outage"]
           ++ before ++ [RunCreated (thread_id o) "asst_triage" (run_id o)] ++ evs
         /\ Forall (attempt_event (thread_id o) "asst_triage") before
         /\ Forall (poll_event (thread_id o) (run_id o) 1) evs
         /\ runs_get Scenarios.remote_recovers w_last (thread_id o) (run_id o)
            = Some view
         /\ w' = logged (RunFetched (thread_id o) (run_id o)) w_last
         /\ out_status o = _normalize_status (status view)
         /\ out_last_error o = _serialize_error (last_error view)
         /\ succeeded o = status_in (out_status o) SUCCESS_STATUSES
         /\ threads_create Scenarios.remote_recovers Scenarios.start
            = Some (thread_id o)
         /\ exists value,
              Scenarios.env !! "AIFOUNDRY_PROJECT_ENDPOINT" = Some value
              /\ project_endpoint o = PyStr.strip value.
Proof.
  eexists _, _. split; [vm_compute; reflexivity|]. split; [reflexivity|].
  apply (outcome_reports_last_fetch 10 Scenarios.remote_recovers Scenarios.env
           "VPN outage" 1 5 3 7 30 "asst_triage" Scenarios.start).
  vm_compute; reflexivity.
Defined.

(** A run that fails for a reason other than a rate limit is reported at
    once, with [succeeded] false. *)
Example scenario_fails :
  exists o w',
    verify_agent 10 Scenarios.remote_fails Scenarios.env "VPN outage"
      1 5 3 7 30 "asst_triage" Scenarios.start = Done o w'
    /\ succeeded o = false
    /\ out_status o = Some "failed"
    /\ out_last_error o = OStr "server_error: internal failure"
    /\ count is_run_created (history w') = 1%nat.
Proof. eexists _, _. split; [vm_compute; reflexivity|]. repeat split. Qed.

End DriverFacts.

(** ** The transcript and the role filter *)

Module TranscriptFacts.
Import PyStr PyStrFacts VerifyAgent TestAllAgents.

(** A content item contributes a text that is not empty, or nothing. *)
Lemma item_part_nonempty (item : ContentItem) (v : string) :
  item_part item = Some v -> v <> "".
Proof.
  unfold item_part.
  destruct (item_text item) as [t|].
  - destruct (String.eqb_spec t ""); [discriminate|]. now intros [= <-].
  - destruct (item_input_text item) as [a|].
    + destruct (String.eqb_spec a ""); [|now intros [= <-]].
      destruct (item_content item) as [c|].
      * destruct (String.eqb_spec c ""); [|now intros [= <-]].
        destruct (item_value item) as [x|]; [|discriminate].
        destruct (String.eqb_spec x ""); [discriminate|]. now intros [= <-].
      * destruct (item_value item) as [x|]; [|discriminate].
        destruct (String.eqb_spec x ""); [discriminate|]. now intros [= <-].
    + destruct (item_content item) as [c|].
      * destruct (String.eqb_spec c ""); [|now intros [= <-]].
        destruct (item_value item) as [x|]; [|discriminate].
        destruct (String.eqb_spec x ""); [discriminate|]. now intros [= <-].
      * destruct (item_value item) as [x|]; [|discriminate].
        destruct (String.eqb_spec x ""); [discriminate|]. now intros [= <-].
Qed.

Lemma parts_nonempty (items : list ContentItem) :
  Forall (fun part => part <> "") (omap item_part items).
Proof.
  induction items as [|item items IH]; [constructor|].
  cbn [omap list_omap]. destruct (item_part item) as [v|] eqn:E; [|exact IH].
  constructor; [exact (item_part_nonempty _ _ E) | exact IH].
Qed.

Lemma parts_none (items : list ContentItem) :
  Forall (fun item => item_part item = None) items -> omap item_part items = [].
Proof.
  induction 1 as [|item items Hitem _ IH]; [reflexivity|].
  cbn [omap list_omap]. now rewrite Hitem.
Qed.

Lemma join_nonempty (sep : string) (parts : list string) :
  parts <> [] -> Forall (fun part => part <> "") parts -> join sep parts <> "".
Proof.
  destruct parts as [|p rest]; [congruence|]. intros _ Hparts.
  apply Forall_cons_1 in Hparts as [Hp _].
  destruct p as [|c p]; [congruence|].
  cbn [join]. destruct rest; discriminate.
Qed.

(** The line of a message: the role in brackets, a space, and a body that
    is never empty. *)
Lemma message_line_body (m : Message) :
  exists body,
    message_line m = "[" ++ default "unknown" (role m) ++ "] " ++ body
    /\ body <> ""
    /\ (Forall (fun item => item_part item = None) (content m) ->
        body = "<no text content>").
Proof.
  unfold message_line. cbv zeta.
  destruct (omap item_part (content m)) as [|p rest] eqn:E.
  - exists "<no text content>". split; [reflexivity|]. split; [discriminate|auto].
  - exists (join (String "010"%char "") (p :: rest)). split; [reflexivity|]. split.
    + apply join_nonempty; [discriminate|]. rewrite <- E. apply parts_nonempty.
    + intros Hnone. rewrite (parts_none _ Hnone) in E. discriminate.
Qed.

(** X15: the transcript has one line for each message of the thread, in
    the order of the listing, each the role in brackets, a space and a
    body that is never empty (the placeholder when no item contributes);
    an item whose [text] is present contributes that text or nothing,
    never one of its other attributes; a listing that fails raises. *)
Theorem thread_messages_lines (remote : Remote) (endpoint thread : string)
    (w : World) :
  match messages_list remote w thread with
  | Some messages =>
      exists lines,
        _iter_thread_messages remote endpoint thread w
        = Done lines (logged (MessagesListed thread) w)
        /\ length lines = length messages
        /\ forall i m,
             messages !! i = Some m ->
             exists body,
               lines !! i = Some ("[" ++ default "unknown" (role m) ++ "] " ++ body)
               /\ body <> ""
               /\ (Forall (fun item => item_part item = None) (content m) ->
                   body = "<no text content>")
  | None =>
      _iter_thread_messages remote endpoint thread w
      = Raised (SdkError MessagesList) w
  end
  /\ (forall item t,
        item_text item = Some t ->
        item_part item = if String.eqb t "" then None else Some t)
  /\ (forall item v, item_part item = Some v -> v <> "").
Proof.
  split; [|split].
  - cbv [_iter_thread_messages bind sdk_call ret].
    destruct (messages_list remote w thread) as [messages|]; [|reflexivity].
    exists (map message_line messages). split; [reflexivity|].
    split; [apply length_map|].
    intros i m Hm. destruct (message_line_body m) as (body & Hline & Hbody).
    exists body. split; [|exact Hbody].
    now rewrite list_lookup_fmap, Hm, <- Hline.
  - intros item t Ht. unfold item_part. now rewrite Ht.
  - exact item_part_nonempty.
Qed.

Lemma string_append_assoc (a b c : string) : (a ++ b) ++ c = a ++ b ++ c.
Proof.
  induction a as [|x a IH]; [reflexivity|].
  change ((String x a ++ b) ++ c) with (String x ((a ++ b) ++ c)).
  change (String x a ++ b ++ c) with (String x (a ++ b ++ c)).
  now rewrite IH.
Qed.

Lemma eqb_bracket_lower_char (c : ascii) :
  Ascii.eqb "]"%char (lower_char c) = Ascii.eqb "]"%char c.
Proof. destruct c as [[] [] [] [] [] [] [] []]; reflexivity. Qed.

Lemma contains_bracket_lower (s : string) : contains "]" (lower s) = contains "]" s.
Proof.
  induction s as [|c t IH]; [reflexivity|].
  change (lower (String c t)) with (String (lower_char c) (lower t)).
  now rewrite !EnvSetupFacts.contains_char_cons, eqb_bracket_lower_char, IH.
Qed.

(** Two texts without a closing bracket, each followed by one: when the
    first is a prefix of the second, they are equal. *)
Lemma bracket_prefix (p s t : string) :
  contains "]" p = false ->
  contains "]" s = false ->
  startswith (p ++ "]") (s ++ String "]" t) = true ->
  p = s.
Proof.
  revert s. induction p as [|a p IH]; intros [|b s].
  - reflexivity.
  - intros _ Hs.
    rewrite EnvSetupFacts.contains_char_cons in Hs.
    change (startswith ("" ++ "]") (String b s ++ String "]" t))
      with (if Ascii.eqb "]" b then startswith "" (s ++ String "]" t) else false).
    destruct (Ascii.eqb "]" b); discriminate.
  - intros Hp _.
    rewrite EnvSetupFacts.contains_char_cons in Hp.
    change (startswith (String a p ++ "]") ("" ++ String "]" t))
      with (if Ascii.eqb a "]" then startswith (p ++ "]") t else false).
    rewrite Ascii.eqb_sym. destruct (Ascii.eqb "]" a); discriminate.
  - intros Hp Hs.
    rewrite EnvSetupFacts.contains_char_cons in Hp, Hs.
    change (startswith (String a p ++ "]") (String b s ++ String "]" t))
      with (if Ascii.eqb a b then startswith (p ++ "]") (s ++ String "]" t) else false).
    destruct (Ascii.eqb_spec a b) as [->|]; [|discriminate].
    destruct (Ascii.eqb "]" b); [discriminate|].
    intros H. f_equal. now apply IH.
Qed.

(** The line of a message, in lower case. *)
Lemma lower_message_line (m : Message) :
  exists rest,
    lower (message_line m)
    = String "[" (lower (default "unknown" (role m)) ++ String "]" rest).
Proof.
  destruct (message_line_body m) as (body & -> & _).
  exists (String " " (lower body)).
  now rewrite !lower_app.
Qed.

(** X16: the role filter on the lines of the transcript.  The line of a
    message whose role is "assistant", in any case of the letters, or
    whose role contains "MessageRole.AGENT", is an agent line; the line of
    a message with another role (one without a closing bracket), or with
    no role, is an agent line only when it contains "MessageRole.AGENT",
    be it in the body. *)
Theorem agent_line_of_message (m : Message) :
  (forall r, role m = Some r -> lower r = "assistant" ->
             is_agent_line (message_line m) = true)
  /\ (forall r, role m = Some r -> is_substring "MessageRole.AGENT" r ->
                is_agent_line (message_line m) = true)
  /\ (forall r, role m = Some r -> contains "]" r = false ->
                lower r <> "assistant" ->
                is_agent_line (message_line m)
                = contains "MessageRole.AGENT" (message_line m))
  /\ (role m = None ->
      is_agent_line (message_line m) = contains "MessageRole.AGENT" (message_line m)).
Proof.
  unfold is_agent_line.
  destruct (lower_message_line m) as (rest & Hlower). rewrite Hlower.
  split; [|split; [|split]].
  - intros r -> Hr. cbn [default from_option id]. rewrite Hr.
    apply orb_true_iff. right. reflexivity.
  - intros r Hrole (pre & post & Hr).
    apply orb_true_iff. left. apply contains_spec.
    destruct (message_line_body m) as (body & -> & _).
    rewrite Hrole. cbn [default from_option id]. rewrite Hr.
    exists ("[" ++ pre), (post ++ "] " ++ body).
    now rewrite !string_append_assoc.
  - intros r -> Hr Hne. cbn [default from_option id].
    destruct (startswith "[assistant]" _) eqn:E; [|apply orb_false_r].
    exfalso. apply Hne. symmetry.
    apply (bracket_prefix "assistant" (lower r) rest);
      [reflexivity | now rewrite contains_bracket_lower | exact E].
  - intros ->. cbn [default from_option id]. apply orb_false_r.
Qed.

Lemma filter_agent_lines_idem (transcript : list string) :
  List.filter is_agent_line (List.filter is_agent_line transcript)
  = List.filter is_agent_line transcript.
Proof. apply forallb_filter_id, forallb_filter. Qed.

Lemma extract_agent_lines_filter (transcript : list string) :
  _extract_agent_lines transcript
  = match List.filter is_agent_line transcript with
    | [] => transcript
    | agent_lines => agent_lines
    end.
Proof.
  unfold _extract_agent_lines.
  now rewrite FilterFacts.collect_agent_lines_filter.
Qed.

(** X17: filtering the agent lines twice is filtering them once; the
    result is empty only for an empty transcript, holds only lines of the
    transcript and no more of them than it has; when some line of the
    transcript is an agent line, every line of the result is one. *)
Theorem extract_agent_lines_idempotent (transcript : list string) :
  _extract_agent_lines (_extract_agent_lines transcript)
  = _extract_agent_lines transcript
  /\ (_extract_agent_lines transcript = [] <-> transcript = [])
  /\ (length (_extract_agent_lines transcript) <= length transcript)%nat
  /\ (forall line, In line (_extract_agent_lines transcript) -> In line transcript)
  /\ ((exists line, In line transcript /\ is_agent_line line = true) ->
      Forall (fun line => is_agent_line line = true) (_extract_agent_lines transcript)).
Proof.
  rewrite !extract_agent_lines_filter.
  destruct (List.filter is_agent_line transcript) as [|l ls] eqn:E.
  - rewrite E. split; [reflexivity|]. split; [reflexivity|].
    split; [reflexivity|]. split; [auto|].
    intros (line & Hin & Hline).
    assert (Hf : In line (List.filter is_agent_line transcript))
      by (apply filter_In; auto).
    rewrite E in Hf. destruct Hf.
  - rewrite <- E, filter_agent_lines_idem, E. split; [reflexivity|]. split.
    { split; [discriminate|]. intros ->. discriminate. }
    rewrite <- E. split; [apply filter_length_le|]. split.
    + intros line Hin. now apply filter_In in Hin.
    + intros _. apply Forall_forall. intros line Hin.
      apply list_elem_of_In in Hin. now apply filter_In in Hin.
Qed.

(** A message of the user that quotes the marker is taken for a line of
    the agent. *)
Example user_line_with_marker :
  is_agent_line
    (message_line
       {| role := Some "user";
          content := [ {| item_text := Some "what is MessageRole.AGENT?";
                          item_input_text := None; item_content := None;
                          item_value := None |} ] |}) = true.
Proof. reflexivity. Qed.

End TranscriptFacts.

(** ** The normalized status *)

Module StatusFacts.
Import PyStr PyStrFacts VerifyAgent.

(** X18: what [_normalize_status] gives is in normal form: it has no
    upper-case letter, no white space at its ends and no separator, and it
    is [None] only for [None].  A text that ends with the separator
    normalizes to the empty string, which is no terminal status. *)
Theorem normalize_status_output (value : option string) :
  match _normalize_status value with
  | Some out =>
      lower out = out /\ strip out = out /\ contains "." out = false
      /\ value <> None
  | None => value = None
  end
  /\ (forall pre,
        _normalize_status (Some (pre ++ ".")) = Some ""
        /\ status_in (_normalize_status (Some (pre ++ "."))) TERMINAL_STATUSES = false).
Proof.
  split.
  - destruct value as [text|]; [|reflexivity].
    destruct (ClassifierFacts.normalize_status_text text) as (seg & Hseg & _ & ->).
    split; [apply lower_idem|].
    split; [now rewrite strip_lower, strip_idem|].
    split; [|discriminate].
    rewrite contains_dot_lower. unfold strip.
    now apply contains_dot_rstrip, contains_dot_lstrip.
  - intros pre.
    assert (H : _normalize_status (Some (pre ++ ".")) = Some "").
    { unfold _normalize_status.
      assert (contains "." (pre ++ ".") = true) as ->
        by (apply contains_spec; now exists pre, "").
      change (pre ++ ".") with (pre ++ String "."%char "").
      now rewrite last_split_app. }
    rewrite H. split; reflexivity.
Qed.

End StatusFacts.

(** ** The harness: failures, exit status and termination *)

Module HarnessRunFacts.
Import VerifyAgent TestAllAgents.

Local Open Scope list_scope.

(** One turn of the harness, spelled out. *)
Lemma run_one_agent_unfold (fuel : nat) (remote : Remote) (env : gmap string string)
    (ticket : string) (poll_interval timeout : Q) (max_attempts : Z)
    (initial_backoff max_backoff : Q) (env_var : string) (w : World) :
  run_one_agent fuel remote env ticket poll_interval timeout max_attempts
    initial_backoff max_backoff env_var w =
  match env !! env_var with
  | None => Raised (SystemExit env_var) w
  | Some value =>
      if String.eqb value "" then Raised (SystemExit env_var) w
      else
        match verify_agent fuel remote env ticket poll_interval timeout max_attempts
                initial_backoff max_backoff (PyStr.strip value) w with
        | Done o w0 =>
            match messages_list remote w0 (thread_id o) with
            | Some messages =>
                Done (_extract_agent_lines (map message_line messages))
                  (logged (MessagesListed (thread_id o)) w0)
            | None => Raised (SdkError MessagesList) w0
            end
        | Raised e w0 => Raised e w0
        | OutOfFuel => OutOfFuel
        end
  end.
Proof.
  unfold run_one_agent, TestAllAgents._require_env.
  unfold bind at 1.
  destruct (env !! env_var) as [value|]; [|reflexivity].
  destruct (String.eqb value ""); [reflexivity|].
  unfold ret at 1. unfold bind at 1.
  destruct (verify_agent _ _ _ _ _ _ _ _ _ _ w) as [o w0|e0 w0|]; try reflexivity.
  cbv [bind _iter_thread_messages sdk_call ret].
  destruct (messages_list remote w0 (thread_id o)); reflexivity.
Qed.

Section Harness.

Variable fuel : nat.
Variable remote : Remote.
Variable env : gmap string string.
Variable ticket : string.
Variables (poll_interval timeout : Q) (max_attempts : Z).
Variables (initial_backoff max_backoff : Q).

Abbreviation for_each_agent :=
  (for_each_agent fuel remote env ticket poll_interval timeout max_attempts
     initial_backoff max_backoff).
Abbreviation run_one_agent :=
  (run_one_agent fuel remote env ticket poll_interval timeout max_attempts
     initial_backoff max_backoff).
Abbreviation test_agents :=
  (test_agents fuel remote env ticket poll_interval timeout max_attempts
     initial_backoff max_backoff).
Abbreviation call_for aid :=
  (verify_agent fuel remote env ticket poll_interval timeout max_attempts
     initial_backoff max_backoff aid).

(** The loop over a list of agents followed by another. *)
Lemma for_each_agent_app (items1 items2 : odict string)
    (outputs : odict (list string)) (w : World) :
  for_each_agent (items1 ++ items2) outputs w =
  match for_each_agent items1 outputs w with
  | Done outputs1 w1 => for_each_agent items2 outputs1 w1
  | Raised e w1 => Raised e w1
  | OutOfFuel => OutOfFuel
  end.
Proof.
  revert outputs w. induction items1 as [|[agent_name env_var] rest IH];
    intros outputs w; [reflexivity|].
  change (((agent_name, env_var) :: rest) ++ items2)
    with ((agent_name, env_var) :: (rest ++ items2)).
  rewrite !HarnessFacts.for_each_agent_step.
  destruct (run_one_agent env_var w) as [lines w1|e w1|]; [apply IH | | ]; reflexivity.
Qed.

(** The loop raises in the first turn that raises. *)
Lemma for_each_agent_raises (items : odict string) (outputs : odict (list string))
    (w w' : World) (e : exn) :
  for_each_agent items outputs w = Raised e w'
  <-> exists before agent_name env_var after outputs0 w0,
        items = before ++ (agent_name, env_var) :: after
        /\ for_each_agent before outputs w = Done outputs0 w0
        /\ run_one_agent env_var w0 = Raised e w'.
Proof.
  split.
  - revert outputs w. induction items as [|[agent_name env_var] rest IH];
      intros outputs w; [discriminate|].
    rewrite HarnessFacts.for_each_agent_step.
    destruct (run_one_agent env_var w) as [lines w1|e1 w1|] eqn:Eone;
      [|intros [= <- <-]|discriminate].
    + intros Hrest.
      destruct (IH _ _ Hrest)
        as (before & name & var & after & outputs0 & w0 & -> & Hbefore & Hturn).
      exists ((agent_name, env_var) :: before), name, var, after, outputs0, w0.
      split; [reflexivity|]. split; [|exact Hturn].
      now rewrite HarnessFacts.for_each_agent_step, Eone.
    + exists [], agent_name, env_var, rest, outputs, w. auto.
  - intros (before & name & var & after & outputs0 & w0 & -> & Hbefore & Hturn).
    rewrite for_each_agent_app, Hbefore, HarnessFacts.for_each_agent_step.
    now rewrite Hturn.
Qed.

(** How a turn raises: the setting of its agent is missing, the call for
    the agent raises, or the listing of the messages does. *)
Lemma run_one_agent_raises (env_var : string) (w w' : World) (e : exn) :
  run_one_agent env_var w = Raised e w'
  <-> ((env !! env_var = None \/ env !! env_var = Some "")
       /\ e = SystemExit env_var /\ w' = w)
      \/ exists value,
           env !! env_var = Some value /\ value <> ""
           /\ (call_for (PyStr.strip value) w = Raised e w'
               \/ exists o,
                    call_for (PyStr.strip value) w = Done o w'
                    /\ messages_list remote w' (thread_id o) = None
                    /\ e = SdkError MessagesList).
Proof.
  unfold TestAllAgents.run_one_agent, TestAllAgents._require_env.
  unfold bind at 1.
  destruct (env !! env_var) as [value|].
  2:{ split.
      - intros [= <- <-]. left. auto.
      - intros [(_ & -> & ->) | (value & Hv & _)]; [reflexivity | discriminate]. }
  destruct (String.eqb_spec value "") as [->|Hne].
  { split.
    - intros [= <- <-]. left. auto.
    - intros [(_ & -> & ->) | (value & [= <-] & Hne & _)];
        [reflexivity | contradiction]. }
  unfold ret at 1. unfold bind at 1.
  destruct (verify_agent _ _ _ _ _ _ _ _ _ _ w) as [o w0|e0 w0|] eqn:Ecall.
  - cbv [bind _iter_thread_messages sdk_call ret].
    destruct (messages_list remote w0 (thread_id o)) as [messages|] eqn:El.
    + split; [discriminate|].
      intros [([H|H] & _) | (v & Hv & _ & Hcases)]; [congruence | congruence |].
      injection Hv as <-. rewrite Ecall in Hcases.
      destruct Hcases as [H | (o' & H & Hl & _)]; [discriminate|].
      injection H as <- <-. congruence.
    + split.
      * intros [= <- <-]. right. exists value. eauto 10.
      * intros [([H|H] & _) | (v & Hv & _ & Hcases)]; [congruence | congruence |].
        injection Hv as <-. rewrite Ecall in Hcases.
        destruct Hcases as [H | (o' & H & _ & ->)]; [discriminate|].
        now injection H as <- <-.
  - split.
    + intros [= <- <-]. right. exists value. auto.
    + intros [([H|H] & _) | (v & Hv & _ & Hcases)]; [congruence | congruence |].
      injection Hv as <-. rewrite Ecall in Hcases.
      destruct Hcases as [H | (o' & H & _)]; [|discriminate].
      now injection H as <- <-.
  - split; [discriminate|].
    intros [([H|H] & _) | (v & Hv & _ & Hcases)]; [congruence | congruence |].
    injection Hv as <-. rewrite Ecall in Hcases.
    destruct Hcases as [H | (o' & H & _)]; discriminate.
Qed.

(** X19: the harness raises exactly when the endpoint setting is missing,
    and then nothing is run, or when a turn raises after the turns before
    it all succeeded; it raises the exception of that turn, in the world
    that turn ended in, and the agents after it are not run.  A turn
    raises when the setting of its agent is missing (it is looked up only
    when the turn begins), when the call for the agent raises, or when
    the listing of the messages does. *)
Theorem test_agents_stops_at_first_failure (w w' : World) (e : exn) :
  (test_agents w = Raised e w'
   <-> ((env !! "AIFOUNDRY_PROJECT_ENDPOINT" = None
         \/ env !! "AIFOUNDRY_PROJECT_ENDPOINT" = Some "")
        /\ e = SystemExit "AIFOUNDRY_PROJECT_ENDPOINT" /\ w' = w)
       \/ ((exists value, env !! "AIFOUNDRY_PROJECT_ENDPOINT" = Some value
                          /\ value <> "")
           /\ exists before agent_name env_var after outputs0 w0,
                agent_env_map = before ++ (agent_name, env_var) :: after
                /\ for_each_agent before [] w = Done outputs0 w0
                /\ run_one_agent env_var w0 = Raised e w'))
  /\ (forall env_var w0 w1 e1,
        run_one_agent env_var w0 = Raised e1 w1
        <-> ((env !! env_var = None \/ env !! env_var = Some "")
             /\ e1 = SystemExit env_var /\ w1 = w0)
            \/ exists value,
                 env !! env_var = Some value /\ value <> ""
                 /\ (call_for (PyStr.strip value) w0 = Raised e1 w1
                     \/ exists o,
                          call_for (PyStr.strip value) w0 = Done o w1
                          /\ messages_list remote w1 (thread_id o) = None
                          /\ e1 = SdkError MessagesList)).
Proof.
  split; [|intros; apply run_one_agent_raises].
  unfold TestAllAgents.test_agents, TestAllAgents._require_env.
  unfold bind at 1.
  destruct (env !! "AIFOUNDRY_PROJECT_ENDPOINT") as [value|].
  2:{ split.
      - intros [= <- <-]. left. auto.
      - intros [(_ & -> & ->) | ((value & Hv & _) & _)]; [reflexivity | discriminate]. }
  destruct (String.eqb_spec value "") as [->|Hne].
  { split.
    - intros [= <- <-]. left. auto.
    - intros [(_ & -> & ->) | ((value & [= <-] & Hne) & _)];
        [reflexivity | contradiction]. }
  unfold ret at 1. rewrite for_each_agent_raises. split.
  - intros H. right. split; [eauto | exact H].
  - intros [([H|H] & _) | (_ & H)]; [discriminate | congruence | exact H].
Qed.

(** The attempt loop lists no messages. *)
Lemma attempt_events_no_listing (thread agent_id : string) (evs : list Event) :
  Forall (attempt_event thread agent_id) evs ->
  count (fun e => match e with MessagesListed _ => true | _ => false end) evs = 0%nat.
Proof.
  induction 1 as [|e evs He _ IH]; [reflexivity|].
  destruct e; try contradiction; exact IH.
Qed.

(** What a turn that succeeds does to the remote: one thread, one message
    with the ticket, at least one run and at most [max_attempts], one
    listing of the messages, and nothing deleted. *)
Lemma run_one_agent_events (env_var : string) (lines : list string) (w w' : World) :
  run_one_agent env_var w = Done lines w' ->
  exists new,
    history w' = history w ++ new
    /\ count is_thread_created new = 1%nat
    /\ count is_message_created new = 1%nat
    /\ count (fun e => match e with MessagesListed _ => true | _ => false end) new
       = 1%nat
    /\ count is_deleted new = 0%nat
    /\ (1 <= count is_run_created new)%nat
    /\ (Z.of_nat (count is_run_created new) <= Z.max 0 max_attempts)%Z.
Proof.
  rewrite run_one_agent_unfold.
  destruct (env !! env_var) as [value|]; [|discriminate].
  destruct (String.eqb value ""); [discriminate|].
  pose proof (RunDriverFacts.verify_agent_post fuel remote env ticket poll_interval
                timeout max_attempts initial_backoff max_backoff
                (PyStr.strip value) w) as Hpost.
  cbv zeta in Hpost.
  destruct (verify_agent _ _ _ _ _ _ _ _ _ _ w) as [o w0|e0 w0|]; try discriminate.
  destruct (Hpost w0 eq_refl)
    as (thread & pre & evs & Hh & Hev & _ & Hmax & -> & Hruns & _).
  destruct (messages_list remote w0 (thread_id o)); [|discriminate].
  intros [= _ <-].
  destruct (RunDriverFacts.attempt_events_facts _ _ _ Hev) as (Ht & Hm & Hd & _).
  pose proof (attempt_events_no_listing _ _ _ Hev) as Hl.
  exists ([ThreadCreated thread; MessageCreated thread "user" ticket] ++ evs
          ++ [MessagesListed (thread_id o)]).
  cbn [history logged]. rewrite Hh, <- !app_assoc.
  split; [reflexivity|].
  rewrite !RunDriverFacts.count_app, Ht, Hm, Hd, Hl, Hruns. cbn.
  repeat split; lia.
Qed.

(** The same for a series of turns that all succeed. *)
Lemma for_each_agent_events (items : odict string)
    (outputs outputs' : odict (list string)) (w w' : World) :
  for_each_agent items outputs w = Done outputs' w' ->
  exists new,
    history w' = history w ++ new
    /\ count is_thread_created new = length items
    /\ count is_message_created new = length items
    /\ count (fun e => match e with MessagesListed _ => true | _ => false end) new
       = length items
    /\ count is_deleted new = 0%nat
    /\ (length items <= count is_run_created new)%nat
    /\ (Z.of_nat (count is_run_created new)
        <= Z.of_nat (length items) * Z.max 0 max_attempts)%Z.
Proof.
  revert outputs w. induction items as [|[agent_name env_var] rest IH];
    intros outputs w.
  - intros [= _ <-]. exists []. rewrite app_nil_r. cbn. repeat split; lia.
  - rewrite HarnessFacts.for_each_agent_step.
    destruct (run_one_agent env_var w) as [lines w1|e w1|] eqn:Eone; try discriminate.
    intros Hrest.
    destruct (run_one_agent_events _ _ _ _ Eone)
      as (new1 & Hh1 & Ht1 & Hm1 & Hl1 & Hd1 & Hr1 & Hr1').
    destruct (IH _ _ Hrest) as (new2 & Hh2 & Ht2 & Hm2 & Hl2 & Hd2 & Hr2 & Hr2').
    exists (new1 ++ new2). rewrite Hh2, Hh1, <- app_assoc.
    split; [reflexivity|].
    rewrite !RunDriverFacts.count_app, Ht1, Ht2, Hm1, Hm2, Hl1, Hl2, Hd1, Hd2.
    cbn [length]. repeat split; lia.
Qed.

(** X22: a harness that returns has created four threads, one for each
    agent, and four messages, listed the messages four times, created at
    least four runs and at most four times [max_attempts], and deleted
    nothing. *)
Theorem test_agents_side_effects (w w' : World) (outputs : odict (list string)) :
  test_agents w = Done outputs w' ->
  exists new,
    history w' = history w ++ new
    /\ count is_thread_created new = 4%nat
    /\ count is_message_created new = 4%nat
    /\ count (fun e => match e with MessagesListed _ => true | _ => false end) new
       = 4%nat
    /\ count is_deleted new = 0%nat
    /\ (4 <= count is_run_created new)%nat
    /\ (Z.of_nat (count is_run_created new) <= 4 * Z.max 0 max_attempts)%Z.
Proof.
  unfold TestAllAgents.test_agents, TestAllAgents._require_env.
  unfold bind at 1.
  destruct (env !! "AIFOUNDRY_PROJECT_ENDPOINT") as [value|]; [|discriminate].
  destruct (String.eqb value ""); [discriminate|]. unfold ret at 1.
  intros H. exact (for_each_agent_events _ _ _ _ _ H).
Qed.

(** The names of the mapping the harness returns. *)
Lemma test_agents_keys (w w' : World) (outputs : odict (list string)) :
  test_agents w = Done outputs w' ->
  keys outputs = ["priority"; "team"; "effort"; "triage"].
Proof.
  unfold TestAllAgents.test_agents, TestAllAgents._require_env, agent_env_map.
  unfold bind at 1.
  destruct (env !! "AIFOUNDRY_PROJECT_ENDPOINT") as [value|]; [|discriminate].
  destruct (String.eqb value ""); [discriminate|]. unfold ret at 1.
  rewrite HarnessFacts.for_each_agent_step.
  destruct (run_one_agent "PRIORITY_AGENT_ID" w) as [l1 w1|e w1|]; try discriminate.
  rewrite HarnessFacts.for_each_agent_step.
  destruct (run_one_agent "TEAM_AGENT_ID" w1) as [l2 w2|e w2|]; try discriminate.
  rewrite HarnessFacts.for_each_agent_step.
  destruct (run_one_agent "EFFORT_AGENT_ID" w2) as [l3 w3|e w3|]; try discriminate.
  rewrite HarnessFacts.for_each_agent_step.
  destruct (run_one_agent "TRIAGE_AGENT_ID" w3) as [l4 w4|e w4|]; try discriminate.
  cbn. now intros [= <- <-].
Qed.

(** A turn ends when the polling interval is positive. *)
Lemma run_one_agent_ends (env_var : string) (w : World) :
  (0 < poll_interval)%Q ->
  (enough_fuel poll_interval timeout max_attempts <= fuel)%nat ->
  run_one_agent env_var w <> OutOfFuel.
Proof.
  intros Hp Hf. unfold TestAllAgents.run_one_agent, TestAllAgents._require_env.
  unfold bind at 1.
  destruct (env !! env_var) as [value|]; [|discriminate].
  destruct (String.eqb value ""); [discriminate|].
  unfold ret at 1. unfold bind at 1.
  pose proof (RunDriverFacts.verify_agent_ends fuel remote env ticket poll_interval
                timeout max_attempts initial_backoff max_backoff (PyStr.strip value) w
                Hp Hf) as Hends.
  destruct (verify_agent _ _ _ _ _ _ _ _ _ _ w) as [o w0|e0 w0|];
    [|discriminate|contradiction].
  cbv [bind _iter_thread_messages sdk_call ret].
  destruct (messages_list remote w0 (thread_id o)); discriminate.
Qed.

Lemma for_each_agent_ends (items : odict string) (outputs : odict (list string))
    (w : World) :
  (0 < poll_interval)%Q ->
  (enough_fuel poll_interval timeout max_attempts <= fuel)%nat ->
  for_each_agent items outputs w <> OutOfFuel.
Proof.
  intros Hp Hf. revert outputs w.
  induction items as [|[agent_name env_var] rest IH]; intros outputs w; [discriminate|].
  rewrite HarnessFacts.for_each_agent_step.
  pose proof (run_one_agent_ends env_var w Hp Hf) as Hends.
  destruct (run_one_agent env_var w) as [lines w1|e w1|];
    [apply IH | discriminate | contradiction].
Qed.

(** More fuel does not change a turn that ended. *)
Lemma run_one_agent_more_fuel (fuel' : nat) (env_var : string) (w : World) :
  (fuel <= fuel')%nat ->
  run_one_agent env_var w <> OutOfFuel ->
  TestAllAgents.run_one_agent fuel' remote env ticket poll_interval timeout
    max_attempts initial_backoff max_backoff env_var w
  = run_one_agent env_var w.
Proof.
  intros Hle. rewrite !run_one_agent_unfold.
  destruct (env !! env_var) as [value|]; [|reflexivity].
  destruct (String.eqb value ""); [reflexivity|].
  pose proof (RunDriverFacts.verify_agent_more_fuel fuel remote env ticket
                poll_interval timeout max_attempts initial_backoff max_backoff
                (PyStr.strip value) w fuel' Hle) as Hmore.
  destruct (verify_agent fuel _ _ _ _ _ _ _ _ _ w) as [o w0|e0 w0|].
  - intros _. rewrite Hmore by discriminate. reflexivity.
  - intros _. rewrite Hmore by discriminate. reflexivity.
  - intros H. now destruct H.
Qed.

Lemma for_each_agent_more_fuel (fuel' : nat) (items : odict string)
    (outputs : odict (list string)) (w : World) :
  (fuel <= fuel')%nat ->
  for_each_agent items outputs w <> OutOfFuel ->
  TestAllAgents.for_each_agent fuel' remote env ticket poll_interval timeout
    max_attempts initial_backoff max_backoff items outputs w
  = for_each_agent items outputs w.
Proof.
  intros Hle. revert outputs w.
  induction items as [|[agent_name env_var] rest IH]; intros outputs w; [reflexivity|].
  rewrite !HarnessFacts.for_each_agent_step.
  pose proof (run_one_agent_more_fuel fuel' env_var w Hle) as Hmore.
  destruct (run_one_agent env_var w) as [lines w1|e w1|].
  - intros Hrest. rewrite Hmore by discriminate. now apply IH.
  - intros _. now rewrite Hmore by discriminate.
  - intros H. now destruct H.
Qed.

(** X21: with a positive polling interval the scripts end: fuel for
    [max_attempts] attempts and for the polls one timeout can hold is
    enough for the harness and for the command line of [verify_agent.py],
    and more fuel than that does not change what the harness does. *)
Theorem scripts_end (w : World) :
  (0 < poll_interval)%Q ->
  (enough_fuel poll_interval timeout max_attempts <= fuel)%nat ->
  test_agents w <> OutOfFuel
  /\ (forall fuel',
        (fuel <= fuel')%nat ->
        TestAllAgents.test_agents fuel' remote env ticket poll_interval timeout
          max_attempts initial_backoff max_backoff w
        = test_agents w)
  /\ (forall shown aid,
        VerifyAgentMain.main fuel remote env
          {| VerifyAgentMain.ticket := ticket;
             VerifyAgentMain.poll_interval := poll_interval;
             VerifyAgentMain.timeout := timeout;
             VerifyAgentMain.show_transcript := shown;
             VerifyAgentMain.max_attempts := max_attempts;
             VerifyAgentMain.initial_backoff := initial_backoff;
             VerifyAgentMain.max_backoff := max_backoff;
             VerifyAgentMain.agent_id := aid |} w
        <> OutOfFuel).
Proof.
  intros Hp Hf.
  assert (Hends : test_agents w <> OutOfFuel).
  { unfold TestAllAgents.test_agents, TestAllAgents._require_env.
    unfold bind at 1.
    destruct (env !! "AIFOUNDRY_PROJECT_ENDPOINT") as [value|]; [|discriminate].
    destruct (String.eqb value ""); [discriminate|]. unfold ret at 1.
    now apply for_each_agent_ends. }
  split; [exact Hends|]. split.
  - intros fuel' Hle. revert Hends.
    unfold TestAllAgents.test_agents, TestAllAgents._require_env.
    unfold bind at 1 3.
    destruct (env !! "AIFOUNDRY_PROJECT_ENDPOINT") as [value|]; [|reflexivity].
    destruct (String.eqb value ""); [reflexivity|]. unfold ret at 1 2.
    now apply for_each_agent_more_fuel.
  - intros shown aid. rewrite MainFacts.main_unfold.
    cbn [VerifyAgentMain.agent_id VerifyAgentMain.ticket VerifyAgentMain.poll_interval
         VerifyAgentMain.timeout VerifyAgentMain.max_attempts
         VerifyAgentMain.initial_backoff VerifyAgentMain.max_backoff
         VerifyAgentMain.show_transcript].
    destruct (match aid with
              | Some given =>
                  if String.eqb given ""
                  then VerifyAgent._require_env env "TRIAGE_AGENT_ID" w
                  else Done given w
              | None => VerifyAgent._require_env env "TRIAGE_AGENT_ID" w
              end) as [agent w0|e w0|] eqn:Eid; [|discriminate|].
    + pose proof (RunDriverFacts.verify_agent_ends fuel remote env ticket
                    poll_interval timeout max_attempts initial_backoff max_backoff
                    agent w0 Hp Hf) as Hcall.
      destruct (verify_agent _ _ _ _ _ _ _ _ _ _ w0) as [o w1|e w1|];
        [discriminate | discriminate | contradiction].
    + exfalso. revert Eid. unfold VerifyAgent._require_env, raise, ret.
      destruct aid as [given|]; [destruct (String.eqb given ""); [|discriminate]|];
        (destruct (env !! "TRIAGE_AGENT_ID") as [v|]; [|discriminate]);
        destruct (String.eqb v ""); discriminate.
Qed.

End Harness.

(** X20: the exit status of [test_all_agents.py].  [main] ends in an
    exception of the reading of the settings exactly when that reading
    does; otherwise it runs the harness in the environment the settings
    files have made, passes on what the harness raises, and returns 0
    whenever the harness returns its mapping of the four agents: the
    outcomes' [succeeded] is not looked at. *)
Theorem harness_main_status (fuel : nat) (remote : Remote)
    (fs : EnvSetup.EnvPath -> EnvSetup.FileState) (config : option EnvSetup.json)
    (environ : gmap string string) (args : TestAllAgentsMain.Args) (w : World) :
  let harness environ' :=
    TestAllAgents.test_agents fuel remote environ' (TestAllAgentsMain.ticket args)
      (TestAllAgentsMain.poll_interval args) (TestAllAgentsMain.timeout args)
      (TestAllAgentsMain.max_attempts args) (TestAllAgentsMain.initial_backoff args)
      (TestAllAgentsMain.max_backoff args) w in
  let settings :=
    EnvSetup._initialize_env fs config (TestAllAgentsMain.env_file args) environ in
  (forall e,
     TestAllAgentsMain.main fuel remote fs config environ args w
     = TestAllAgentsMain.SettingsRaised e
     <-> settings = EnvSetup.InitRaised e)
  /\ (forall c w',
        TestAllAgentsMain.main fuel remote fs config environ args w
        = TestAllAgentsMain.Ran (Done c w')
        <-> c = 0%Z
            /\ exists environ' outputs,
                 settings = EnvSetup.Settings environ'
                 /\ harness environ' = Done outputs w'
                 /\ keys outputs = ["priority"; "team"; "effort"; "triage"])
  /\ (forall e w',
        TestAllAgentsMain.main fuel remote fs config environ args w
        = TestAllAgentsMain.Ran (Raised e w')
        <-> exists environ',
              settings = EnvSetup.Settings environ' /\ harness environ' = Raised e w').
Proof.
  cbv zeta. unfold TestAllAgentsMain.main.
  destruct (EnvSetup._initialize_env fs config (TestAllAgentsMain.env_file args) environ)
    as [environ'|e0].
  2:{ split; [intros e; split; congruence|]. split.
      - intros c w'. split; [discriminate|]. now intros (_ & e' & o & H & _).
      - intros e w'. split; [discriminate|]. now intros (e' & H & _). }
  split; [intros e; split; discriminate|].
  unfold bind, ret.
  destruct (TestAllAgents.test_agents _ _ _ _ _ _ _ _ _ w) as [outputs w1|e1 w1|] eqn:E.
  - split.
    + intros c w'. split.
      * intros [= <- <-]. split; [reflexivity|]. exists environ', outputs.
        split; [reflexivity|]. split; [exact E|].
        exact (test_agents_keys _ _ _ _ _ _ _ _ _ _ _ _ E).
      * intros (-> & e' & o & [= <-] & H & _). rewrite E in H. now injection H as <- <-.
    + intros e w'. split; [discriminate|].
      intros (e' & [= <-] & H). rewrite E in H. discriminate.
  - split.
    + intros c w'. split; [discriminate|].
      intros (_ & e' & o & [= <-] & H & _). rewrite E in H. discriminate.
    + intros e w'. split.
      * intros [= <- <-]. now exists environ'.
      * intros (e' & [= <-] & H). rewrite E in H. now injection H as <- <-.
  - split.
    + intros c w'. split; [discriminate|].
      intros (_ & e' & o & [= <-] & H & _). rewrite E in H. discriminate.
    + intros e w'. split; [discriminate|].
      intros (e' & [= <-] & H). rewrite E in H. discriminate.
Qed.

(** X21 for the harness with poll interval 1, timeout 5 and three
    attempts: fuel 10 is enough. *)
Lemma scripts_end_witness :
  TestAllAgents.test_agents 10 Scenarios.remote_recovers Scenarios.env "VPN outage"
    1 5 3 7 30 Scenarios.start <> OutOfFuel
  /\ TestAllAgents.test_agents 20 Scenarios.remote_recovers Scenarios.env "VPN outage"
       1 5 3 7 30 Scenarios.start
     = TestAllAgents.test_agents 10 Scenarios.remote_recovers Scenarios.env
         "VPN outage" 1 5 3 7 30 Scenarios.start.
Proof.
  assert (Hp : (0 < 1)%Q) by reflexivity.
  assert (Hf : (enough_fuel 1 5 3 <= 10)%nat) by (vm_compute; lia).
  destruct (scripts_end 10 Scenarios.remote_recovers Scenarios.env "VPN outage"
              1 5 3 7 30 Scenarios.start Hp Hf) as (H1 & H2 & _).
  split; [exact H1|]. apply H2. lia.
Defined.

(** X22 for a harness whose every first run is rate limited: eight
    runs on four threads. *)
Lemma test_agents_side_effects_witness :
  exists outputs w' new,
    TestAllAgents.test_agents 10
      (Scenarios.scripted
         (fun runs fetches => if Nat.even runs then Scenarios.completed
                              else Scenarios.rate_limited))
      Scenarios.env "VPN outage" 1 5 3 7 30 Scenarios.start = Done outputs w'
    /\ history w' = history Scenarios.start ++ new
    /\ count is_thread_created new = 4%nat
    /\ count is_message_created new = 4%nat
    /\ count (fun e => match e with MessagesListed _ => true | _ => false end) new
       = 4%nat
    /\ count is_deleted new = 0%nat
    /\ (4 <= count is_run_created new)%nat
    /\ (Z.of_nat (count is_run_created new) <= 4 * Z.max 0 3)%Z.
Proof.
  eexists _, _.
  assert (H : TestAllAgents.test_agents 10
                (Scenarios.scripted
                   (fun runs fetches => if Nat.even runs then Scenarios.completed
                                        else Scenarios.rate_limited))
                Scenarios.env "VPN outage" 1 5 3 7 30 Scenarios.start
              = Done ?[outputs] ?[w'])
    by (vm_compute; reflexivity).
  destruct (test_agents_side_effects _ _ _ _ _ _ _ _ _ _ _ _ H) as (new & Hnew).
  exists new. split; [exact H | exact Hnew].
Defined.

(** Every run fails, for a reason other than a rate limit: the harness
    still returns its mapping, and the exit status is 0. *)
Example harness_all_fail_exit_zero :
  exists w',
    TestAllAgentsMain.main 10 Scenarios.remote_fails (fun _ => EnvSetup.Missing) None
      Scenarios.env TestAllAgentsMain.default_args Scenarios.start
    = TestAllAgentsMain.Ran (Done 0%Z w')
    /\ count is_run_created (history w') = 4%nat.
Proof. eexists. split; vm_compute; reflexivity. Qed.

(** The setting of the last agent is missing: the three agents before it
    are run, then the harness exits. *)
Example harness_checks_settings_late :
  exists w',
    TestAllAgents.test_agents 10 Scenarios.remote_completes
      (delete "TRIAGE_AGENT_ID" Scenarios.env) "VPN outage" 1 5 3 7 30 Scenarios.start
    = Raised (SystemExit "TRIAGE_AGENT_ID") w'
    /\ count is_thread_created (history w') = 3%nat.
Proof. eexists. split; vm_compute; reflexivity. Qed.

End HarnessRunFacts.
